(** * int-quoter: request authentication and order materialisation

    A shallow embedding of [app/routes/orders.jsx] and of the verifier it
    shares with [app/routes/proxy.$.jsx]:

    - [verifyShopifyRequest]: HMAC-SHA256 check of the query parameters;
    - [parseOrderData] and [parseCartText]: normalisation of the payload;
    - [action]: the POST handler of [/orders].

    A JavaScript string is represented by its UTF-8 encoding, one [ascii]
    per byte: this is what a string literal of this file contains and what
    [crypto.createHmac(..).update(..)] hashes. *)

From Stdlib Require Import List String Ascii NArith ZArith Bool Lia.
From Stdlib Require Import Sorted Permutation.
From Stdlib Require Import SpecFloat.
Import ListNotations.

Local Open Scope string_scope.
Local Open Scope list_scope.
Set Warnings "-register-all".

(* ================================================================== *)
(** ** SHA-256 (FIPS 180-4) and HMAC (RFC 2104), as Node's [crypto] *)
(* ================================================================== *)

Module SHA256.
Local Open Scope N_scope.

Definition mask32 : N := 0xFFFFFFFF.
Definition w32 (x : N) : N := N.land x mask32.
Definition add32 (x y : N) : N := w32 (x + y).
Definition not32 (x : N) : N := N.lxor x mask32.
Definition rotr (n x : N) : N :=
  N.lor (N.shiftr x n) (w32 (N.shiftl x (32 - n))).
Definition shr (n x : N) : N := N.shiftr x n.

Definition Ch (x y z : N) := N.lxor (N.land x y) (N.land (not32 x) z).
Definition Maj (x y z : N) :=
  N.lxor (N.lxor (N.land x y) (N.land x z)) (N.land y z).
Definition bsig0 x := N.lxor (N.lxor (rotr 2 x) (rotr 13 x)) (rotr 22 x).
Definition bsig1 x := N.lxor (N.lxor (rotr 6 x) (rotr 11 x)) (rotr 25 x).
Definition ssig0 x := N.lxor (N.lxor (rotr 7 x) (rotr 18 x)) (shr 3 x).
Definition ssig1 x := N.lxor (N.lxor (rotr 17 x) (rotr 19 x)) (shr 10 x).

(** A number written in hexadecimal, and the 32-bit words of a string
    of hexadecimal digits, eight digits each. *)
Definition hex_digit (c : ascii) : N :=
  let n := N_of_ascii c in if n <? 58 then n - 48 else n - 87.

Fixpoint hex_words (acc : N) (k : nat) (s : string) : list N :=
  match s with
  | EmptyString => []
  | String c s' =>
      let acc' := acc * 16 + hex_digit c in
      match k with
      | O => acc' :: hex_words 0 7 s'
      | S k' => hex_words acc' k' s'
      end
  end.

(** The round constants: the first 32 bits of the fractional parts of the
    cube roots of the first 64 primes. *)
Definition K : list N :=
  Eval vm_compute in
    hex_words 0 7
      ("428a2f9871374491b5c0fbcfe9b5dba53956c25b59f111f1923f82a4ab1c5ed5"
       ++ "d807aa9812835b01243185be550c7dc372be5d7480deb1fe9bdc06a7c19bf174"
       ++ "e49b69c1efbe47860fc19dc6240ca1cc2de92c6f4a7484aa5cb0a9dc76f988da"
       ++ "983e5152a831c66db00327c8bf597fc7c6e00bf3d5a7914706ca635114292967"
       ++ "27b70a852e1b21384d2c6dfc53380d13650a7354766a0abb81c2c92e92722c85"
       ++ "a2bfe8a1a81a664bc24b8b70c76c51a3d192e819d6990624f40e3585106aa070"
       ++ "19a4c1161e376c082748774c34b0bcb5391c0cb34ed8aa4a5b9cca4f682e6ff3"
       ++ "748f82ee78a5636f84c878148cc7020890befffaa4506cebbef9a3f7c67178f2")%string.

(** The eight working variables, also the chaining value. *)
Record state := mkState
  { ha : N; hb : N; hc : N; hd : N; he : N; hf : N; hg : N; hh : N }.

(** The initial value: from the square roots of the first 8 primes. *)
Definition H0 : state :=
  Eval vm_compute in
    match
      hex_words 0 7
        "6a09e667bb67ae853c6ef372a54ff53a510e527f9b05688c1f83d9ab5be0cd19"
    with
    | [a; b; c; d; e; f; g; h] => mkState a b c d e f g h
    | _ => mkState 0 0 0 0 0 0 0 0
    end.

Definition round (s : state) (k w : N) : state :=
  let t1 := add32 (add32 (add32 (add32 (hh s) (bsig1 (he s)))
                                (Ch (he s) (hf s) (hg s))) k) w in
  let t2 := add32 (bsig0 (ha s)) (Maj (ha s) (hb s) (hc s)) in
  mkState (add32 t1 t2) (ha s) (hb s) (hc s)
          (add32 (hd s) t1) (he s) (hf s) (hg s).

(** [win] holds W[t] .. W[t+15]; each round consumes W[t] and appends
    W[t+16]. *)
Definition next_w (win : list N) : N :=
  add32 (add32 (add32 (ssig1 (nth 14 win 0)) (nth 9 win 0))
               (ssig0 (nth 1 win 0))) (nth 0 win 0).

Fixpoint rounds (ks : list N) (win : list N) (s : state) : state :=
  match ks with
  | [] => s
  | k :: ks' =>
      rounds ks' (tl win ++ [next_w win]) (round s k (nth 0 win 0))
  end.

Definition compress (s : state) (block : list N) : state :=
  let r := rounds K block s in
  mkState (add32 (ha s) (ha r)) (add32 (hb s) (hb r))
          (add32 (hc s) (hc r)) (add32 (hd s) (hd r))
          (add32 (he s) (he r)) (add32 (hf s) (hf r))
          (add32 (hg s) (hg r)) (add32 (hh s) (hh r)).

(** Big-endian bytes of a word, and back. *)
Definition be_bytes (n : nat) (x : N) : list N :=
  map (fun i => N.land (N.shiftr x (8 * N.of_nat i)) 0xFF) (rev (seq 0 n)).

Fixpoint be_words (bs : list N) (n : nat) : list N :=
  match n, bs with
  | S n', b0 :: b1 :: b2 :: b3 :: bs' =>
      (N.shiftl b0 24 + N.shiftl b1 16 + N.shiftl b2 8 + b3)
        :: be_words bs' n'
  | _, _ => []
  end.

Definition pad (msg : list N) : list N :=
  let l := N.of_nat (List.length msg) in
  let k := (119 - l mod 64) mod 64 in
  msg ++ [0x80] ++ repeat 0 (N.to_nat k) ++ be_bytes 8 (8 * l).

Fixpoint blocks (n : nat) (bs : list N) (s : state) : state :=
  match n with
  | O => s
  | S n' =>
      match bs with
      | [] => s
      | _ => blocks n' (skipn 64 bs) (compress s (be_words (firstn 64 bs) 16))
      end
  end.

Definition digest_of_state (s : state) : list N :=
  be_bytes 4 (ha s) ++ be_bytes 4 (hb s) ++ be_bytes 4 (hc s)
    ++ be_bytes 4 (hd s) ++ be_bytes 4 (he s) ++ be_bytes 4 (hf s)
    ++ be_bytes 4 (hg s) ++ be_bytes 4 (hh s).

Definition hash_state (msg : list N) : state :=
  let p := pad msg in blocks (List.length p) p H0.

Definition hash (msg : list N) : list N := digest_of_state (hash_state msg).
End SHA256.

Module HMAC.
Local Open Scope N_scope.

Definition block_size : nat := 64.

(** A key longer than a block is hashed first; it is then zero-padded to
    the block size. *)
Definition block_key (key : list N) : list N :=
  let k := if Nat.ltb block_size (List.length key)
           then SHA256.hash key else key in
  k ++ repeat 0 (block_size - List.length k).

Definition xor_pad (p : N) (k : list N) : list N := map (N.lxor p) k.

Definition hmac_state (key msg : list N) : SHA256.state :=
  let k := block_key key in
  SHA256.hash_state
    (xor_pad 0x5c k ++ SHA256.hash (xor_pad 0x36 k ++ msg)).
End HMAC.

(** [digest("hex")]: two lowercase hexadecimal digits per byte. *)
Module Hex.
Local Open Scope N_scope.

Definition digit (n : N) : ascii :=
  ascii_of_N (if n <? 10 then 48 + n else 87 + n).

Definition byte (b : N) (rest : string) : string :=
  String (digit (N.shiftr b 4)) (String (digit (N.land b 0xF)) rest).

Definition word (x : N) (rest : string) : string :=
  byte (N.land (N.shiftr x 24) 0xFF)
    (byte (N.land (N.shiftr x 16) 0xFF)
       (byte (N.land (N.shiftr x 8) 0xFF)
          (byte (N.land x 0xFF) rest))).

Definition of_state (s : SHA256.state) : string :=
  word (SHA256.ha s) (word (SHA256.hb s) (word (SHA256.hc s)
    (word (SHA256.hd s) (word (SHA256.he s) (word (SHA256.hf s)
      (word (SHA256.hg s) (word (SHA256.hh s) EmptyString))))))).
End Hex.

(** The bytes of a string. *)
Definition bytes (s : string) : list N :=
  map N_of_ascii (list_ascii_of_string s).

(** [crypto.createHmac("sha256", key).update(msg).digest("hex")] *)
Definition createHmac_sha256_hex (key msg : string) : string :=
  Hex.of_state (HMAC.hmac_state (bytes key) (bytes msg)).

Definition sha256_hex (msg : string) : string :=
  Hex.of_state (SHA256.hash_state (bytes msg)).


(* ================================================================== *)
(** ** Strings *)
(* ================================================================== *)

(** Code-unit-wise helpers of the JavaScript [String] prototype, on the
    UTF-8 representation.  UTF-8 is self-synchronising, so a search for a
    well-formed needle finds exactly its occurrences as a character
    sequence. *)
Module JSString.

(** [s.includes(needle)] *)
Fixpoint includes (needle s : string) : bool :=
  prefix needle s
  || match s with
     | EmptyString => false
     | String _ s' => includes needle s'
     end.

(** [s.split(sep)] for a one-byte separator: the pieces between the
    occurrences of [sep]; never the empty list. *)
Fixpoint split (sep : ascii) (s : string) : list string :=
  match s with
  | EmptyString => [EmptyString]
  | String c s' =>
      if Ascii.eqb c sep then EmptyString :: split sep s'
      else match split sep s' with
           | [] => [String c EmptyString]
           | piece :: pieces => String c piece :: pieces
           end
  end.

(** [pieces.join(sep)] *)
Definition join (sep : string) (pieces : list string) : string :=
  String.concat sep pieces.

(** [!s] on a string: only the empty string is falsy. *)
Definition falsy (s : string) : bool :=
  match s with EmptyString => true | _ => false end.

End JSString.

(* ================================================================== *)
(** ** URLSearchParams *)
(* ================================================================== *)

(** The query parameters of a request: name/value pairs in the order of
    the query string, duplicates kept. *)
Module URLSearchParams.

Definition t : Type := list (string * string).

(** [params.get(name)]: the first value of [name], [None] for [null]. *)
Fixpoint get (params : t) (name : string) : option string :=
  match params with
  | [] => None
  | (k, v) :: rest => if String.eqb k name then Some v else get rest name
  end.

(** [params.delete(name)] removes every pair named [name]. *)
Definition delete (params : t) (name : string) : t :=
  filter (fun e => negb (String.eqb (fst e) name)) params.

(** [new URLSearchParams(params)] *)
Definition copy (params : t) : t := params.

(** [Array.from(params.entries())] *)
Definition entries (params : t) : list (string * string) := params.

End URLSearchParams.

(* ================================================================== *)
(** ** Array.prototype.sort *)
(* ================================================================== *)

(** ECMAScript requires [sort] to be stable and, for a consistent
    comparator, to return the elements in ascending order.  For such a
    comparator every stable sort returns the same array; the model is
    insertion from the right, where an element moves past those that
    compare strictly below it. *)
Module ArraySort.
Section Sort.
Context {A : Type}.
Variable comparefn : A -> A -> Z.

Fixpoint insert (x : A) (l : list A) : list A :=
  match l with
  | [] => [x]
  | y :: l' =>
      if (comparefn x y <=? 0)%Z then x :: l else y :: insert x l'
  end.

Definition sort (l : list A) : list A := fold_right insert [] l.
End Sort.
End ArraySort.

(* ================================================================== *)
(** ** String.prototype.localeCompare *)
(* ================================================================== *)

(** [localeCompare] is the collation of the JavaScript engine (ICU in
    Node).  The verifier is parametrised by it; this module gives the
    two comparators the development instantiates it with. *)
Module Collation.
Local Open Scope N_scope.

Fixpoint lex (a b : list N) : comparison :=
  match a, b with
  | [], [] => Eq
  | [], _ :: _ => Lt
  | _ :: _, [] => Gt
  | x :: a', y :: b' =>
      match x ?= y with
      | Eq => lex a' b'
      | c => c
      end
  end.

Definition sign (c : comparison) : Z :=
  match c with Lt => (-1)%Z | Eq => 0%Z | Gt => 1%Z end.

(** Ordinal comparison: byte by byte. *)
Definition ordinal (a b : string) : Z := sign (lex (bytes a) (bytes b)).

Definition is_upper (c : N) : bool := (65 <=? c) && (c <=? 90).
Definition is_lower (c : N) : bool := (97 <=? c) && (c <=? 122).
Definition is_digit (c : N) : bool := (48 <=? c) && (c <=? 57).

(** Primary weight: the underscore, then the digits, then the letters
    without regard to case.  Other bytes are placed after the letters in
    byte order, which is not what the ICU tables do; the model is meant
    for parameter names over letters, digits and the underscore. *)
Definition primary (c : N) : N :=
  if c =? 95 then 1
  else if is_digit c then c - 46
  else if is_lower c then c - 85
  else if is_upper c then c - 53
  else 38 + c.

(** Tertiary weight: lower case before upper case. *)
Definition tertiary (c : N) : N := if is_upper c then 1 else 0.

(** A sort key: the primary weights, a separator below every weight,
    then the tertiary weights. *)
Definition sortKey (s : string) : list N :=
  map primary (bytes s) ++ [0] ++ map tertiary (bytes s).

(** The root collation on names over letters, digits and underscore:
    compare the primary weights first, the case only to break ties. *)
Definition localeCompare (a b : string) : Z :=
  sign (lex (sortKey a) (sortKey b)).

End Collation.

(* ================================================================== *)
(** ** verifyShopifyRequest *)
(* ================================================================== *)

Section Verifier.
(** [a.localeCompare(b)] *)
Variable localeCompare : string -> string -> Z.

Definition entry : Type := (string * string)%type.

(** [([a], [b]) => a.localeCompare(b)] *)
Definition compareKeys (a b : entry) : Z := localeCompare (fst a) (fst b).

(** [([key, value]) => `${key}=${value}`] *)
Definition keyValue (e : entry) : string := fst e ++ "=" ++ snd e.

(** The entries of the copy without [signature], sorted. *)
Definition sortedEntries (searchParams : URLSearchParams.t) : list entry :=
  let params :=
    URLSearchParams.delete (URLSearchParams.copy searchParams) "signature" in
  ArraySort.sort compareKeys (URLSearchParams.entries params).

(** The constant [sortedParams] of the source: the string that is
    hashed. *)
Definition sortedParams (searchParams : URLSearchParams.t) : string :=
  JSString.join EmptyString (map keyValue (sortedEntries searchParams)).

(** [sharedSecret] is [process.env.SHOPIFY_API_SECRET]: [None] when the
    variable is not set. *)
Definition verifyShopifyRequest
    (searchParams : URLSearchParams.t) (sharedSecret : option string)
    : bool :=
  match sharedSecret with
  | None => false
  | Some secret =>
      if JSString.falsy secret then false
      else
        match URLSearchParams.get searchParams "signature" with
        | None => false
        | Some signature =>
            if JSString.falsy signature then false
            else
              let computedSignature :=
                createHmac_sha256_hex secret (sortedParams searchParams) in
              String.eqb computedSignature signature
        end
  end.
End Verifier.

(* ================================================================== *)
(** ** JavaScript values, exceptions *)
(* ================================================================== *)

(** A number is an IEEE 754 binary64 value. *)
Definition number : Type := spec_float.

Definition number_of_Z (z : Z) : number := binary_normalize 53 1024 z 0 false.

(** The values a payload is made of.  In an object a later binding of a
    name overrides an earlier one, as in [JSON.parse] and
    [Object.fromEntries]. *)
Inductive value : Type :=
| VUndefined
| VNull
| VBool (b : bool)
| VNumber (x : number)
| VString (s : string)
| VArray (items : list value)
| VObject (fields : list (string * value)).

(** [!!v] *)
Definition truthy (v : value) : bool :=
  match v with
  | VUndefined | VNull => false
  | VBool b => b
  | VNumber (S754_zero _) | VNumber S754_nan => false
  | VNumber _ => true
  | VString s => negb (JSString.falsy s)
  | VArray _ | VObject _ => true
  end.

(** An [Error] object: its constructor name and its [message]
    property. *)
Record error : Type := mkError { error_name : string; error_message : value }.

(** What a [throw] throws and what a promise rejects with: an [Error]
    object or any other value, [null] and [undefined] among them. *)
Inductive thrown : Type :=
| ThrownError (e : error)
| ThrownValue (v : value).
Coercion ThrownError : error >-> thrown.

Definition TypeError (message : string) : error :=
  mkError "TypeError" (VString message).
Definition SyntaxError (message : string) : error :=
  mkError "SyntaxError" (VString message).

(** A computation that returns or throws; [await] of a promise that
    resolves or rejects. *)
Inductive result (A : Type) : Type :=
| Ok (a : A)
| Throw (e : thrown).
Arguments Ok {A} a.
Arguments Throw {A} e.

Definition bind {A B : Type} (c : result A) (k : A -> result B) : result B :=
  match c with
  | Ok a => k a
  | Throw e => Throw e
  end.

(** [try { c } catch (error) { handler }] *)
Definition try_catch {A : Type} (c : result A)
    (handler : thrown -> result A) : result A :=
  match c with
  | Ok a => Ok a
  | Throw e => handler e
  end.

Notation "x <- c ;; k" := (bind c (fun x => k))
  (at level 61, c at next level, right associativity).

Fixpoint mapM {A B : Type} (f : A -> result B) (l : list A)
    : result (list B) :=
  match l with
  | [] => Ok []
  | a :: l' => b <- f a ;; bs <- mapM f l' ;; Ok (b :: bs)
  end.

Fixpoint lookup (name : string) (fields : list (string * value))
    : option value :=
  match fields with
  | [] => None
  | (k, v) :: rest =>
      match lookup name rest with
      | Some v' => Some v'
      | None => if String.eqb k name then Some v else None
      end
  end.

(** [o[name]] for the property names this module reads: none of them is an
    index, [length] or a member of a built-in prototype, so a boolean, a
    number, a string and an array have no such property. *)
Definition getProp (o : value) (name : string) : result value :=
  match o with
  | VUndefined =>
      Throw (TypeError ("Cannot read properties of undefined (reading '"
                          ++ name ++ "')"))
  | VNull =>
      Throw (TypeError ("Cannot read properties of null (reading '"
                          ++ name ++ "')"))
  | VObject fields =>
      match lookup name fields with
      | Some v => Ok v
      | None => Ok VUndefined
      end
  | _ => Ok VUndefined
  end.

(** [error.message] in a [catch (error)]: the message of an [Error]
    object; on another value a property read, which throws on [null] and
    [undefined]. *)
Definition messageOf (error : thrown) : result value :=
  match error with
  | ThrownError e => Ok (error_message e)
  | ThrownValue v => getProp v "message"
  end.

(* ================================================================== *)
(** ** parseCartText *)
(* ================================================================== *)

Definition LF : ascii := "010"%char.
Definition times : string := "×".
(** The two bytes of U+00D7. *)
Definition times1 : ascii := "195"%char.
Definition times2 : ascii := "151"%char.
Definition dollar : string := "$".

(** The regular expression [/(\d+)\s*×/] *)
Module QuantityRegExp.

(** [\d] *)
Definition is_digit (c : ascii) : bool :=
  (48 <=? N_of_ascii c)%N && (N_of_ascii c <=? 57)%N.

(** [\s]: the white space and line terminators of ECMAScript, by the
    length of their UTF-8 encoding. *)
Definition is_space1 (c : ascii) : bool :=
  let n := N_of_ascii c in
  ((9 <=? n) && (n <=? 13) || (n =? 32))%N.

(** U+00A0 *)
Definition is_space2 (c1 c2 : ascii) : bool :=
  let a := N_of_ascii c1 in let b := N_of_ascii c2 in
  ((a =? 0xC2) && (b =? 0xA0))%N.

(** U+1680, U+2000..U+200A, U+2028, U+2029, U+202F, U+205F, U+3000,
    U+FEFF *)
Definition is_space3 (c1 c2 c3 : ascii) : bool :=
  let a := N_of_ascii c1 in
  let b := N_of_ascii c2 in
  let c := N_of_ascii c3 in
  (((a =? 0xE1) && (b =? 0x9A) && (c =? 0x80))
   || ((a =? 0xE2) && (b =? 0x80)
       && (((0x80 <=? c) && (c <=? 0x8A))
           || (c =? 0xA8) || (c =? 0xA9) || (c =? 0xAF)))
   || ((a =? 0xE2) && (b =? 0x81) && (c =? 0x9F))
   || ((a =? 0xE3) && (b =? 0x80) && (c =? 0x80))
   || ((a =? 0xEF) && (b =? 0xBB) && (c =? 0xBF)))%N.

(** [\s*×] at the start of [s]; greedy, one white-space character at a
    time, giving characters back when what follows does not match. *)
Fixpoint spaces_times (s : string) : bool :=
  match s with
  | String c1 r1 =>
      if is_space1 c1 then spaces_times r1 || prefix times s
      else
        match r1 with
        | String c2 r2 =>
            if is_space2 c1 c2 then spaces_times r2 || prefix times s
            else
              match r2 with
              | String c3 r3 =>
                  if is_space3 c1 c2 c3
                  then spaces_times r3 || prefix times s
                  else prefix times s
              | EmptyString => prefix times s
              end
        | EmptyString => prefix times s
        end
  | EmptyString => prefix times s
  end.

(** [(\d+)\s*×] at the start of [s]: the text of group 1.  Greedy: a
    further digit is tried before the rest of the pattern. *)
Fixpoint match_here (s : string) : option string :=
  match s with
  | String c s' =>
      if is_digit c then
        match match_here s' with
        | Some ds => Some (String c ds)
        | None =>
            if spaces_times s' then Some (String c EmptyString) else None
        end
      else None
  | EmptyString => None
  end.

(** [line.match(/(\d+)\s*×/)]: the leftmost match, [None] for [null];
    [Some ds] when [quantityMatch[1]] is [ds]. *)
Fixpoint exec (line : string) : option string :=
  match match_here line with
  | Some ds => Some ds
  | None =>
      match line with
      | String _ rest => exec rest
      | EmptyString => None
      end
  end.

End QuantityRegExp.

(** [parseInt(s)] without a radix. *)
Module ParseInt.

(** Leading white space is skipped. *)
Fixpoint trim (n : nat) (s : string) : string :=
  match n with
  | O => s
  | S n' =>
      match s with
      | String c1 r1 =>
          if QuantityRegExp.is_space1 c1 then trim n' r1
          else
            match r1 with
            | String c2 r2 =>
                if QuantityRegExp.is_space2 c1 c2 then trim n' r2
                else
                  match r2 with
                  | String c3 r3 =>
                      if QuantityRegExp.is_space3 c1 c2 c3 then trim n' r3
                      else s
                  | EmptyString => s
                  end
            | EmptyString => s
            end
      | EmptyString => s
      end
  end.

Definition digit_value (radix : N) (c : ascii) : option N :=
  let n := N_of_ascii c in
  let d := (if (48 <=? n) && (n <=? 57) then Some (n - 48)
            else if (97 <=? n) && (n <=? 122) then Some (n - 87)
            else if (65 <=? n) && (n <=? 90) then Some (n - 55)
            else None)%N in
  match d with
  | Some v => if (v <? radix)%N then Some v else None
  | None => None
  end.

(** The digits of the longest prefix in [radix], accumulated; [None]
    when there is no digit. *)
Fixpoint digits (radix : N) (seen : option N) (s : string) : option N :=
  match s with
  | String c s' =>
      match digit_value radix c with
      | Some d =>
          digits radix
            (Some (match seen with
                   | Some a => a * radix + d
                   | None => d
                   end)%N) s'
      | None => seen
      end
  | EmptyString => seen
  end.

Definition strip_sign (s : string) : bool * string :=
  match s with
  | String "-" r => (true, r)
  | String "+" r => (false, r)
  | _ => (false, s)
  end.

Definition strip_hex_prefix (s : string) : N * string :=
  match s with
  | String "0" (String "x" r) => (16%N, r)
  | String "0" (String "X" r) => (16%N, r)
  | _ => (10%N, s)
  end.

Definition parseInt (s : string) : number :=
  let '(negative, s1) := strip_sign (trim (String.length s) s) in
  let '(radix, s2) := strip_hex_prefix s1 in
  match digits radix None s2 with
  | None => S754_nan
  | Some n =>
      let x := number_of_Z (Z.of_N n) in
      if negative then SFopp x else x
  end.

End ParseInt.

(** A line item of the draft order. *)
Record lineItem : Type := mkLineItem { variantId : value; quantity : value }.

Definition defaultVariantId : string :=
  "gid://shopify/ProductVariant/49457743036715".

(** [.filter((line) => line.includes("×") && line.includes("$"))] *)
Definition isItemLine (line : string) : bool :=
  JSString.includes times line && JSString.includes dollar line.

(** The callback of [cartLines.map] *)
Definition lineItemOfLine (line : string) : lineItem :=
  let quantityMatch := QuantityRegExp.exec line in
  let quantity :=
    match quantityMatch with
    | Some group1 => ParseInt.parseInt group1
    | None => number_of_Z 1
    end in
  mkLineItem (VString defaultVariantId) (VNumber quantity).

Definition parseCartText (cartText : value) : result (list lineItem) :=
  if negb (truthy cartText) then Ok []
  else
    match cartText with
    | VString text =>
        let cartLines := filter isItemLine (JSString.split LF text) in
        Ok (map lineItemOfLine cartLines)
    | _ => Throw (TypeError "cartText.split is not a function")
    end.

(* ================================================================== *)
(** ** parseOrderData *)
(* ================================================================== *)

Record orderData : Type := mkOrderData
  { email : value;
    full_name : value;
    shipping_address1 : value;
    shipping_city : value;
    shipping_province : value;
    shipping_country : value;
    shipping_zip : value;
    cart : value;
    cart_line_items : value;
    cart_total : value;
    (** [None] while the property [lineItems] has not been assigned. *)
    lineItems : option (list lineItem) }.

(** [orderData.lineItems = items] *)
Definition set_lineItems (o : orderData) (items : list lineItem) : orderData :=
  mkOrderData (email o) (full_name o) (shipping_address1 o) (shipping_city o)
    (shipping_province o) (shipping_country o) (shipping_zip o) (cart o)
    (cart_line_items o) (cart_total o) (Some items).

(** [lineItems.map((item) => ({ variantId: item.variantId,
    quantity: item.quantity }))] on the value [JSON.parse] returned. *)
Definition mapLineItems (parsed : value) : result (list lineItem) :=
  match parsed with
  | VArray items =>
      mapM (fun item =>
              v <- getProp item "variantId" ;;
              q <- getProp item "quantity" ;;
              Ok (mkLineItem v q)) items
  | VUndefined =>
      Throw (TypeError "Cannot read properties of undefined (reading 'map')")
  | VNull =>
      Throw (TypeError "Cannot read properties of null (reading 'map')")
  | _ => Throw (TypeError "lineItems.map is not a function")
  end.

(** The object literal [parseOrderData] starts with: each field is read
    from the payload, [lineItems] is not among them. *)
Definition readFields (payload : value) : result orderData :=
  email <- getProp payload "quote[email]" ;;
  full_name <- getProp payload "quote[full_name]" ;;
  shipping_address1 <- getProp payload "quote[shipping_address1]" ;;
  shipping_city <- getProp payload "quote[shipping_city]" ;;
  shipping_province <- getProp payload "quote[shipping_province]" ;;
  shipping_country <- getProp payload "quote[shipping_country]" ;;
  shipping_zip <- getProp payload "quote[shipping_zip]" ;;
  cart <- getProp payload "quote[Cart]" ;;
  cart_line_items <- getProp payload "quote[cart_line_items]" ;;
  cart_total <- getProp payload "quote[cart_total]" ;;
  Ok (mkOrderData email full_name shipping_address1 shipping_city
        shipping_province shipping_country shipping_zip cart
        cart_line_items cart_total None).

Section Normalizer.
(** [JSON.parse(v)], with the conversion of [v] to a string it starts
    with. *)
Variable JSON_parse : value -> result value.

(** The body of the [try]: parse the structured field and map it. *)
Definition structuredLineItems (data : orderData)
    : result (list lineItem) :=
  parsed <- JSON_parse (cart_line_items data) ;;
  mapLineItems parsed.

(** The [if] that assigns [orderData.lineItems]. *)
Definition deriveLineItems (data : orderData) : result orderData :=
  if truthy (cart_line_items data) then
    try_catch
      (items <- structuredLineItems data ;;
       Ok (set_lineItems data items))
      (fun _ =>
         items <- parseCartText (cart data) ;;
         Ok (set_lineItems data items))
  else if truthy (cart data) then
    items <- parseCartText (cart data) ;;
    Ok (set_lineItems data items)
  else Ok data.

Definition parseOrderData (payload : value) : result orderData :=
  data <- readFields payload ;;
  deriveLineItems data.
End Normalizer.

(* ================================================================== *)
(** ** JSON.parse on a fragment of JSON *)
(* ================================================================== *)

(** The parser the examples run with.  It reads the JSON texts made of
    [null], [true], [false], integer literals, strings without [\u]
    escapes, arrays and objects; a text with a fraction, an exponent or a
    [\u] escape is outside the fragment and is answered as a syntax
    error, like a text outside JSON. *)
Module JSON.

Definition is_ws (c : ascii) : bool :=
  let n := N_of_ascii c in
  ((n =? 32) || (n =? 9) || (n =? 10) || (n =? 13))%N.

Fixpoint skip_ws (s : string) : string :=
  match s with
  | String c r => if is_ws c then skip_ws r else s
  | EmptyString => s
  end.

(** The characters of a string literal after its opening quote. *)
Fixpoint chars (s : string) : option (string * string) :=
  match s with
  | EmptyString => None
  | String c r =>
      if Ascii.eqb c "034" then Some (EmptyString, r)
      else if Ascii.eqb c "092" then
        match r with
        | String e r' =>
            let unescaped :=
              (if Ascii.eqb e "034" then Some "034"
               else if Ascii.eqb e "092" then Some "092"
               else if Ascii.eqb e "/" then Some "/"
               else if Ascii.eqb e "b" then Some "008"
               else if Ascii.eqb e "f" then Some "012"
               else if Ascii.eqb e "n" then Some "010"
               else if Ascii.eqb e "r" then Some "013"
               else if Ascii.eqb e "t" then Some "009"
               else None)%char in
            match unescaped, chars r' with
            | Some u, Some (str, rest) => Some (String u str, rest)
            | _, _ => None
            end
        | EmptyString => None
        end
      else if (N_of_ascii c <? 32)%N then None
      else
        match chars r with
        | Some (str, rest) => Some (String c str, rest)
        | None => None
        end
  end.

Fixpoint digits (acc : N) (s : string) : N * string :=
  match s with
  | String c r =>
      if QuantityRegExp.is_digit c
      then digits (acc * 10 + (N_of_ascii c - 48))%N r
      else (acc, s)
  | EmptyString => (acc, s)
  end.

(** An integer literal: [0], or a non-zero digit and further digits; not
    followed by a fraction or an exponent. *)
Definition integer (s : string) : option (N * string) :=
  match s with
  | String c r =>
      if Ascii.eqb c "0" then Some (0%N, r)
      else if QuantityRegExp.is_digit c then Some (digits 0 s)
      else None
  | EmptyString => None
  end.

Definition no_fraction (s : string) : bool :=
  match s with
  | String c _ =>
      negb (Ascii.eqb c "." || Ascii.eqb c "e" || Ascii.eqb c "E"
            || QuantityRegExp.is_digit c)
  | EmptyString => true
  end.

Definition literal (s : string) : option (value * string) :=
  match s with
  | String "n" (String "u" (String "l" (String "l" r))) => Some (VNull, r)
  | String "t" (String "r" (String "u" (String "e" r))) =>
      Some (VBool true, r)
  | String "f" (String "a" (String "l" (String "s" (String "e" r)))) =>
      Some (VBool false, r)
  | String "034" r =>
      match chars r with
      | Some (str, rest) => Some (VString str, rest)
      | None => None
      end
  | String "-" r =>
      match integer r with
      | Some (n, rest) =>
          if no_fraction rest
          then Some (VNumber (SFopp (number_of_Z (Z.of_N n))), rest)
          else None
      | None => None
      end
  | _ =>
      match integer s with
      | Some (n, rest) =>
          if no_fraction rest
          then Some (VNumber (number_of_Z (Z.of_N n)), rest)
          else None
      | None => None
      end
  end.

(** [val]: a value; [elems]: the elements of an array after its first
    bracket or a comma; [members]: likewise for an object. *)
Fixpoint val (fuel : nat) (s : string) : option (value * string) :=
  match fuel with
  | O => None
  | S fuel' =>
      match skip_ws s with
      | String "[" r =>
          match skip_ws r with
          | String "]" rest => Some (VArray [], rest)
          | _ =>
              match elems fuel' r with
              | Some (vs, rest) => Some (VArray vs, rest)
              | None => None
              end
          end
      | String "{" r =>
          match skip_ws r with
          | String "}" rest => Some (VObject [], rest)
          | _ =>
              match members fuel' r with
              | Some (fs, rest) => Some (VObject fs, rest)
              | None => None
              end
          end
      | s' => literal s'
      end
  end
with elems (fuel : nat) (s : string) : option (list value * string) :=
  match fuel with
  | O => None
  | S fuel' =>
      match val fuel' s with
      | Some (v, r) =>
          match skip_ws r with
          | String "," r' =>
              match elems fuel' r' with
              | Some (vs, rest) => Some (v :: vs, rest)
              | None => None
              end
          | String "]" rest => Some ([v], rest)
          | _ => None
          end
      | None => None
      end
  end
with members (fuel : nat) (s : string)
    : option (list (string * value) * string) :=
  match fuel with
  | O => None
  | S fuel' =>
      match skip_ws s with
      | String "034" r =>
          match chars r with
          | Some (key, r1) =>
              match skip_ws r1 with
              | String ":" r2 =>
                  match val fuel' r2 with
                  | Some (v, r3) =>
                      match skip_ws r3 with
                      | String "," r4 =>
                          match members fuel' r4 with
                          | Some (fs, rest) => Some ((key, v) :: fs, rest)
                          | None => None
                          end
                      | String "}" rest => Some ([(key, v)], rest)
                      | _ => None
                      end
                  | None => None
                  end
              | _ => None
              end
          | None => None
          end
      | _ => None
      end
  end.

Definition parse_text (text : string) : result value :=
  match val (2 * String.length text + 2) text with
  | Some (v, rest) =>
      match skip_ws rest with
      | EmptyString => Ok v
      | _ => Throw (SyntaxError "Unexpected token in JSON")
      end
  | None => Throw (SyntaxError "Unexpected token in JSON")
  end.

(** [JSON.parse(v)].  A string is parsed; [true], [false], [null] and a
    finite number print as a JSON text of themselves (the sign of zero
    is not printed); [undefined], an object, [NaN] and the infinities
    print as a text that is not JSON.  The printing of an array is not
    modelled. *)
Definition parse (v : value) : result value :=
  match v with
  | VString text => parse_text text
  | VBool _ | VNull => Ok v
  | VNumber (S754_zero _) => Ok (VNumber (S754_zero false))
  | VNumber (S754_finite _ _ _) => Ok v
  | _ => Throw (SyntaxError "Unexpected token in JSON")
  end.

End JSON.

(* ================================================================== *)
(** ** createDraftOrder and the POST handler of /orders *)
(* ================================================================== *)

(** The [variables] of the [draftOrderCreate] mutation. *)
Module DraftOrderInput.
Record shippingAddress : Type := mkShippingAddress
  { address1 : value; city : value; province : value; country : value;
    zip : value }.

Record t : Type := mkInput
  { email : value;
    shippingAddress_ : shippingAddress;
    lineItems : option (list lineItem);
    tags : list string }.
End DraftOrderInput.

Definition DRAFT_ORDER_MUTATION : string :=
  "
    mutation draftOrderCreate($input: DraftOrderInput!) {
      draftOrderCreate(input: $input) {
        draftOrder {
          id
          invoiceUrl
          status
          lineItems(first: 5) {
            edges {
              node {
                title
                quantity
                variant {
                  id
                  price
                }
              }
            }
          }
        }
        userErrors {
          field
          message
        }
      }
    }
  ".

(** What [draftOrderResult] holds when the response is built. *)
Inductive draftOrderResult : Type :=
| DraftOrderNull
| DraftOrderResponse (response : value)
| DraftOrderFailure (error : value) (success : bool).

Inductive responseBody : Type :=
| UnauthorizedBody (error message : string)
| ReceivedBody (success : bool) (message timestamp : string)
               (data : orderData) (draftOrder : draftOrderResult)
| FailedBody (success : bool) (error : string) (message : value).

Record response : Type := mkResponse { body : responseBody; status : Z }.

(** [json(body, { status })] *)
Definition json (b : responseBody) (st : Z) : response := mkResponse b st.

(** The request as the handler sees it: the query parameters of its URL,
    its [content-type] header and what each reader of the body resolves
    or rejects with. *)
Record request : Type := mkRequest
  { url_searchParams : URLSearchParams.t;
    header_content_type : option string;
    request_json : result value;
    request_formData : result (list (string * string));
    request_text : result string }.

(** [Object.fromEntries(formData)] *)
Definition Object_fromEntries (entries : list (string * string)) : value :=
  VObject (map (fun e => (fst e, VString (snd e))) entries).

(** [contentType?.includes(needle)] as a condition *)
Definition header_includes (contentType : option string) (needle : string)
    : bool :=
  match contentType with
  | Some s => JSString.includes needle s
  | None => false
  end.

Section Handler.
Variable localeCompare : string -> string -> Z.
Variable JSON_parse : value -> result value.

(** The admin client, [unauthenticated.admin(shop)] and
    [admin.graphql(query, { variables })]. *)
Variable admin : Type.
Variable unauthenticated_admin : string -> result admin.
Variable admin_graphql :
  admin -> string -> DraftOrderInput.t -> result value.

(** [process.env.SHOPIFY_API_SECRET] *)
Variable SHOPIFY_API_SECRET : option string.
(** [new Date().toISOString()] *)
Variable now : string.

Definition createDraftOrder (adm : admin) (data : orderData)
    : result value :=
  let variables :=
    DraftOrderInput.mkInput (email data)
      (DraftOrderInput.mkShippingAddress
         (shipping_address1 data) (shipping_city data)
         (shipping_province data) (shipping_country data)
         (shipping_zip data))
      (lineItems data)
      ["International-Quote"] in
  try_catch (admin_graphql adm DRAFT_ORDER_MUTATION variables)
            (fun error => Throw error).

Definition readPayload (req : request) : result value :=
  let contentType := header_content_type req in
  if header_includes contentType "application/json" then request_json req
  else if header_includes contentType "application/x-www-form-urlencoded"
  then formData <- request_formData req ;; Ok (Object_fromEntries formData)
  else text <- request_text req ;; Ok (VString text).

(** The inner [try]: the submission of the draft order. *)
Definition submitDraftOrder (searchParams : URLSearchParams.t)
    (data : orderData) : result draftOrderResult :=
  match URLSearchParams.get searchParams "shop" with
  | Some shop =>
      if JSString.falsy shop then Ok DraftOrderNull
      else
        adm <- unauthenticated_admin shop ;;
        draftOrderResponse <- createDraftOrder adm data ;;
        (* the log reads [draftOrderResponse.data?. ...] *)
        _ <- getProp draftOrderResponse "data" ;;
        Ok (DraftOrderResponse draftOrderResponse)
  | None => Ok DraftOrderNull
  end.

(** The outer [try]: the body is read and normalised, the draft order
    submitted, and the 200 response built.  The [catch] of the inner [try]
    reads [error.message]. *)
Definition receive (req : request) : result response :=
  payload <- readPayload req ;;
  data <- parseOrderData JSON_parse payload ;;
  draftOrderResult <-
    try_catch (submitDraftOrder (url_searchParams req) data)
      (fun error =>
         message <- messageOf error ;;
         Ok (DraftOrderFailure message false)) ;;
  Ok (json (ReceivedBody true
              "Order payload received and draft order created"
              now data draftOrderResult) 200).

(** [export const action]: it returns a response, or throws when the
    [catch] of the outer [try] does. *)
Definition action (req : request) : result response :=
  let searchParams := url_searchParams req in
  let sharedSecret := SHOPIFY_API_SECRET in
  let isVerified :=
    verifyShopifyRequest localeCompare searchParams sharedSecret in
  if negb isVerified then
    Ok (json (UnauthorizedBody "Unauthorized"
                "Request signature verification failed") 401)
  else
    try_catch (receive req)
      (fun error =>
         message <- messageOf error ;;
         Ok (json (FailedBody false "Failed to process order payload"
                     message) 500)).
End Handler.

(* ================================================================== *)
(** ** The specification's side *)
(* ================================================================== *)

Module Spec.

(** A comparator [cmp] is consistent, as [Array.prototype.sort] asks of
    its argument: of two elements one is at or below the other, and
    being at or below is transitive. *)
Definition consistent (cmp : string -> string -> Z) : Prop :=
  (forall a b, (0 < cmp a b -> cmp b a <= 0)%Z)
  /\ (forall a b c, (cmp a b <= 0 -> cmp b c <= 0 -> cmp a c <= 0)%Z).

(** [a] is at or below [b]. *)
Definition keyLe (cmp : string -> string -> Z) (a b : entry) : Prop :=
  (cmp (fst a) (fst b) <= 0)%Z.

(** The keys of [l] ascend for the order [cmp] decides. *)
Definition ascending (cmp : string -> string -> Z) (keys : list string)
    : Prop :=
  Sorted (fun a b => (cmp a b <= 0)%Z) keys.

(** The candidate set: the parameters other than [signature]. *)
Definition candidates (params : URLSearchParams.t) : list entry :=
  filter (fun e => negb (String.eqb (fst e) "signature")) params.

(** [key=value] for each pair, one after the other, nothing between. *)
Fixpoint serialize (l : list entry) : string :=
  match l with
  | [] => EmptyString
  | (key, val) :: rest => key ++ "=" ++ val ++ serialize rest
  end.

(** A signer that sorts as [cmp] decides: the digest of the candidate
    set, sorted by key and serialized.  With [Collation.ordinal] it sorts
    byte-wise. *)
Definition sign (cmp : string -> string -> Z)
    (params : URLSearchParams.t) (secret : string) : string :=
  createHmac_sha256_hex secret
    (serialize (ArraySort.sort (compareKeys cmp) (candidates params))).

(** A signature as the specification describes the signer, whatever the
    signer's sort: the digest of the candidate pairs, arranged with their
    keys ascending byte-wise and serialized. *)
Definition Signed (secret : string) (params : URLSearchParams.t)
    (signature : string) : Prop :=
  exists arranged : list entry,
    Permutation arranged (candidates params)
    /\ ascending Collation.ordinal (map fst arranged)
    /\ signature = createHmac_sha256_hex secret (serialize arranged).

(** [cmp] orders the keys of [params] as their bytes do. *)
Definition ordersByBytes (cmp : string -> string -> Z)
    (params : URLSearchParams.t) : Prop :=
  forall e1 e2, In e1 params -> In e2 params ->
                ((cmp (fst e1) (fst e2) <= 0)%Z
                 <-> (Collation.ordinal (fst e1) (fst e2) <= 0)%Z).

(** Two parameter sets that differ in the value of one parameter, which
    is not the signature. *)
Inductive tampered : URLSearchParams.t -> URLSearchParams.t -> Prop :=
| tampered_intro (before after : URLSearchParams.t)
                 (key val val' : string) :
    key <> "signature" -> val <> val' ->
    tampered (before ++ (key, val) :: after)
             (before ++ (key, val') :: after).

(** [null] or [undefined] *)
Definition nullish (v : value) : bool :=
  match v with
  | VUndefined | VNull => true
  | _ => false
  end.

(** The field [name] of a payload; [VUndefined] when absent. *)
Definition field (payload : value) (name : string) : value :=
  match payload with
  | VObject fields =>
      match lookup name fields with
      | Some v => v
      | None => VUndefined
      end
  | _ => VUndefined
  end.

(** A cart description that is a text, or is falsy. *)
Definition text_or_falsy (v : value) : Prop :=
  (exists text, v = VString text) \/ truthy v = false.

(** The structured field is malformed: [JSON.parse] throws on it, or
    accepts it and the mapping to line items throws. *)
Definition malformed (JSON_parse : value -> result value) (v : value)
    : Prop :=
  (exists e, JSON_parse v = Throw e)
  \/ (exists parsed e,
        JSON_parse v = Ok parsed /\ mapLineItems parsed = Throw e).

(** [needle] occurs in [s]. *)
Definition Contains (needle s : string) : Prop :=
  exists pre post, s = (pre ++ needle ++ post)%string.

(** The lines of a text: there is at least one, joined by line feeds they
    give the text back, and none contains a line feed. *)
Definition Lines (text : string) (lines : list string) : Prop :=
  lines <> []
  /\ String.concat (String LF EmptyString) lines = text
  /\ Forall (fun line => ~ In LF (list_ascii_of_string line)) lines.

(** An item line has the multiplication sign and the dollar sign. *)
Definition ItemLine (line : string) : Prop :=
  Contains times line /\ Contains dollar line.

(** [chosen] are the elements of [l] that satisfy [P], in the order of
    [l]. *)
Inductive Selected {A : Type} (P : A -> Prop) : list A -> list A -> Prop :=
| Selected_nil : Selected P [] []
| Selected_keep (a : A) (l chosen : list A) :
    P a -> Selected P l chosen -> Selected P (a :: l) (a :: chosen)
| Selected_skip (a : A) (l chosen : list A) :
    ~ P a -> Selected P l chosen -> Selected P (a :: l) chosen.

(** One or more decimal digits. *)
Definition Digits (ds : string) : Prop :=
  ds <> EmptyString
  /\ forall c, In c (list_ascii_of_string ds) ->
               QuantityRegExp.is_digit c = true.

(** Zero or more white-space characters. *)
Inductive Spaces : string -> Prop :=
| Spaces_nil : Spaces EmptyString
| Spaces_1 (c : ascii) (ws : string) :
    QuantityRegExp.is_space1 c = true -> Spaces ws ->
    Spaces (String c ws)
| Spaces_2 (c1 c2 : ascii) (ws : string) :
    QuantityRegExp.is_space2 c1 c2 = true -> Spaces ws ->
    Spaces (String c1 (String c2 ws))
| Spaces_3 (c1 c2 c3 : ascii) (ws : string) :
    QuantityRegExp.is_space3 c1 c2 c3 = true -> Spaces ws ->
    Spaces (String c1 (String c2 (String c3 ws))).

(** [s] starts with the digits [ds], then white space, then the
    multiplication sign. *)
Definition MatchAt (s ds : string) : Prop :=
  Digits ds
  /\ exists ws post, Spaces ws /\ s = (ds ++ ws ++ times ++ post)%string.

(** [ds] is the integer before the multiplication sign at the leftmost
    place of [line] where there is one. *)
Definition Match (line ds : string) : Prop :=
  exists pre suf,
    line = (pre ++ suf)%string /\ MatchAt suf ds
    /\ forall pre' suf' ds',
         line = (pre' ++ suf')%string ->
         (String.length pre' < String.length pre)%nat ->
         ~ MatchAt suf' ds'.

(** The number a string of decimal digits denotes. *)
Definition decimal (ds : string) : N :=
  fold_left (fun acc c => acc * 10 + (N_of_ascii c - 48))%N
            (list_ascii_of_string ds) 0%N.

(** The integer a number is, when it is one. *)
Definition integer_value (q : number) : option Z :=
  match q with
  | S754_zero _ => Some 0%Z
  | S754_finite s m e =>
      let v := if s then Z.neg m else Z.pos m in
      if (0 <=? e)%Z then Some (v * 2 ^ e)%Z
      else if (Z.pos m mod 2 ^ (- e) =? 0)%Z then Some (v / 2 ^ (- e))%Z
      else None
  | _ => None
  end.

(** The quantity of an item line: the integer matched before the
    multiplication sign, 1 when there is no match. *)
Definition QuantityOf (line : string) (q : number) : Prop :=
  (exists ds, Match line ds /\ q = number_of_Z (Z.of_N (decimal ds)))
  \/ ((forall ds, ~ Match line ds) /\ q = number_of_Z 1).

(** The line item derived from an item line. *)
Definition Derived (line : string) (item : lineItem) : Prop :=
  variantId item = VString defaultVariantId
  /\ exists q, quantity item = VNumber q /\ QuantityOf line q.

(** A lowercase hexadecimal digit. *)
Definition lower_hex (c : ascii) : bool :=
  let n := N_of_ascii c in
  ((48 <=? n) && (n <=? 57) || (97 <=? n) && (n <=? 102))%N.

(** Two keys the comparator does not tell apart. *)
Definition tie (cmp : string -> string -> Z) (a b : string) : Prop :=
  (cmp a b <= 0)%Z /\ (cmp b a <= 0)%Z.

(** No two different parameters have keys the comparator does not tell
    apart. *)
Definition untied (cmp : string -> string -> Z) (params : URLSearchParams.t)
    : Prop :=
  forall e1 e2, In e1 params -> In e2 params ->
                tie cmp (fst e1) (fst e2) -> e1 = e2.

End Spec.

(** Two lists of entries with the same keys, position by position, and
    the same values but at one position. *)
Inductive one_changed : list entry -> list entry -> Prop :=
| changed_here (key val val' : string) (l : list entry) :
    val <> val' -> one_changed ((key, val) :: l) ((key, val') :: l)
| changed_later (e : entry) (l l' : list entry) :
    one_changed l l' -> one_changed (e :: l) (e :: l').

(* ================================================================== *)
(** ** Requests used as examples *)
(* ================================================================== *)

Module Example.

Definition secret : string := "hush".

(** An app-proxy request, signed with [secret]. *)
Definition proxyParams : URLSearchParams.t :=
  [ ("shop", "quotes.myshopify.com");
    ("path_prefix", "/apps/quote");
    ("timestamp", "1700000000");
    ("signature",
     "16ea11c585125fe12a2c70e103961defce18b9ff0ef8356fe537fefd16deacd0") ].

(** The same request with another shop. *)
Definition forgedParams : URLSearchParams.t :=
  [ ("shop", "other.myshopify.com");
    ("path_prefix", "/apps/quote");
    ("timestamp", "1700000000");
    ("signature",
     "16ea11c585125fe12a2c70e103961defce18b9ff0ef8356fe537fefd16deacd0") ].

(** The same request with its parameters in another order. *)
Definition shuffledParams : URLSearchParams.t :=
  [ ("signature",
     "16ea11c585125fe12a2c70e103961defce18b9ff0ef8356fe537fefd16deacd0");
    ("timestamp", "1700000000");
    ("path_prefix", "/apps/quote");
    ("shop", "quotes.myshopify.com") ].

(** [?a=1&a=2&signature=..], signed over [a=1a=2], and the same pairs
    with the two values of [a] exchanged. *)
Definition repeatedKey : URLSearchParams.t :=
  [ ("a", "1"); ("a", "2");
    ("signature",
     "9add14221c64c325d628f34afd0b064bcb6f3dc821c1980dee64031a1a9b2be1") ].

Definition repeatedKeySwapped : URLSearchParams.t :=
  [ ("a", "2"); ("a", "1");
    ("signature",
     "9add14221c64c325d628f34afd0b064bcb6f3dc821c1980dee64031a1a9b2be1") ].

(** [?a=1&B=2&signature=..], signed over [B=2a=1]: the order of the
    bytes, [B] being 0x42 and [a] 0x61. *)
Definition mixedCase : URLSearchParams.t :=
  [ ("a", "1"); ("B", "2");
    ("signature",
     "a66a42f2f61055d4544e116d288fc5fa72744a2a0ae491402e0fc7ca7756fe3a") ].

(** The cart description of the specification's example. *)
Definition cartText : string :=
  "2 × Widget $10.00" ++ String LF "1 × Gadget $5.00".

(** A JSON body whose structured field is the JSON text [null] and whose
    cart description is the number 5. *)
Definition numericCart : value :=
  VObject [ ("quote[cart_line_items]", VString "null");
            ("quote[Cart]", VNumber (number_of_Z 5)) ].

(** A form whose structured field holds an array with [null] in it. *)
Definition nullItem : value :=
  VObject [ ("quote[email]", VString "ana@example.com");
            ("quote[cart_line_items]", VString "[null]");
            ("quote[Cart]", VString cartText) ].

(** A form whose structured field is not JSON. *)
Definition brokenJson : value :=
  VObject [ ("quote[email]", VString "ana@example.com");
            ("quote[cart_line_items]", VString "{not json");
            ("quote[Cart]", VString cartText) ].

(** A form without cart fields. *)
Definition noCart : value :=
  VObject [ ("quote[email]", VString "ana@example.com") ].

(** A signed POST of a form, and a collaborator that has no session for
    the shop. *)
Definition formRequest : request :=
  mkRequest proxyParams (Some "application/x-www-form-urlencoded")
    (Throw (SyntaxError "Unexpected token q in JSON at position 0"))
    (Ok [ ("quote[email]", "ana@example.com"); ("quote[Cart]", cartText) ])
    (Ok "quote%5Bemail%5D=ana%40example.com").

Definition noSession : error :=
  mkError "SessionNotFoundError"
    (VString "Could not find a session for shop quotes.myshopify.com").

Definition admin_without_session (shop : string) : result unit :=
  Throw noSession.

Definition graphql_unreached (adm : unit) (query : string)
    (variables : DraftOrderInput.t) : result value :=
  Ok VNull.

End Example.

(* ================================================================== *)
(** ** The app proxy: app/routes/proxy.$.jsx *)
(* ================================================================== *)

Module Proxy.

(** The request as the two handlers see it: the query parameters and the
    host of its URL, the splat parameter of the route, its [user-agent]
    header and what [request.formData()] resolves or rejects with. *)
Record request : Type := mkRequest
  { searchParams : URLSearchParams.t;
    host : string;
    splat : option string;
    user_agent : option string;
    formData : result (list (string * string)) }.

Inductive body : Type :=
| Unauthorized (error message : string)
| LoaderData (message timestamp path : string) (queryParams : value)
             (shop host userAgent : string) (verified : bool)
             (draftOrder : draftOrderResult)
| ActionData (message timestamp path method : string) (body : value)
             (shop : string) (verified : bool)
             (draftOrder : draftOrderResult).

Record response : Type := mkResponse
  { content : body; status : Z; headers : list (string * string) }.

(** [x || fallback] on a string that may be [null] or [undefined] *)
Definition or_else (x : option string) (fallback : string) : string :=
  match x with
  | Some s => if JSString.falsy s then fallback else s
  | None => fallback
  end.

(** The [variables] of this file's [createDraftOrder]: a fixed order. *)
Definition variables : DraftOrderInput.t :=
  DraftOrderInput.mkInput (VString "customer@example.com")
    (DraftOrderInput.mkShippingAddress
       (VString "123 Main St") (VString "Springfield") (VString "Illinois")
       (VString "United States") (VString "62704"))
    (Some [ mkLineItem (VString "gid://shopify/ProductVariant/49457743036715")
              (VNumber (number_of_Z 1)) ])
    ["VIP"; "PhoneOrder"].

Definition unauthorized : response :=
  mkResponse
    (Unauthorized "Unauthorized" "Request signature verification failed")
    401 [ ("Content-Type", "application/json") ].

Definition cors : list (string * string) :=
  [ ("Content-Type", "application/json");
    ("Access-Control-Allow-Origin", "*");
    ("Access-Control-Allow-Methods", "GET, POST, OPTIONS");
    ("Access-Control-Allow-Headers", "Content-Type") ].

Section Handlers.
Variable localeCompare : string -> string -> Z.
Variable admin : Type.
Variable unauthenticated_admin : string -> result admin.
Variable admin_graphql :
  admin -> string -> DraftOrderInput.t -> result value.
Variable SHOPIFY_API_SECRET : option string.
Variable now : string.

Definition createDraftOrder (adm : admin) : result value :=
  try_catch (admin_graphql adm DRAFT_ORDER_MUTATION variables)
            (fun error => Throw error).

(** The [try] of both handlers and its [catch], which reads
    [error.message] and is enclosed by no other [try]. *)
Definition draftOrderResultOf (params : URLSearchParams.t)
    : result draftOrderResult :=
  let attempt :=
    match URLSearchParams.get params "shop" with
    | Some shop =>
        if JSString.falsy shop then Ok DraftOrderNull
        else
          adm <- unauthenticated_admin shop ;;
          draftOrderResponse <- createDraftOrder adm ;;
          (* the log reads [draftOrderResponse.data?. ...] *)
          _ <- getProp draftOrderResponse "data" ;;
          Ok (DraftOrderResponse draftOrderResponse)
    | None => Ok DraftOrderNull
    end in
  try_catch attempt
    (fun error =>
       message <- messageOf error ;;
       Ok (DraftOrderFailure message false)).

(** [export const loader]: the GET handler. *)
Definition loader (req : request) : result response :=
  let path := or_else (splat req) EmptyString in
  let isVerified :=
    verifyShopifyRequest localeCompare (searchParams req)
      SHOPIFY_API_SECRET in
  if negb isVerified then Ok unauthorized
  else
    draftOrderResult <- draftOrderResultOf (searchParams req) ;;
    Ok (mkResponse
          (LoaderData "App proxy is working!" now path
             (Object_fromEntries (searchParams req))
             (or_else (URLSearchParams.get (searchParams req) "shop")
                "unknown")
             (host req) (or_else (user_agent req) "unknown")
             true draftOrderResult)
          200 cors).

(** [export const action]: the POST handler.  The form is read after the
    draft order, outside any [try]. *)
Definition action (req : request) : result response :=
  let path := or_else (splat req) EmptyString in
  let isVerified :=
    verifyShopifyRequest localeCompare (searchParams req)
      SHOPIFY_API_SECRET in
  if negb isVerified then Ok unauthorized
  else
    draftOrderResult <- draftOrderResultOf (searchParams req) ;;
    form <- formData req ;;
    let body := Object_fromEntries form in
    Ok (mkResponse
          (ActionData "App proxy POST is working!" now path "POST" body
             (or_else (URLSearchParams.get (searchParams req) "shop")
                "unknown")
             true draftOrderResult)
          200 cors).
End Handlers.

End Proxy.

(* ================================================================== *)
(** ** Further examples *)
(* ================================================================== *)

Module Sample.

Definition quoted (s : string) : string :=
  String "034" (s ++ String "034" EmptyString).

(** [[{"variantId":"gid://shopify/ProductVariant/123","quantity":3}]] *)
Definition structuredText : string :=
  "[{" ++ quoted "variantId" ++ ":"
       ++ quoted "gid://shopify/ProductVariant/123" ++ ","
       ++ quoted "quantity" ++ ":3}]".

(** A JSON body with a structured field, and a cart description that is
    not even a string. *)
Definition structured : value :=
  VObject [ ("quote[email]", VString "ana@example.com");
            ("quote[cart_line_items]", VString structuredText);
            ("quote[Cart]", VNumber (number_of_Z 5)) ].

(** A form that names its fields [contact[..]]. *)
Definition contactForm : value :=
  VObject [ ("contact[email]", VString "ana@example.com");
            ("contact[Cart]", VString Example.cartText) ].

(** The example request with a second [signature] added. *)
Definition twoSignatures : URLSearchParams.t :=
  Example.proxyParams ++ [("signature", "0000")].

(** [?a=1&b=2&signature=..] and [?a=1b%3D2&signature=..], both signed
    over [a=1b=2]. *)
Definition twoParams : URLSearchParams.t :=
  [ ("a", "1"); ("b", "2");
    ("signature",
     "b1f22d87382ee1c7aa52915101a5bd9d61d78374bac7f27183ceff5bf98effaa") ].

Definition oneParam : URLSearchParams.t :=
  [ ("a", "1b=2");
    ("signature",
     "b1f22d87382ee1c7aa52915101a5bd9d61d78374bac7f27183ceff5bf98effaa") ].

(** A signed request without [shop]. *)
Definition noShop : URLSearchParams.t :=
  [ ("timestamp", "1700000000");
    ("signature",
     "1037b0d07b6531182bc1275e6508b6bb0cb1dcd3a5315416bfec9c13cde59c62") ].

(** A signed JSON POST whose body is [null]. *)
Definition nullBody : request :=
  mkRequest Example.proxyParams (Some "application/json; charset=utf-8")
    (Ok VNull)
    (Throw (TypeError "Could not parse content as FormData."))
    (Ok "null").

(** A signed POST of a form, without [shop] in the query. *)
Definition noShopRequest : request :=
  mkRequest noShop (Some "application/x-www-form-urlencoded")
    (Throw (SyntaxError "Unexpected token q in JSON at position 0"))
    (Ok [ ("quote[email]", "ana@example.com");
          ("quote[Cart]", Example.cartText) ])
    (Ok "quote%5Bemail%5D=ana%40example.com").

(** A collaborator whose promise rejects with [undefined]. *)
Definition admin_rejecting_undefined (shop : string) : result unit :=
  Throw (ThrownValue VUndefined).

(** A collaborator that has a session and creates the draft order. *)
Definition admin_with_session (shop : string) : result unit := Ok tt.

Definition created : value :=
  VObject
    [ ("data",
       VObject
         [ ("draftOrderCreate",
            VObject
              [ ("draftOrder",
                 VObject [ ("id", VString "gid://shopify/DraftOrder/1");
                           ("status", VString "OPEN") ]);
                ("userErrors", VArray []) ]) ]) ].

Definition graphql_creates (adm : unit) (query : string)
    (variables : DraftOrderInput.t) : result value :=
  Ok created.

(** A signed proxy request whose form cannot be read. *)
Definition unreadableForm : Proxy.request :=
  Proxy.mkRequest Example.proxyParams "quotes.myshopify.com"
    (Some "quote") (Some "Mozilla/5.0")
    (Throw (TypeError "Could not parse content as FormData.")).

(** A signed proxy POST with a form. *)
Definition proxyPost : Proxy.request :=
  Proxy.mkRequest Example.proxyParams "quotes.myshopify.com"
    (Some "quote") (Some "Mozilla/5.0")
    (Ok [ ("quote[email]", "ana@example.com") ]).

(** A signed proxy GET without [shop]. *)
Definition proxyNoShop : Proxy.request :=
  Proxy.mkRequest noShop "quotes.myshopify.com" None None (Ok []).

(** [?a=v&signature=..], signed with the secret of the examples. *)
Definition signedValue (v : string) : URLSearchParams.t :=
  [ ("a", v);
    ("signature", createHmac_sha256_hex Example.secret ("a=" ++ v)) ].

(** The same request with the value [v] replaced by [v'], the signature
    kept. *)
Definition replacedValue (v v' : string) : URLSearchParams.t :=
  [ ("a", v');
    ("signature", createHmac_sha256_hex Example.secret ("a=" ++ v)) ].

(** An item line whose quantity is 2^53 + 1. *)
Definition largeQuantity : string := "9007199254740993 × Widget $10.00".

(** [n] times the digit 9. *)
Fixpoint nines (n : nat) : string :=
  match n with
  | O => EmptyString
  | S n' => String "9" (nines n')
  end.

(** An item line whose quantity has 310 digits. *)
Definition hugeQuantity : string := nines 310 ++ " × Widget $10.00".

End Sample.

(** What the counting of digests and values needs: the strings of [n]
    lowercase hexadecimal digits. *)
Module Counting.

Definition alphabet : list ascii := list_ascii_of_string "0123456789abcdef".

Fixpoint words (n : nat) : list string :=
  match n with
  | O => [EmptyString]
  | S n' => flat_map (fun c => map (String c) (words n')) alphabet
  end.

End Counting.

(* ================================================================== *)
(** * Properties *)
(* ================================================================== *)

(** ** Strings *)

Lemma append_assoc (a b c : string) : ((a ++ b) ++ c = a ++ (b ++ c))%string.
Proof. induction a as [|x a IH]; simpl; [reflexivity | now rewrite IH]. Qed.

Lemma append_nil_r (a : string) : (a ++ EmptyString)%string = a.
Proof. induction a as [|x a IH]; simpl; [reflexivity | now rewrite IH]. Qed.

Lemma append_length (a b : string) :
  String.length (a ++ b)%string = (String.length a + String.length b)%nat.
Proof. induction a as [|x a IH]; simpl; [reflexivity | now rewrite IH]. Qed.

Lemma append_inv_head (a b c : string) : (a ++ b = a ++ c)%string -> b = c.
Proof.
  induction a as [|x a IH]; simpl; intros H; [assumption|].
  injection H as H. auto.
Qed.

(** Two strings with a common tail are equal when the whole is. *)
Lemma append_inv_tail (a b c : string) : (a ++ c = b ++ c)%string -> a = b.
Proof.
  revert b. induction a as [|x a IH]; intros [|y b] H; simpl in H.
  - reflexivity.
  - exfalso. apply (f_equal String.length) in H. simpl in H.
    rewrite append_length in H. lia.
  - exfalso. apply (f_equal String.length) in H. simpl in H.
    rewrite append_length in H. lia.
  - injection H as -> H. f_equal. auto.
Qed.

Lemma falsy_empty (s : string) : JSString.falsy s = true <-> s = EmptyString.
Proof. destruct s; simpl; split; congruence. Qed.

Lemma join_nil_sep (l : list string) :
  JSString.join EmptyString l = fold_right append EmptyString l.
Proof.
  unfold JSString.join.
  induction l as [|a [|b l] IH]; simpl in *.
  - reflexivity.
  - now rewrite append_nil_r.
  - now rewrite <- IH.
Qed.

(** The string the source builds with [map] and [join] is the
    serialization of the specification. *)
Lemma join_keyValue (l : list entry) :
  JSString.join EmptyString (map keyValue l) = Spec.serialize l.
Proof.
  rewrite join_nil_sep.
  induction l as [|[k v] l IH]; simpl; [reflexivity|].
  rewrite IH. unfold keyValue. simpl. now rewrite !append_assoc.
Qed.

Lemma delete_candidates (params : URLSearchParams.t) :
  URLSearchParams.delete (URLSearchParams.copy params) "signature"
  = Spec.candidates params.
Proof. reflexivity. Qed.

Lemma sortedParams_serialize cmp (params : URLSearchParams.t) :
  sortedParams cmp params
  = Spec.serialize (ArraySort.sort (compareKeys cmp) (Spec.candidates params)).
Proof. unfold sortedParams. now rewrite join_keyValue. Qed.

(** ** The digest is never the empty string *)

Lemma hex_of_state_not_empty (s : SHA256.state) :
  JSString.falsy (Hex.of_state s) = false.
Proof. reflexivity. Qed.

Lemma createHmac_not_falsy (key msg : string) :
  JSString.falsy (createHmac_sha256_hex key msg) = false.
Proof. apply hex_of_state_not_empty. Qed.

(** ** The digest is lowercase hexadecimal *)

Lemma hex_digit_lower (n : N) :
  (n < 16)%N -> Spec.lower_hex (Hex.digit n) = true.
Proof.
  intros H. unfold Spec.lower_hex, Hex.digit.
  destruct (N.ltb_spec n 10).
  - rewrite N_ascii_embedding by lia.
    apply orb_true_iff. left. apply andb_true_iff.
    split; apply N.leb_le; lia.
  - rewrite N_ascii_embedding by lia.
    apply orb_true_iff. right. apply andb_true_iff.
    split; apply N.leb_le; lia.
Qed.

Lemma land_255 (x : N) : (N.land x 0xFF < 256)%N.
Proof.
  change 0xFF%N with (N.ones 8). rewrite N.land_ones.
  apply N.mod_lt. discriminate.
Qed.

Lemma hex_byte_lower (x : N) (rest : string) :
  Forall (fun c => Spec.lower_hex c = true) (list_ascii_of_string rest) ->
  Forall (fun c => Spec.lower_hex c = true)
         (list_ascii_of_string (Hex.byte (N.land x 0xFF) rest)).
Proof.
  intros R. unfold Hex.byte. cbn [list_ascii_of_string].
  constructor; [|constructor; [|exact R]]; apply hex_digit_lower.
  - pose proof (land_255 x) as L. rewrite N.shiftr_div_pow2.
    apply N.Div0.div_lt_upper_bound. simpl. lia.
  - change 0xF%N with (N.ones 4). rewrite N.land_ones.
    apply N.mod_lt. discriminate.
Qed.

Lemma hex_word_lower (x : N) (rest : string) :
  Forall (fun c => Spec.lower_hex c = true) (list_ascii_of_string rest) ->
  Forall (fun c => Spec.lower_hex c = true)
         (list_ascii_of_string (Hex.word x rest)).
Proof. intros R. unfold Hex.word. now repeat apply hex_byte_lower. Qed.

(** The digest is 64 characters among [0-9a-f]. *)
Lemma createHmac_lowercase_hex (key msg : string) :
  String.length (createHmac_sha256_hex key msg) = 64%nat
  /\ Forall (fun c => Spec.lower_hex c = true)
            (list_ascii_of_string (createHmac_sha256_hex key msg)).
Proof.
  split; [reflexivity|].
  unfold createHmac_sha256_hex, Hex.of_state.
  repeat apply hex_word_lower. constructor.
Qed.

(** ** The sort *)

Section SortFacts.
Context {A : Type}.
Variable comparefn : A -> A -> Z.

Let le (a b : A) : Prop := (comparefn a b <= 0)%Z.

Lemma insert_perm (x : A) (l : list A) :
  Permutation (ArraySort.insert comparefn x l) (x :: l).
Proof.
  induction l as [|y l IH]; simpl.
  - apply Permutation_refl.
  - destruct (comparefn x y <=? 0)%Z.
    + apply Permutation_refl.
    + eapply perm_trans; [apply perm_skip, IH | apply perm_swap].
Qed.

Lemma sort_perm (l : list A) : Permutation (ArraySort.sort comparefn l) l.
Proof.
  induction l as [|x l IH]; simpl.
  - apply perm_nil.
  - eapply perm_trans; [apply insert_perm | now apply perm_skip].
Qed.

Hypothesis total : forall a b, (0 < comparefn a b -> comparefn b a <= 0)%Z.
Hypothesis trans :
  forall a b c,
    (comparefn a b <= 0 -> comparefn b c <= 0 -> comparefn a c <= 0)%Z.

Lemma insert_sorted (x : A) (l : list A) :
  StronglySorted le l -> StronglySorted le (ArraySort.insert comparefn x l).
Proof.
  induction 1 as [|y l Hl IH Hy]; simpl.
  - constructor; constructor.
  - destruct (comparefn x y <=? 0)%Z eqn:E.
    + apply Z.leb_le in E.
      constructor; [constructor; assumption|].
      constructor; [exact E|].
      eapply Forall_impl; [|exact Hy].
      intros z Hz. exact (trans _ _ _ E Hz).
    + apply Z.leb_gt in E. constructor; [exact IH|].
      eapply Permutation_Forall.
      * apply Permutation_sym, insert_perm.
      * constructor; [apply total; lia | exact Hy].
Qed.

Lemma sort_sorted (l : list A) :
  StronglySorted le (ArraySort.sort comparefn l).
Proof.
  induction l as [|x l IH]; simpl; [constructor | now apply insert_sorted].
Qed.

(** Two sorted arrangements of the same elements are the same list when
    no two different elements tie. *)
Lemma sorted_perm_unique (l1 l2 : list A) :
  StronglySorted le l1 -> StronglySorted le l2 -> Permutation l1 l2 ->
  (forall a b, In a l1 -> In b l1 -> le a b -> le b a -> a = b) ->
  l1 = l2.
Proof.
  intros S1. revert l2.
  induction S1 as [|a l1 S1 IH Ha]; intros l2 S2 P U.
  - apply Permutation_nil in P. now subst.
  - destruct l2 as [|b l2].
    + apply Permutation_sym, Permutation_nil in P. discriminate.
    + apply StronglySorted_inv in S2 as [S2 Hb].
      assert (Hrefl : forall c, le c c).
      { intros c. unfold le.
        destruct (Z.leb_spec (comparefn c c) 0) as [|G]; [assumption|].
        now apply total. }
      assert (a = b) as <-.
      { assert (Ia : In a (b :: l2))
          by (eapply Permutation_in; [exact P | now left]).
        assert (Ib : In b (a :: l1))
          by (eapply Permutation_in;
              [apply Permutation_sym; exact P | now left]).
        apply U; [now left | exact Ib | |].
        - destruct Ib as [<-|Ib]; [apply Hrefl|].
          rewrite Forall_forall in Ha. now apply Ha.
        - destruct Ia as [<-|Ia]; [apply Hrefl|].
          rewrite Forall_forall in Hb. now apply Hb. }
      f_equal. apply IH; [exact S2 | |].
      * eapply Permutation_cons_inv; exact P.
      * intros x y Hx Hy. apply U; now right.
Qed.
End SortFacts.

(** The sort only asks the comparator about the elements of the list. *)
Lemma insert_ext_in {A : Type} (f g : A -> A -> Z) (x : A) (l : list A) :
  (forall y, In y l -> (f x y <=? 0)%Z = (g x y <=? 0)%Z) ->
  ArraySort.insert f x l = ArraySort.insert g x l.
Proof.
  induction l as [|y l IH]; intros H; [reflexivity|].
  cbn [ArraySort.insert]. rewrite (H y (or_introl eq_refl)).
  destruct (g x y <=? 0)%Z; [reflexivity|].
  f_equal. apply IH. intros z I. apply H. now right.
Qed.

Lemma sort_ext_in {A : Type} (f g : A -> A -> Z) (l : list A) :
  (forall a b, In a l -> In b l -> (f a b <=? 0)%Z = (g a b <=? 0)%Z) ->
  ArraySort.sort f l = ArraySort.sort g l.
Proof.
  induction l as [|x l IH]; intros H; [reflexivity|].
  cbn [ArraySort.sort fold_right].
  change (fold_right (ArraySort.insert f) [] l) with (ArraySort.sort f l).
  change (fold_right (ArraySort.insert g) [] l) with (ArraySort.sort g l).
  rewrite IH by (intros a b Ia Ib; apply H; now right).
  apply insert_ext_in. intros y I. apply H; [now left|].
  right. exact (Permutation_in _ (sort_perm g l) I).
Qed.

Lemma compareKeys_total cmp :
  Spec.consistent cmp ->
  forall a b, (0 < compareKeys cmp a b -> compareKeys cmp b a <= 0)%Z.
Proof. intros [T _] a b. apply T. Qed.

Lemma compareKeys_trans cmp :
  Spec.consistent cmp ->
  forall a b c,
    (compareKeys cmp a b <= 0 -> compareKeys cmp b c <= 0
     -> compareKeys cmp a c <= 0)%Z.
Proof. intros [_ T] a b c. apply T. Qed.

Lemma sortedEntries_sorted cmp (params : URLSearchParams.t) :
  Spec.consistent cmp ->
  StronglySorted (Spec.keyLe cmp) (sortedEntries cmp params).
Proof.
  intros C. unfold sortedEntries.
  apply (sort_sorted (compareKeys cmp));
    [now apply compareKeys_total | now apply compareKeys_trans].
Qed.

Lemma sortedEntries_perm cmp (params : URLSearchParams.t) :
  Permutation (sortedEntries cmp params) (Spec.candidates params).
Proof. unfold sortedEntries. rewrite delete_candidates. apply sort_perm. Qed.

(** ** The collations *)

Lemma lex_antisym (a b : list N) :
  Collation.lex b a = CompOpp (Collation.lex a b).
Proof.
  revert b. induction a as [|x a IH]; intros [|y b]; simpl; try reflexivity.
  rewrite (N.compare_antisym x y).
  destruct (x ?= y)%N; simpl; auto.
Qed.

Lemma lex_trans (a b c : list N) :
  Collation.lex a b <> Gt -> Collation.lex b c <> Gt ->
  Collation.lex a c <> Gt.
Proof.
  revert b c. induction a as [|x a IH]; intros [|y b] [|z c]; simpl;
    try congruence.
  destruct (N.compare_spec x y) as [->|Hxy|Hxy]; try congruence.
  - destruct (N.compare_spec y z) as [->|Hyz|Hyz]; try congruence.
    apply IH.
  - intros _.
    destruct (N.compare_spec y z) as [->|Hyz|Hyz]; try congruence; intros _.
    + destruct (N.compare_spec x z); try congruence; lia.
    + destruct (N.compare_spec x z); try congruence; lia.
Qed.

Lemma sign_lex_consistent (key : string -> list N) :
  Spec.consistent
    (fun a b => Collation.sign (Collation.lex (key a) (key b))).
Proof.
  split.
  - intros a b. rewrite (lex_antisym (key a) (key b)).
    destruct (Collation.lex (key a) (key b)); simpl; lia.
  - intros a b c H1 H2.
    pose proof (lex_trans (key a) (key b) (key c)) as T.
    destruct (Collation.lex (key a) (key b)),
             (Collation.lex (key b) (key c)),
             (Collation.lex (key a) (key c));
      simpl in *; try lia; exfalso; apply T; congruence.
Qed.

Lemma localeCompare_consistent : Spec.consistent Collation.localeCompare.
Proof. exact (sign_lex_consistent Collation.sortKey). Qed.

Lemma ordinal_consistent : Spec.consistent Collation.ordinal.
Proof. exact (sign_lex_consistent bytes). Qed.

(** ** The verifier *)

Lemma get_In (params : URLSearchParams.t) (name val : string) :
  URLSearchParams.get params name = Some val -> In (name, val) params.
Proof.
  induction params as [|[k v] l IH]; simpl; [discriminate|].
  destruct (String.eqb_spec k name) as [->|N].
  - intros [= ->]. now left.
  - intros H. right. auto.
Qed.

Lemma get_None (params : URLSearchParams.t) (name : string) :
  URLSearchParams.get params name = None ->
  forall val, ~ In (name, val) params.
Proof.
  induction params as [|[k v] l IH]; simpl; [tauto|].
  destruct (String.eqb_spec k name) as [->|N]; [discriminate|].
  intros H val [[= E _]|I]; [congruence | exact (IH H val I)].
Qed.

(** What [verifyShopifyRequest] computes once the secret and the signature
    are there. *)
Lemma verify_unfold cmp (params : URLSearchParams.t) (secret signature : string) :
  secret <> EmptyString -> signature <> EmptyString ->
  URLSearchParams.get params "signature" = Some signature ->
  verifyShopifyRequest cmp params (Some secret)
  = String.eqb (createHmac_sha256_hex secret
                  (Spec.serialize (sortedEntries cmp params)))
               signature.
Proof.
  intros Hs Hg G. unfold verifyShopifyRequest. rewrite G.
  destruct secret; [congruence|]. destruct signature; [congruence|].
  simpl JSString.falsy. cbv iota.
  unfold sortedParams. now rewrite join_keyValue.
Qed.

Lemma createHmac_not_empty (key msg : string) :
  createHmac_sha256_hex key msg <> EmptyString.
Proof.
  intros E. pose proof (createHmac_not_falsy key msg) as F.
  rewrite E in F. discriminate.
Qed.

(** [sortedEntries] is the sort of the candidate set. *)
Lemma sortedEntries_candidates cmp (params : URLSearchParams.t) :
  sortedEntries cmp params
  = ArraySort.sort (compareKeys cmp) (Spec.candidates params).
Proof. reflexivity. Qed.

(** C7.  [verifyShopifyRequest] returns false when the secret is absent or
    empty, whatever the signature, and when the parameters have no
    [signature]. *)
Theorem verify_false_without_secret_or_signature
    cmp (params : URLSearchParams.t) (sharedSecret : option string) :
  sharedSecret = None \/ sharedSecret = Some EmptyString
  \/ URLSearchParams.get params "signature" = None ->
  verifyShopifyRequest cmp params sharedSecret = false.
Proof.
  intros [->|[->|G]]; try reflexivity.
  unfold verifyShopifyRequest. rewrite G.
  destruct sharedSecret as [secret|]; [|reflexivity].
  now destruct (JSString.falsy secret).
Qed.

(** The signed example request, verified with an empty secret. *)
Lemma verify_false_without_secret_or_signature_witness :
  (Some EmptyString = None \/ Some EmptyString = Some EmptyString
   \/ URLSearchParams.get Example.proxyParams "signature" = None)
  /\ verifyShopifyRequest Collation.localeCompare Example.proxyParams
       (Some EmptyString) = false.
Proof.
  assert (H : Some EmptyString = None \/ Some EmptyString = Some EmptyString
              \/ URLSearchParams.get Example.proxyParams "signature" = None)
    by (right; left; reflexivity).
  split; [exact H|].
  exact (verify_false_without_secret_or_signature
           Collation.localeCompare Example.proxyParams (Some EmptyString) H).
Defined.

(** Keys that ascend are entries sorted by key. *)
Lemma ascending_keys_sorted cmp (l : list entry) :
  Spec.consistent cmp ->
  Spec.ascending cmp (map fst l) -> StronglySorted (Spec.keyLe cmp) l.
Proof.
  intros [_ T] A. apply Sorted_StronglySorted.
  - intros a b c. unfold Spec.keyLe. apply T.
  - unfold Spec.ascending in A.
    induction l as [|e l IH]; [constructor|].
    cbn [map] in A. apply Sorted_inv in A as [A Hd].
    constructor; [now apply IH|].
    destruct l as [|e' l]; constructor.
    cbn [map] in Hd. apply HdRel_inv in Hd. exact Hd.
Qed.

(** Byte-wise comparison tells two different keys apart. *)
Lemma lex_Eq (a b : list N) : Collation.lex a b = Eq -> a = b.
Proof.
  revert b. induction a as [|x a IH]; intros [|y b]; cbn [Collation.lex];
    try discriminate; [reflexivity|].
  destruct (N.compare_spec x y) as [->|_|_]; try discriminate.
  intros E. f_equal. now apply IH.
Qed.

Lemma bytes_inj (a b : string) : bytes a = bytes b -> a = b.
Proof.
  unfold bytes. revert b.
  induction a as [|c a IH]; intros [|d b]; cbn [list_ascii_of_string map];
    try discriminate; [reflexivity|].
  intros [= E R]. apply (f_equal ascii_of_N) in E.
  rewrite !ascii_N_embedding in E. subst d. f_equal. now apply IH.
Qed.

Lemma ordinal_tie (a b : string) : Spec.tie Collation.ordinal a b -> a = b.
Proof.
  unfold Spec.tie, Collation.ordinal. intros [H1 H2].
  rewrite (lex_antisym (bytes a) (bytes b)) in H2.
  apply bytes_inj, lex_Eq.
  destruct (Collation.lex (bytes a) (bytes b));
    cbn [CompOpp Collation.sign] in H1, H2; [reflexivity | lia | lia].
Qed.

(** Where [localeCompare] orders the keys as their bytes do, what the
    verifier serializes is the byte-wise arrangement. *)
Lemma sortedEntries_byte_order cmp (params : URLSearchParams.t)
    (arranged : list entry) :
  Spec.ordersByBytes cmp (Spec.candidates params) ->
  Spec.untied Collation.ordinal (Spec.candidates params) ->
  Permutation arranged (Spec.candidates params) ->
  Spec.ascending Collation.ordinal (map fst arranged) ->
  sortedEntries cmp params = arranged.
Proof.
  intros O U P A. rewrite sortedEntries_candidates.
  rewrite (sort_ext_in (compareKeys cmp) (compareKeys Collation.ordinal)).
  - apply (sorted_perm_unique (compareKeys Collation.ordinal)).
    + now apply compareKeys_total, ordinal_consistent.
    + apply sort_sorted;
        [ now apply compareKeys_total, ordinal_consistent
        | now apply compareKeys_trans, ordinal_consistent ].
    + exact (ascending_keys_sorted _ _ ordinal_consistent A).
    + eapply perm_trans; [apply sort_perm | now apply Permutation_sym].
    + intros a b Ia Ib L1 L2.
      apply U; [| |split; assumption].
      * exact (Permutation_in _ (sort_perm _ _) Ia).
      * exact (Permutation_in _ (sort_perm _ _) Ib).
  - intros a b Ia Ib. unfold compareKeys.
    destruct (Z.leb_spec (cmp (fst a) (fst b)) 0) as [L|G];
      destruct (Z.leb_spec (Collation.ordinal (fst a) (fst b)) 0)
        as [L'|G']; try reflexivity; exfalso.
    + apply (O a b Ia Ib) in L. lia.
    + apply (O a b Ia Ib) in L'. lia.
Qed.

(** C2, as the code has it.  Take a parameter set in which no key other
    than [signature] comes with two different values and whose keys
    [localeCompare] orders as their bytes do.  If its [signature] is the
    digest, under a non-empty secret, of its other parameters arranged
    with their keys ascending byte-wise and serialized as [key=value]
    without separator, it is verified. *)
Theorem byte_order_signature_verified cmp (params : URLSearchParams.t)
    (secret signature : string) :
  secret <> EmptyString ->
  Spec.ordersByBytes cmp (Spec.candidates params) ->
  Spec.untied Collation.ordinal (Spec.candidates params) ->
  URLSearchParams.get params "signature" = Some signature ->
  Spec.Signed secret params signature ->
  verifyShopifyRequest cmp params (Some secret) = true.
Proof.
  intros Hs O U G (arranged & P & A & E).
  assert (Hn : signature <> EmptyString)
    by (rewrite E; apply createHmac_not_empty).
  rewrite (verify_unfold cmp params secret signature Hs Hn G).
  rewrite (sortedEntries_byte_order cmp params arranged O U P A).
  rewrite E. apply String.eqb_refl.
Qed.

Lemma proxyParams_ordersByBytes :
  Spec.ordersByBytes Collation.localeCompare
    (Spec.candidates Example.proxyParams).
Proof.
  intros e1 e2 I1 I2. cbn in I1, I2.
  repeat (destruct I1 as [<-|I1]); try contradiction;
    repeat (destruct I2 as [<-|I2]); try contradiction;
    split; intros H; vm_compute in H |- *;
    first [ discriminate | exfalso; exact (H eq_refl) ].
Qed.

Lemma proxyParams_untied_bytes :
  Spec.untied Collation.ordinal (Spec.candidates Example.proxyParams).
Proof.
  intros e1 e2 I1 I2 T. apply ordinal_tie in T. cbn in I1, I2.
  repeat (destruct I1 as [<-|I1]); try contradiction;
    repeat (destruct I2 as [<-|I2]); try contradiction;
    try reflexivity; discriminate T.
Qed.

(** The example request carries the digest of
    [path_prefix=..shop=..timestamp=..], the byte-wise arrangement. *)
Lemma proxyParams_Signed :
  Spec.Signed Example.secret Example.proxyParams
    "16ea11c585125fe12a2c70e103961defce18b9ff0ef8356fe537fefd16deacd0".
Proof.
  exists [ ("path_prefix", "/apps/quote");
           ("shop", "quotes.myshopify.com");
           ("timestamp", "1700000000") ].
  split; [|split].
  - cbn. eapply perm_trans; [apply perm_swap|]. apply Permutation_refl.
  - unfold Spec.ascending. cbn [map fst].
    repeat (constructor; try (vm_compute; discriminate)).
  - vm_compute. reflexivity.
Qed.

Lemma byte_order_signature_verified_witness :
  Example.secret <> EmptyString
  /\ Spec.ordersByBytes Collation.localeCompare
       (Spec.candidates Example.proxyParams)
  /\ Spec.untied Collation.ordinal (Spec.candidates Example.proxyParams)
  /\ Spec.Signed Example.secret Example.proxyParams
       "16ea11c585125fe12a2c70e103961defce18b9ff0ef8356fe537fefd16deacd0"
  /\ verifyShopifyRequest Collation.localeCompare Example.proxyParams
       (Some Example.secret) = true.
Proof.
  assert (H1 : Example.secret <> EmptyString) by discriminate.
  split; [exact H1|]. split; [exact proxyParams_ordersByBytes|].
  split; [exact proxyParams_untied_bytes|].
  split; [exact proxyParams_Signed|].
  exact (byte_order_signature_verified Collation.localeCompare
           Example.proxyParams Example.secret _ H1
           proxyParams_ordersByBytes proxyParams_untied_bytes eq_refl
           proxyParams_Signed).
Defined.

(** C2, as the specification has it, fails.  The parameters [a=1] and
    [B=2] carry the digest of [B=2a=1], their byte-wise arrangement, [B]
    being 0x42 and [a] 0x61; the verifier hashes [a=1B=2], the arrangement
    of [localeCompare], and rejects the signature. *)
Lemma byte_order_signature_rejected :
  Example.secret <> EmptyString
  /\ (exists signature,
        URLSearchParams.get Example.mixedCase "signature" = Some signature
        /\ Spec.Signed Example.secret Example.mixedCase signature)
  /\ sortedParams Collation.localeCompare Example.mixedCase = "a=1B=2"
  /\ verifyShopifyRequest Collation.localeCompare Example.mixedCase
       (Some Example.secret) = false.
Proof.
  split; [discriminate|]. split; [|split; vm_compute; reflexivity].
  eexists. split; [reflexivity|].
  exists [ ("B", "2"); ("a", "1") ].
  split; [|split].
  - cbn. apply perm_swap.
  - unfold Spec.ascending. cbn [map fst].
    repeat (constructor; try (vm_compute; discriminate)).
  - vm_compute. reflexivity.
Qed.

(** C1, as the code has it.  For a consistent [localeCompare], the
    entries that are serialized are the parameters other than
    [signature], their keys ascend in the order [localeCompare] decides,
    and the string that is hashed lists their [key=value] in that
    order. *)
Theorem sortedParams_in_collation_order cmp (params : URLSearchParams.t) :
  Spec.consistent cmp ->
  Permutation (sortedEntries cmp params) (Spec.candidates params)
  /\ Spec.ascending cmp (map fst (sortedEntries cmp params))
  /\ sortedParams cmp params = Spec.serialize (sortedEntries cmp params)
  /\ forall secret signature,
       secret <> EmptyString -> signature <> EmptyString ->
       URLSearchParams.get params "signature" = Some signature ->
       verifyShopifyRequest cmp params (Some secret)
       = String.eqb (createHmac_sha256_hex secret
                       (Spec.serialize (sortedEntries cmp params)))
                    signature.
Proof.
  intros C. split; [apply sortedEntries_perm|].
  split; [|split].
  - pose proof (sortedEntries_sorted cmp params C) as S.
    apply StronglySorted_Sorted in S. unfold Spec.ascending.
    induction S as [|e l S IH Hd]; simpl; constructor; [exact IH|].
    destruct Hd; simpl; constructor. assumption.
  - unfold sortedParams. apply join_keyValue.
  - intros. now apply verify_unfold.
Qed.

Lemma sortedParams_in_collation_order_witness :
  Spec.consistent Collation.localeCompare
  /\ Spec.ascending Collation.localeCompare
       (map fst (sortedEntries Collation.localeCompare Example.mixedCase)).
Proof.
  split; [exact localeCompare_consistent|].
  exact (proj1 (proj2 (sortedParams_in_collation_order
                         Collation.localeCompare Example.mixedCase
                         localeCompare_consistent))).
Defined.

(** C1, as the specification has it, fails: with the keys [a] and [B] the
    string that is hashed is [a=1B=2], and [a], [B] do not ascend
    byte-wise; a signature over the byte-wise order [B=2a=1] is
    rejected. *)
Lemma sortedParams_not_in_byte_order :
  map fst (sortedEntries Collation.localeCompare Example.mixedCase)
  = ["a"; "B"]
  /\ sortedParams Collation.localeCompare Example.mixedCase = "a=1B=2"
  /\ ~ Spec.ascending Collation.ordinal
         (map fst (sortedEntries Collation.localeCompare Example.mixedCase))
  /\ URLSearchParams.get Example.mixedCase "signature"
     = Some (Spec.sign Collation.ordinal Example.mixedCase Example.secret)
  /\ verifyShopifyRequest Collation.localeCompare Example.mixedCase
       (Some Example.secret) = false.
Proof.
  split; [reflexivity|]. split; [reflexivity|]. split; [|split].
  - intros S. change (Spec.ascending Collation.ordinal ["a"; "B"]) in S.
    unfold Spec.ascending in S.
    apply Sorted_inv in S as [_ Hd]. apply HdRel_inv in Hd.
    vm_compute in Hd. now apply Hd.
  - vm_compute. reflexivity.
  - vm_compute. reflexivity.
Qed.

(** ** Tampering *)

Lemma insert_changed_here cmp (key val val' : string) (l : list entry) :
  val <> val' ->
  one_changed (ArraySort.insert (compareKeys cmp) (key, val) l)
              (ArraySort.insert (compareKeys cmp) (key, val') l).
Proof.
  intros N. induction l as [|y l IH]; simpl.
  - now constructor.
  - unfold compareKeys at 1 3. simpl fst.
    destruct (cmp key (fst y) <=? 0)%Z; constructor; assumption.
Qed.

Lemma insert_changed_later cmp (e : entry) (l l' : list entry) :
  one_changed l l' ->
  one_changed (ArraySort.insert (compareKeys cmp) e l)
              (ArraySort.insert (compareKeys cmp) e l').
Proof.
  induction 1 as [key val val' l N | y l l' H IH]; simpl.
  - unfold compareKeys at 1 3. simpl snd. simpl fst.
    destruct (cmp (fst e) key <=? 0)%Z.
    + constructor. now constructor.
    + now apply changed_here.
  - destruct (compareKeys cmp e y <=? 0)%Z.
    + constructor. now constructor.
    + now constructor.
Qed.

Lemma sort_changed cmp (l l' : list entry) :
  one_changed l l' ->
  one_changed (ArraySort.sort (compareKeys cmp) l)
              (ArraySort.sort (compareKeys cmp) l').
Proof.
  induction 1 as [key val val' l N | y l l' H IH]; simpl.
  - now apply insert_changed_here.
  - now apply insert_changed_later.
Qed.

Lemma serialize_changed (l l' : list entry) :
  one_changed l l' -> Spec.serialize l <> Spec.serialize l'.
Proof.
  induction 1 as [key val val' l N | [k v] l l' H IH]; simpl; intros E.
  - apply append_inv_head in E. simpl in E. injection E as E.
    apply append_inv_tail in E. contradiction.
  - apply append_inv_head in E. simpl in E. injection E as E.
    apply append_inv_head in E. contradiction.
Qed.

Lemma candidates_app (l1 l2 : URLSearchParams.t) :
  Spec.candidates (l1 ++ l2) = Spec.candidates l1 ++ Spec.candidates l2.
Proof. apply filter_app. Qed.

Lemma tampered_candidates (params params' : URLSearchParams.t) :
  Spec.tampered params params' ->
  one_changed (Spec.candidates params) (Spec.candidates params').
Proof.
  intros [before after key val val' K N].
  rewrite !candidates_app. unfold Spec.candidates at 2 4. simpl.
  apply String.eqb_neq in K. rewrite K. simpl.
  induction (Spec.candidates before) as [|e l IH]; simpl.
  - now constructor.
  - now constructor.
Qed.

Lemma tampered_signature (params params' : URLSearchParams.t) :
  Spec.tampered params params' ->
  URLSearchParams.get params' "signature"
  = URLSearchParams.get params "signature".
Proof.
  intros [before after key val val' K N].
  apply String.eqb_neq in K.
  induction before as [|[k v] l IH]; simpl.
  - now rewrite K.
  - now rewrite IH.
Qed.

(** The serialization of a tampered parameter set differs from that of
    the original, whatever the comparator. *)
Lemma tampered_sortedParams cmp (params params' : URLSearchParams.t) :
  Spec.tampered params params' ->
  sortedParams cmp params <> sortedParams cmp params'.
Proof.
  intros T. rewrite !sortedParams_serialize.
  apply serialize_changed, sort_changed, tampered_candidates, T.
Qed.

(** C5, as the code has it.  When a parameter set carries the digest of
    its own values under a non-empty secret, changing the value of one
    parameter other than [signature] changes the string that is hashed,
    and the changed set is verified exactly when the digest of the
    changed string is that of the original one: two different strings
    with the same HMAC-SHA256. *)
Theorem tampering_changes_message cmp (params params' : URLSearchParams.t)
    (secret : string) :
  secret <> EmptyString ->
  URLSearchParams.get params "signature"
  = Some (createHmac_sha256_hex secret (sortedParams cmp params)) ->
  Spec.tampered params params' ->
  sortedParams cmp params' <> sortedParams cmp params
  /\ verifyShopifyRequest cmp params' (Some secret)
     = String.eqb
         (createHmac_sha256_hex secret (sortedParams cmp params'))
         (createHmac_sha256_hex secret (sortedParams cmp params)).
Proof.
  intros Hs G T. split.
  - intros E. symmetry in E. revert E. now apply tampered_sortedParams.
  - rewrite <- (tampered_signature _ _ T) in G.
    rewrite (verify_unfold cmp params' secret _ Hs
               (createHmac_not_empty _ _) G).
    rewrite sortedEntries_candidates, <- sortedParams_serialize.
    reflexivity.
Qed.

(** The example request with the shop replaced. *)
Lemma tampering_changes_message_witness :
  Example.secret <> EmptyString
  /\ URLSearchParams.get Example.proxyParams "signature"
     = Some (createHmac_sha256_hex Example.secret
               (sortedParams Collation.localeCompare Example.proxyParams))
  /\ Spec.tampered Example.proxyParams Example.forgedParams
  /\ sortedParams Collation.localeCompare Example.forgedParams
     <> sortedParams Collation.localeCompare Example.proxyParams
  /\ verifyShopifyRequest Collation.localeCompare Example.forgedParams
       (Some Example.secret)
     = String.eqb
         (createHmac_sha256_hex Example.secret
            (sortedParams Collation.localeCompare Example.forgedParams))
         (createHmac_sha256_hex Example.secret
            (sortedParams Collation.localeCompare Example.proxyParams)).
Proof.
  assert (H1 : Example.secret <> EmptyString) by discriminate.
  assert (H2 : URLSearchParams.get Example.proxyParams "signature"
               = Some (createHmac_sha256_hex Example.secret
                         (sortedParams Collation.localeCompare
                            Example.proxyParams)))
    by (vm_compute; reflexivity).
  assert (H3 : Spec.tampered Example.proxyParams Example.forgedParams).
  { apply (Spec.tampered_intro [] _ "shop"); discriminate. }
  split; [exact H1|]. split; [exact H2|]. split; [exact H3|].
  exact (tampering_changes_message Collation.localeCompare
           Example.proxyParams Example.forgedParams Example.secret
           H1 H2 H3).
Defined.

(** ** Counting digests and values *)

Lemma alphabet_all (c : ascii) :
  Spec.lower_hex c = true -> In c Counting.alphabet.
Proof.
  destruct c as [[] [] [] [] [] [] [] []]; intros H; vm_compute in H;
    try discriminate H; vm_compute;
    repeat first [left; reflexivity | right].
Qed.

Lemma alphabet_lower (c : ascii) :
  In c Counting.alphabet -> Spec.lower_hex c = true.
Proof.
  intros I. cbn in I.
  repeat (destruct I as [<-|I]; [vm_compute; reflexivity|]).
  contradiction.
Qed.

Lemma alphabet_distinct : NoDup Counting.alphabet.
Proof.
  unfold Counting.alphabet. cbn [list_ascii_of_string].
  repeat (constructor; [cbn; intuition discriminate|]). constructor.
Qed.

(** The words of length [n] are the strings of [n] lowercase hexadecimal
    digits. *)
Lemma words_all (s : string) :
  Forall (fun c => Spec.lower_hex c = true) (list_ascii_of_string s) ->
  In s (Counting.words (String.length s)).
Proof.
  induction s as [|c s IH];
    cbn [String.length Counting.words list_ascii_of_string];
    [now left|].
  intros F. apply Forall_cons_iff in F as [Fc Fs].
  apply in_flat_map. exists c. split; [now apply alphabet_all|].
  apply in_map. now apply IH.
Qed.

Lemma words_sound (n : nat) (s : string) :
  In s (Counting.words n) ->
  String.length s = n
  /\ Forall (fun c => Spec.lower_hex c = true) (list_ascii_of_string s).
Proof.
  revert s. induction n as [|n IH]; intros s; cbn [Counting.words].
  - intros [<-|[]]. split; [reflexivity | constructor].
  - intros I. apply in_flat_map in I as (c & Ic & I).
    apply in_map_iff in I as (w & <- & Iw).
    destruct (IH w Iw) as [L F]. cbn [String.length list_ascii_of_string].
    split; [now rewrite L|]. constructor; [now apply alphabet_lower|exact F].
Qed.

Lemma flat_map_length {A B : Type} (f : A -> list B) (l : list A)
    (k : nat) :
  (forall a, List.length (f a) = k) ->
  List.length (flat_map f l) = (List.length l * k)%nat.
Proof.
  intros H. induction l as [|a l IH]; [reflexivity|].
  cbn [flat_map List.length]. rewrite length_app, H, IH.
  cbn [Nat.mul]. reflexivity.
Qed.

(** There are sixteen times as many words of one more digit. *)
Lemma words_count (n : nat) :
  List.length (Counting.words (S n))
  = (16 * List.length (Counting.words n))%nat.
Proof.
  cbn [Counting.words].
  rewrite (flat_map_length _ _ (List.length (Counting.words n)))
    by (intros a; apply length_map).
  reflexivity.
Qed.

Lemma words_not_none (n : nat) : (0 < List.length (Counting.words n))%nat.
Proof.
  induction n as [|n IH]; [cbn; lia|]. rewrite words_count. lia.
Qed.

Lemma flat_map_distinct {A B : Type} (f : A -> list B) (l : list A) :
  NoDup l ->
  (forall a, NoDup (f a)) ->
  (forall a b x, In x (f a) -> In x (f b) -> a = b) ->
  NoDup (flat_map f l).
Proof.
  intros Nl Nf D. induction Nl as [|a l Na Nl IH]; [constructor|].
  cbn [flat_map]. apply NoDup_app; [apply Nf | exact IH |].
  intros x Ia Il. apply in_flat_map in Il as (b & Ib & Ix).
  rewrite (D a b x Ia Ix) in Na. contradiction.
Qed.

Lemma words_distinct (n : nat) : NoDup (Counting.words n).
Proof.
  induction n as [|n IH]; cbn [Counting.words].
  - constructor; [intros [] | constructor].
  - apply flat_map_distinct; [exact alphabet_distinct | |].
    + intros c. clear - IH.
      induction IH as [|w l Nw Nl IHl]; cbn [map]; constructor;
        [|exact IHl].
      intros I. apply in_map_iff in I as (w' & [= ->] & I). contradiction.
    + intros a b x Ia Ib.
      apply in_map_iff in Ia as (w & <- & _).
      apply in_map_iff in Ib as (w' & [= -> _] & _). reflexivity.
Qed.

(** In a list without repetition, either two elements have the same
    image or the images are without repetition. *)
Lemma collision_or_injective {A B : Type}
    (eqB : forall x y : B, {x = y} + {x <> y}) (f : A -> B) (l : list A) :
  NoDup l ->
  (exists x y, In x l /\ In y l /\ x <> y /\ f x = f y)
  \/ NoDup (map f l).
Proof.
  induction 1 as [|a l Na Nl IH]; [right; constructor|].
  destruct IH as [(x & y & Ix & Iy & N & E)|IH].
  - left. exists x, y. repeat split; try assumption; now right.
  - destruct (in_dec eqB (f a) (map f l)) as [I|I].
    + left. apply in_map_iff in I as (y & E & Iy).
      exists a, y. repeat split; [now left | now right | | now symmetry].
      intros ->. contradiction.
    + right. cbn [map]. now constructor.
Qed.

(** More arguments than values: two arguments have the same value. *)
Lemma more_arguments_than_values {A B : Type}
    (eqB : forall x y : B, {x = y} + {x <> y}) (f : A -> B)
    (arguments : list A) (values : list B) :
  NoDup arguments ->
  (forall a, In a arguments -> In (f a) values) ->
  (List.length values < List.length arguments)%nat ->
  exists x y, In x arguments /\ In y arguments /\ x <> y /\ f x = f y.
Proof.
  intros N F L.
  destruct (collision_or_injective eqB f arguments N) as [C|I];
    [exact C|].
  exfalso.
  assert (L' : (List.length (map f arguments) <= List.length values)%nat).
  { apply NoDup_incl_length; [exact I|].
    intros b Ib. apply in_map_iff in Ib as (a & <- & Ia). now apply F. }
  rewrite length_map in L'. lia.
Qed.

(** The digests are 64 hexadecimal digits, and there are more words of 65
    hexadecimal digits: two different messages that start alike and go
    on with 65 hexadecimal digits have the same digest. *)
Lemma digest_collision (secret start : string) :
  exists v v',
    In v (Counting.words 65) /\ In v' (Counting.words 65) /\ v <> v'
    /\ createHmac_sha256_hex secret (start ++ v)
       = createHmac_sha256_hex secret (start ++ v').
Proof.
  apply (more_arguments_than_values string_dec
           (fun v => createHmac_sha256_hex secret (start ++ v))
           (Counting.words 65) (Counting.words 64)).
  - apply words_distinct.
  - intros v _.
    destruct (createHmac_lowercase_hex secret (start ++ v)) as [L F].
    pose proof (words_all _ F) as H. rewrite L in H. exact H.
  - rewrite (words_count 64). pose proof (words_not_none 64). lia.
Qed.

Lemma get_signature_second (key val signature : string) :
  key <> "signature" ->
  URLSearchParams.get [ (key, val); ("signature", signature) ] "signature"
  = Some signature.
Proof.
  intros K. apply String.eqb_neq in K.
  cbn [URLSearchParams.get]. rewrite K. reflexivity.
Qed.

Lemma sortedParams_single cmp (val signature : string) :
  sortedParams cmp [ ("a", val); ("signature", signature) ]
  = ("a=" ++ val)%string.
Proof.
  rewrite sortedParams_serialize.
  change (Spec.candidates [ ("a", val); ("signature", signature) ])
    with [ ("a", val) ].
  cbn [ArraySort.sort fold_right ArraySort.insert Spec.serialize].
  cbn [append]. now rewrite append_nil_r.
Qed.

(** C5, as the specification has it, fails, although no instance is
    known.  The request [?a=v&signature=..] carries the digest of [a=v].
    The digests are 64 hexadecimal digits, and there are more values of
    65 hexadecimal digits than that, so for two different such values [v]
    and [v'] the digests of [a=v] and [a=v'] are the same: the request
    with [v] replaced by [v'] is verified. *)
Lemma tampering_accepted_for_some_value :
  exists v v' : string,
    v <> v'
    /\ String.length v = 65%nat /\ String.length v' = 65%nat
    /\ Forall (fun c => Spec.lower_hex c = true) (list_ascii_of_string v)
    /\ Forall (fun c => Spec.lower_hex c = true) (list_ascii_of_string v')
    /\ URLSearchParams.get (Sample.signedValue v) "signature"
       = Some (createHmac_sha256_hex Example.secret
                 (sortedParams Collation.localeCompare
                    (Sample.signedValue v)))
    /\ Spec.tampered (Sample.signedValue v) (Sample.replacedValue v v')
    /\ verifyShopifyRequest Collation.localeCompare
         (Sample.replacedValue v v') (Some Example.secret) = true.
Proof.
  destruct (digest_collision Example.secret "a=")
    as (v & v' & I & I' & N & E).
  destruct (words_sound _ _ I) as [L F].
  destruct (words_sound _ _ I') as [L' F'].
  assert (K : "a" <> "signature") by discriminate.
  assert (Hs : Example.secret <> EmptyString) by discriminate.
  exists v, v'. repeat (split; [assumption|]). split; [|split].
  - unfold Sample.signedValue.
    rewrite sortedParams_single. now apply get_signature_second.
  - exact (Spec.tampered_intro [] [ ("signature", _) ] "a" v v' K N).
  - unfold Sample.replacedValue.
    rewrite (verify_unfold Collation.localeCompare _ Example.secret _ Hs
               (createHmac_not_empty _ _)
               (get_signature_second "a" v' _ K)).
    rewrite sortedEntries_candidates, <- sortedParams_serialize.
    rewrite sortedParams_single. rewrite E. apply String.eqb_refl.
Qed.

(** ** The order of the parameters *)

Lemma tie_refl cmp (a : string) : Spec.consistent cmp -> Spec.tie cmp a a.
Proof.
  intros [T _]. unfold Spec.tie.
  destruct (Z.leb_spec (cmp a a) 0) as [|G]; [tauto|].
  specialize (T a a G). lia.
Qed.

Lemma get_signature_perm cmp (p1 p2 : URLSearchParams.t) :
  Spec.consistent cmp -> Permutation p1 p2 -> Spec.untied cmp p1 ->
  URLSearchParams.get p1 "signature" = URLSearchParams.get p2 "signature".
Proof.
  intros C P U.
  destruct (URLSearchParams.get p1 "signature") as [v1|] eqn:G1;
    destruct (URLSearchParams.get p2 "signature") as [v2|] eqn:G2;
    try reflexivity.
  - apply get_In in G1. apply get_In in G2.
    apply (Permutation_in _ (Permutation_sym P)) in G2.
    specialize (U _ _ G1 G2 (tie_refl cmp _ C)). congruence.
  - apply get_In in G1. apply (Permutation_in _ P) in G1.
    exfalso. exact (get_None _ _ G2 _ G1).
  - apply get_In in G2. apply (Permutation_in _ (Permutation_sym P)) in G2.
    exfalso. exact (get_None _ _ G1 _ G2).
Qed.

Lemma candidates_perm (p1 p2 : URLSearchParams.t) :
  Permutation p1 p2 -> Permutation (Spec.candidates p1) (Spec.candidates p2).
Proof.
  induction 1; simpl.
  - constructor.
  - destruct (negb _); [now constructor | assumption].
  - do 2 destruct (negb _); try apply Permutation_refl. apply perm_swap.
  - eapply perm_trans; eassumption.
Qed.

Lemma sortedEntries_perm_eq cmp (p1 p2 : URLSearchParams.t) :
  Spec.consistent cmp -> Permutation p1 p2 -> Spec.untied cmp p1 ->
  sortedEntries cmp p1 = sortedEntries cmp p2.
Proof.
  intros C P U.
  apply (sorted_perm_unique (compareKeys cmp)).
  - now apply compareKeys_total.
  - now apply (sortedEntries_sorted cmp p1).
  - now apply (sortedEntries_sorted cmp p2).
  - eapply perm_trans; [apply sortedEntries_perm|].
    eapply perm_trans; [apply candidates_perm, P|].
    apply Permutation_sym, sortedEntries_perm.
  - intros a b Ia Ib L1 L2.
    assert (In' : forall e, In e (sortedEntries cmp p1) -> In e p1).
    { intros e I. apply (Permutation_in _ (sortedEntries_perm cmp p1)) in I.
      unfold Spec.candidates in I. now apply filter_In in I. }
    apply U; [now apply In' | now apply In' | split; assumption].
Qed.

(** C6, as the code has it.  For a consistent [localeCompare], two
    parameter sets with the same pairs in different orders are verified
    alike when no two different pairs have keys that [localeCompare] does
    not tell apart. *)
Theorem verify_order_independent cmp (p1 p2 : URLSearchParams.t)
    (sharedSecret : option string) :
  Spec.consistent cmp -> Permutation p1 p2 -> Spec.untied cmp p1 ->
  verifyShopifyRequest cmp p1 sharedSecret
  = verifyShopifyRequest cmp p2 sharedSecret.
Proof.
  intros C P U. unfold verifyShopifyRequest, sortedParams.
  rewrite (get_signature_perm cmp p1 p2 C P U).
  now rewrite (sortedEntries_perm_eq cmp p1 p2 C P U).
Qed.

Lemma proxyParams_untied :
  Spec.untied Collation.localeCompare Example.proxyParams.
Proof.
  intros e1 e2 I1 I2 [T1 T2]. simpl in I1, I2.
  repeat (destruct I1 as [<-|I1]); try contradiction;
    repeat (destruct I2 as [<-|I2]); try contradiction;
    try reflexivity; exfalso;
    vm_compute in T1; vm_compute in T2;
    first [exact (T1 eq_refl) | exact (T2 eq_refl)].
Qed.

Lemma proxyParams_shuffled :
  Permutation Example.proxyParams Example.shuffledParams.
Proof.
  exact (Permutation_rev Example.proxyParams).
Qed.

Lemma verify_order_independent_witness :
  Spec.consistent Collation.localeCompare
  /\ Permutation Example.proxyParams Example.shuffledParams
  /\ Spec.untied Collation.localeCompare Example.proxyParams
  /\ verifyShopifyRequest Collation.localeCompare Example.proxyParams
       (Some Example.secret)
     = verifyShopifyRequest Collation.localeCompare Example.shuffledParams
         (Some Example.secret).
Proof.
  split; [exact localeCompare_consistent|].
  split; [exact proxyParams_shuffled|].
  split; [exact proxyParams_untied|].
  exact (verify_order_independent Collation.localeCompare
           Example.proxyParams Example.shuffledParams (Some Example.secret)
           localeCompare_consistent proxyParams_shuffled proxyParams_untied).
Defined.

(** C6, as the specification has it, fails: [?a=1&a=2&signature=S] is
    verified and [?a=2&a=1&signature=S], the same pairs in another order,
    is not. *)
Lemma verify_depends_on_order_of_repeated_key :
  Permutation Example.repeatedKey Example.repeatedKeySwapped
  /\ verifyShopifyRequest Collation.localeCompare Example.repeatedKey
       (Some Example.secret) = true
  /\ verifyShopifyRequest Collation.localeCompare Example.repeatedKeySwapped
       (Some Example.secret) = false.
Proof.
  split; [apply perm_swap|].
  split; vm_compute; reflexivity.
Qed.

(** ** The normaliser *)

Lemma getProp_field (payload : value) (name : string) :
  Spec.nullish payload = false ->
  getProp payload name = Ok (Spec.field payload name).
Proof.
  destruct payload; simpl; try discriminate; try reflexivity.
  intros _. now destruct (lookup name fields).
Qed.

(** The fields of a payload that is not [null] or [undefined]. *)
Lemma readFields_not_nullish (payload : value) :
  Spec.nullish payload = false ->
  exists data,
    readFields payload = Ok data
    /\ cart data = Spec.field payload "quote[Cart]"
    /\ cart_line_items data = Spec.field payload "quote[cart_line_items]"
    /\ lineItems data = None.
Proof.
  intros N. unfold readFields. rewrite !(getProp_field _ _ N). simpl.
  eexists. split; [reflexivity|]. simpl. auto.
Qed.

Lemma readFields_nullish (payload : value) :
  Spec.nullish payload = true -> exists e, readFields payload = Throw e.
Proof.
  destruct payload; simpl; try discriminate; intros _; eexists; reflexivity.
Qed.

Lemma parseCartText_text_or_falsy (v : value) :
  Spec.text_or_falsy v -> exists items, parseCartText v = Ok items.
Proof.
  unfold parseCartText. intros [[text ->]|F].
  - destruct (negb (truthy (VString text))); eexists; reflexivity.
  - rewrite F. simpl. eexists; reflexivity.
Qed.

Lemma structuredLineItems_malformed JP (data : orderData) :
  Spec.malformed JP (cart_line_items data) ->
  exists e, structuredLineItems JP data = Throw e.
Proof.
  unfold structuredLineItems.
  intros [[e H]|(parsed & e & H & M)]; rewrite H; simpl; eauto.
Qed.

(** With a malformed structured field the line items are those of the
    cart description. *)
Lemma deriveLineItems_malformed JP (data : orderData) :
  truthy (cart_line_items data) = true ->
  Spec.malformed JP (cart_line_items data) ->
  deriveLineItems JP data
  = (items <- parseCartText (cart data) ;; Ok (set_lineItems data items)).
Proof.
  intros T M. unfold deriveLineItems. rewrite T.
  destruct (structuredLineItems_malformed JP data M) as [e ->].
  reflexivity.
Qed.

(** C3, as the code has it.  For a payload other than [null] and
    [undefined] whose cart description is a string or falsy,
    [parseOrderData] returns; and when the structured field is there and
    malformed, the line items of the result are those [parseCartText]
    derives from the cart description. *)
Theorem parseOrderData_returns JP (payload : value) :
  Spec.nullish payload = false ->
  Spec.text_or_falsy (Spec.field payload "quote[Cart]") ->
  exists data,
    parseOrderData JP payload = Ok data
    /\ (truthy (Spec.field payload "quote[cart_line_items]") = true ->
        Spec.malformed JP (Spec.field payload "quote[cart_line_items]") ->
        exists items,
          parseCartText (Spec.field payload "quote[Cart]") = Ok items
          /\ lineItems data = Some items).
Proof.
  intros N C.
  destruct (readFields_not_nullish payload N) as (d & R & Ec & El & En).
  unfold parseOrderData. rewrite R. simpl.
  rewrite <- Ec, <- El in *.
  destruct (parseCartText_text_or_falsy _ C) as [items P].
  destruct (truthy (cart_line_items d)) eqn:T.
  - unfold deriveLineItems. rewrite T.
    destruct (structuredLineItems JP d) as [its|e] eqn:S; simpl.
    + eexists. split; [reflexivity|]. intros _ M.
      destruct (structuredLineItems_malformed JP d M) as [e' S'].
      congruence.
    + rewrite P. simpl. eexists. split; [reflexivity|].
      intros _ _. exists items. auto.
  - unfold deriveLineItems. rewrite T.
    destruct (truthy (cart d)); [rewrite P; simpl|];
      (eexists; split; [reflexivity | intros; discriminate]).
Qed.

Lemma parseOrderData_returns_witness :
  Spec.nullish Example.brokenJson = false
  /\ Spec.text_or_falsy (Spec.field Example.brokenJson "quote[Cart]")
  /\ exists data,
       parseOrderData JSON.parse Example.brokenJson = Ok data
       /\ (truthy (Spec.field Example.brokenJson "quote[cart_line_items]")
           = true ->
           Spec.malformed JSON.parse
             (Spec.field Example.brokenJson "quote[cart_line_items]") ->
           exists items,
             parseCartText (Spec.field Example.brokenJson "quote[Cart]")
             = Ok items
             /\ lineItems data = Some items).
Proof.
  assert (H1 : Spec.nullish Example.brokenJson = false) by reflexivity.
  assert (H2 : Spec.text_or_falsy
                 (Spec.field Example.brokenJson "quote[Cart]"))
    by (left; eexists; reflexivity).
  split; [exact H1|]. split; [exact H2|].
  exact (parseOrderData_returns JSON.parse Example.brokenJson H1 H2).
Defined.

(** C3, as the specification has it, fails: the JSON body [null] and a
    JSON body whose cart description is a number make [parseOrderData]
    throw. *)
Lemma parseOrderData_throws :
  parseOrderData JSON.parse VNull
  = Throw (TypeError "Cannot read properties of null (reading 'quote[email]')")
  /\ parseOrderData JSON.parse Example.numericCart
     = Throw (TypeError "cartText.split is not a function").
Proof. split; vm_compute; reflexivity. Qed.

(** C9, as the code has it.  For a payload other than [null] and
    [undefined] without structured field and without cart description,
    [parseOrderData] returns and leaves [lineItems] unassigned. *)
Theorem parseOrderData_without_cart JP (payload : value) :
  Spec.nullish payload = false ->
  Spec.field payload "quote[cart_line_items]" = VUndefined ->
  Spec.field payload "quote[Cart]" = VUndefined ->
  exists data, parseOrderData JP payload = Ok data /\ lineItems data = None.
Proof.
  intros N L C.
  destruct (readFields_not_nullish payload N) as (d & R & Ec & El & En).
  unfold parseOrderData. rewrite R. simpl.
  unfold deriveLineItems. rewrite El, Ec, L, C. simpl.
  exists d. auto.
Qed.

Lemma parseOrderData_without_cart_witness :
  Spec.nullish Example.noCart = false
  /\ Spec.field Example.noCart "quote[cart_line_items]" = VUndefined
  /\ Spec.field Example.noCart "quote[Cart]" = VUndefined
  /\ exists data,
       parseOrderData JSON.parse Example.noCart = Ok data
       /\ lineItems data = None.
Proof.
  assert (H1 : Spec.nullish Example.noCart = false) by reflexivity.
  assert (H2 : Spec.field Example.noCart "quote[cart_line_items]"
               = VUndefined) by reflexivity.
  assert (H3 : Spec.field Example.noCart "quote[Cart]" = VUndefined)
    by reflexivity.
  split; [exact H1|]. split; [exact H2|]. split; [exact H3|].
  exact (parseOrderData_without_cart JSON.parse Example.noCart H1 H2 H3).
Defined.

(** C9, as the specification has it, fails: for the empty object the
    result has no [lineItems] at all, which is not the empty sequence. *)
Lemma lineItems_unassigned_not_empty :
  parseOrderData JSON.parse (VObject [])
  = Ok (mkOrderData VUndefined VUndefined VUndefined VUndefined VUndefined
          VUndefined VUndefined VUndefined VUndefined VUndefined None)
  /\ bind (parseOrderData JSON.parse (VObject []))
          (fun data => Ok (lineItems data))
     <> Ok (Some []).
Proof. split; [reflexivity | vm_compute; discriminate]. Qed.

Lemma deriveLineItems_parse_error JP (data : orderData) (e : thrown) :
  (forall v, JP v = Throw e) ->
  truthy (cart_line_items data) = true ->
  deriveLineItems JP data
  = (items <- parseCartText (cart data) ;; Ok (set_lineItems data items)).
Proof.
  intros H T. apply deriveLineItems_malformed; [exact T|].
  left. exists e. apply H.
Qed.

(** C10, as the code has it.  When the structured field is a non-empty
    string that [JSON.parse] accepts and whose mapping to line items
    throws, [parseOrderData] does what it does when [JSON.parse] rejects
    the field; with a cart description that is a string or falsy it
    returns, and the line items are those [parseCartText] derives from the
    cart description, none when there is no cart description. *)
Theorem mapping_error_falls_back JP (payload : value)
    (text : string) (parsed : value) (e : thrown) :
  Spec.field payload "quote[cart_line_items]" = VString text ->
  text <> EmptyString ->
  JP (VString text) = Ok parsed ->
  mapLineItems parsed = Throw e ->
  (forall e', parseOrderData JP payload
              = parseOrderData (fun _ => Throw e') payload)
  /\ (Spec.text_or_falsy (Spec.field payload "quote[Cart]") ->
      exists data items,
        parseOrderData JP payload = Ok data
        /\ parseCartText (Spec.field payload "quote[Cart]") = Ok items
        /\ lineItems data = Some items)
  /\ (Spec.field payload "quote[Cart]" = VUndefined ->
      exists data,
        parseOrderData JP payload = Ok data /\ lineItems data = Some []).
Proof.
  intros F Ht A M.
  assert (N : Spec.nullish payload = false).
  { destruct payload; simpl in F; try discriminate; reflexivity. }
  destruct (readFields_not_nullish payload N) as (d & R & Ec & El & En).
  assert (T : truthy (cart_line_items d) = true).
  { rewrite El, F. simpl. destruct text; [congruence | reflexivity]. }
  assert (Mal : Spec.malformed JP (cart_line_items d)).
  { right. exists parsed, e. rewrite El, F. auto. }
  assert (D : parseOrderData JP payload
              = (items <- parseCartText (cart d) ;;
                 Ok (set_lineItems d items))).
  { unfold parseOrderData. rewrite R. simpl.
    now apply deriveLineItems_malformed. }
  split; [|split].
  - intros e'. rewrite D. unfold parseOrderData. rewrite R. simpl.
    symmetry. now apply (deriveLineItems_parse_error _ d e').
  - intros C. destruct (parseCartText_text_or_falsy _ C) as [items P].
    rewrite D, Ec, P. simpl. eauto.
  - intros C. rewrite D, Ec, C. simpl. eauto.
Qed.

Lemma mapping_error_falls_back_witness :
  Spec.field Example.nullItem "quote[cart_line_items]" = VString "[null]"
  /\ "[null]" <> EmptyString
  /\ JSON.parse (VString "[null]") = Ok (VArray [VNull])
  /\ mapLineItems (VArray [VNull])
     = Throw (TypeError "Cannot read properties of null (reading 'variantId')")
  /\ exists data items,
       parseOrderData JSON.parse Example.nullItem = Ok data
       /\ parseCartText (Spec.field Example.nullItem "quote[Cart]") = Ok items
       /\ lineItems data = Some items.
Proof.
  assert (H1 : Spec.field Example.nullItem "quote[cart_line_items]"
               = VString "[null]") by reflexivity.
  assert (H2 : "[null]" <> EmptyString) by discriminate.
  assert (H3 : JSON.parse (VString "[null]") = Ok (VArray [VNull]))
    by reflexivity.
  assert (H4 : mapLineItems (VArray [VNull])
               = Throw (TypeError
                   "Cannot read properties of null (reading 'variantId')"))
    by reflexivity.
  split; [exact H1|]. split; [exact H2|]. split; [exact H3|].
  split; [exact H4|].
  apply (proj1 (proj2 (mapping_error_falls_back JSON.parse Example.nullItem
                         "[null]" (VArray [VNull]) _ H1 H2 H3 H4))).
  left. eexists. reflexivity.
Defined.

(** C10, as stated, fails: [JSON.parse] accepts the structured field
    [null], the mapping throws, and with the number 5 as cart description
    [parseOrderData] throws from the fallback. *)
Lemma mapping_error_fallback_throws :
  Spec.field Example.numericCart "quote[cart_line_items]" = VString "null"
  /\ JSON.parse (VString "null") = Ok VNull
  /\ mapLineItems VNull
     = Throw (TypeError "Cannot read properties of null (reading 'map')")
  /\ parseOrderData JSON.parse Example.numericCart
     = Throw (TypeError "cartText.split is not a function").
Proof. repeat split; vm_compute; reflexivity. Qed.

(** ** The handler *)

(** C4, as the code has it.  When the request is verified, its payload
    is read and normalised, the query names a shop, and getting the admin
    client or creating the draft order throws a value whose [message] can
    be read (any value but [null] and [undefined]), the handler answers
    200 with [draftOrder] set to the failure object
    [{ error: error.message, success: false }]. *)
Theorem submission_failure_answers_200
    cmp JP (admin : Type) (unauthenticated_admin : string -> result admin)
    (admin_graphql : admin -> string -> DraftOrderInput.t -> result value)
    (SHOPIFY_API_SECRET : option string) (now : string)
    (req : request) (payload : value) (data : orderData)
    (shop : string) (e : thrown) (message : value) :
  verifyShopifyRequest cmp (url_searchParams req) SHOPIFY_API_SECRET = true ->
  readPayload req = Ok payload ->
  parseOrderData JP payload = Ok data ->
  URLSearchParams.get (url_searchParams req) "shop" = Some shop ->
  shop <> EmptyString ->
  (unauthenticated_admin shop = Throw e
   \/ exists adm,
        unauthenticated_admin shop = Ok adm
        /\ createDraftOrder admin admin_graphql adm data = Throw e) ->
  messageOf e = Ok message ->
  action cmp JP admin unauthenticated_admin admin_graphql
         SHOPIFY_API_SECRET now req
  = Ok (json (ReceivedBody true
                "Order payload received and draft order created"
                now data (DraftOrderFailure message false))
             200).
Proof.
  intros V P D G S F M. unfold action. cbv zeta.
  rewrite V. cbn [negb]. unfold receive.
  rewrite P. cbn [bind]. rewrite D. cbn [bind].
  unfold submitDraftOrder. rewrite G.
  destruct shop as [|c shop]; [congruence|]. cbn [JSString.falsy].
  destruct F as [F|(adm & F & C)]; rewrite F; cbn [bind try_catch].
  - rewrite M. reflexivity.
  - rewrite C. cbn [bind try_catch]. rewrite M. reflexivity.
Qed.

Lemma formRequest_payload :
  readPayload Example.formRequest
  = Ok (VObject [ ("quote[email]", VString "ana@example.com");
                  ("quote[Cart]", VString Example.cartText) ]).
Proof. reflexivity. Qed.

Lemma formRequest_verified :
  verifyShopifyRequest Collation.localeCompare
    (url_searchParams Example.formRequest) (Some Example.secret) = true.
Proof. vm_compute. reflexivity. Qed.

Lemma submission_failure_answers_200_witness :
  verifyShopifyRequest Collation.localeCompare
    (url_searchParams Example.formRequest) (Some Example.secret) = true
  /\ URLSearchParams.get (url_searchParams Example.formRequest) "shop"
     = Some "quotes.myshopify.com"
  /\ Example.admin_without_session "quotes.myshopify.com"
     = Throw Example.noSession
  /\ messageOf Example.noSession = Ok (error_message Example.noSession)
  /\ exists data,
       action Collation.localeCompare JSON.parse unit
         Example.admin_without_session Example.graphql_unreached
         (Some Example.secret) "2024-01-01T00:00:00.000Z" Example.formRequest
       = Ok (json (ReceivedBody true
                     "Order payload received and draft order created"
                     "2024-01-01T00:00:00.000Z" data
                     (DraftOrderFailure (error_message Example.noSession)
                        false))
                  200).
Proof.
  assert (S : "quotes.myshopify.com" <> EmptyString) by discriminate.
  split; [exact formRequest_verified|]. split; [reflexivity|].
  split; [reflexivity|]. split; [reflexivity|].
  eexists.
  exact (submission_failure_answers_200
           Collation.localeCompare JSON.parse unit
           Example.admin_without_session Example.graphql_unreached
           (Some Example.secret) "2024-01-01T00:00:00.000Z"
           Example.formRequest _ _ "quotes.myshopify.com" Example.noSession
           _ formRequest_verified formRequest_payload eq_refl eq_refl S
           (or_introl eq_refl) eq_refl).
Defined.

(** C4, as stated, fails: when the collaborator rejects with [undefined],
    reading [error.message] in the [catch] throws, and the outer [catch]
    answers 500. *)
Lemma submission_rejecting_undefined_answers_500 :
  verifyShopifyRequest Collation.localeCompare
    (url_searchParams Example.formRequest) (Some Example.secret) = true
  /\ Sample.admin_rejecting_undefined "quotes.myshopify.com"
     = Throw (ThrownValue VUndefined)
  /\ action Collation.localeCompare JSON.parse unit
       Sample.admin_rejecting_undefined Example.graphql_unreached
       (Some Example.secret) "2024-01-01T00:00:00.000Z" Example.formRequest
     = Ok (json (FailedBody false "Failed to process order payload"
                   (VString
                      "Cannot read properties of undefined (reading 'message')"))
                500).
Proof.
  split; [exact formRequest_verified|]. split; [reflexivity|].
  vm_compute. reflexivity.
Qed.

(** ** The cart description *)

Lemma prefix_app (needle s : string) :
  prefix needle s = true <-> exists post, s = (needle ++ post)%string.
Proof.
  revert s. induction needle as [|c needle IH]; intros s; simpl.
  - split; [intros _; exists s; destruct s; reflexivity|].
    intros _. destruct s; reflexivity.
  - destruct s as [|d s]; simpl.
    + split; [discriminate | intros [post H]; discriminate].
    + destruct (Ascii.ascii_dec c d) as [->|N].
      * rewrite IH. split; intros [post H]; exists post; congruence.
      * split; [discriminate | intros [post H]; congruence].
Qed.

Lemma includes_Contains (needle s : string) :
  JSString.includes needle s = true <-> Spec.Contains needle s.
Proof.
  unfold Spec.Contains. induction s as [|c s IH].
  - cbn [JSString.includes]. rewrite orb_false_r, prefix_app. split.
    + intros [post H]. exists EmptyString, post. exact H.
    + intros (pre & post & H). destruct pre; [now exists post|discriminate].
  - cbn [JSString.includes]. rewrite orb_true_iff, prefix_app, IH. split.
    + intros [[post H]|(pre & post & H)].
      * exists EmptyString, post. exact H.
      * exists (String c pre), post. simpl. now rewrite H.
    + intros (pre & post & H). destruct pre as [|d pre]; simpl in H.
      * left. now exists post.
      * right. exists pre, post. congruence.
Qed.

Lemma isItemLine_ItemLine (line : string) :
  isItemLine line = true <-> Spec.ItemLine line.
Proof.
  unfold isItemLine, Spec.ItemLine.
  now rewrite andb_true_iff, !includes_Contains.
Qed.

Lemma split_not_nil (sep : ascii) (s : string) : JSString.split sep s <> [].
Proof.
  induction s as [|c s IH]; simpl; [discriminate|].
  destruct (Ascii.eqb c sep); [discriminate|].
  destruct (JSString.split sep s); discriminate.
Qed.

Lemma split_Lines (text : string) : Spec.Lines text (JSString.split LF text).
Proof.
  unfold Spec.Lines. split; [apply split_not_nil|].
  induction text as [|c s [IH1 IH2]]; simpl.
  - split; [reflexivity|]. constructor; [|constructor]. simpl. tauto.
  - pose proof (split_not_nil LF s) as NN.
    destruct (Ascii.eqb_spec c LF) as [->|N].
    + split.
      * simpl. destruct (JSString.split LF s); [congruence|]. now rewrite IH1.
      * constructor; [simpl; tauto | exact IH2].
    + destruct (JSString.split LF s) as [|piece pieces]; [congruence|].
      split.
      * simpl in *. destruct pieces; simpl in *; now rewrite <- IH1.
      * inversion IH2 as [|? ? Hp Hps]; subst. constructor; [|exact Hps].
        simpl. intros [E|I]; [congruence | contradiction].
Qed.

Lemma filter_Selected {A : Type} (P : A -> Prop) (f : A -> bool)
    (l : list A) :
  (forall a, f a = true <-> P a) -> Spec.Selected P l (filter f l).
Proof.
  intros H. induction l as [|a l IH]; simpl; [constructor|].
  destruct (f a) eqn:E.
  - apply Spec.Selected_keep; [now apply H | exact IH].
  - apply Spec.Selected_skip; [|exact IH].
    intros Pa. apply H in Pa. congruence.
Qed.

(** ** The regular expression *)

Section RegExpFacts.
Import QuantityRegExp.

(** Decides the facts about character classes, which are comparisons of
  byte values. *)
Ltac byte_classes :=
unfold is_digit, is_space1, is_space2, is_space3 in *;
cbv zeta in *;
repeat match goal with
       | c : ascii |- _ =>
           generalize dependent (N_of_ascii c); clear c; intros
       end;
repeat match goal with
       | H : _ |- _ =>
           progress
             rewrite ?andb_true_iff, ?orb_true_iff, ?N.leb_le, ?N.eqb_eq
             in H
       end;
repeat (progress
          rewrite ?andb_false_iff, ?orb_false_iff, ?N.leb_gt, ?N.eqb_neq);
lia.

Lemma space1_not_digit c : is_space1 c = true -> is_digit c = false.
Proof. intros H. byte_classes. Qed.

Lemma space2_lead c1 c2 :
is_space2 c1 c2 = true -> is_space1 c1 = false /\ is_digit c1 = false.
Proof. intros H. split; byte_classes. Qed.

Lemma space3_lead c1 c2 c3 :
is_space3 c1 c2 c3 = true ->
is_space1 c1 = false /\ is_digit c1 = false
/\ forall c, is_space2 c1 c = false.
Proof. intros H. split; [|split; [|intros c]]; byte_classes. Qed.

Lemma digit_lead c :
is_digit c = true ->
is_space1 c = false /\ (forall c2, is_space2 c c2 = false)
/\ (forall c2 c3, is_space3 c c2 c3 = false).
Proof. intros H. split; [|split; intros]; byte_classes. Qed.

Lemma times_bytes : times = String times1 (String times2 EmptyString).
Proof. reflexivity. Qed.

Lemma times_lead :
is_digit times1 = false /\ is_space1 times1 = false
/\ (forall c, is_space2 times1 c = false)
/\ (forall c c', is_space3 times1 c c' = false).
Proof.
split; [reflexivity|]. split; [reflexivity|].
split; intros; reflexivity.
Qed.

(** One unfolding of [spaces_times]. *)
Lemma spaces_times_eq (s : string) :
spaces_times s
= match s with
  | String c1 r1 =>
      if is_space1 c1 then spaces_times r1 || prefix times s
      else
        match r1 with
        | String c2 r2 =>
            if is_space2 c1 c2 then spaces_times r2 || prefix times s
            else
              match r2 with
              | String c3 r3 =>
                  if is_space3 c1 c2 c3
                  then spaces_times r3 || prefix times s
                  else prefix times s
              | EmptyString => prefix times s
              end
        | EmptyString => prefix times s
        end
  | EmptyString => prefix times s
  end.
Proof. destruct s; reflexivity. Qed.

Lemma prefix_times (post : string) :
prefix times (times ++ post) = true.
Proof. apply prefix_app. now exists post. Qed.

Lemma spaces_times_complete (ws post : string) :
Spec.Spaces ws -> spaces_times (ws ++ times ++ post) = true.
Proof.
induction 1 as [|c ws Hc Hws IH|c1 c2 ws Hc Hws IH|c1 c2 c3 ws Hc Hws IH].
- destruct times_lead as (_ & S1 & S2 & S3).
  change (EmptyString ++ times ++ post)%string
    with (String times1 (String times2 post)).
  rewrite spaces_times_eq. cbv beta iota. rewrite S1, S2.
  assert (P : prefix times (String times1 (String times2 post)) = true)
    by apply (prefix_times post).
  destruct post; [exact P|]. now rewrite S3.
- cbn [append]. rewrite spaces_times_eq. cbv beta iota. now rewrite Hc, IH.
- cbn [append]. rewrite spaces_times_eq. cbv beta iota.
  destruct (space2_lead _ _ Hc) as [-> _]. now rewrite Hc, IH.
- cbn [append]. rewrite spaces_times_eq. cbv beta iota.
  destruct (space3_lead _ _ _ Hc) as (-> & _ & ->). now rewrite Hc, IH.
Qed.

Lemma spaces_times_sound (s : string) :
spaces_times s = true ->
exists ws post, Spec.Spaces ws /\ s = (ws ++ times ++ post)%string.
Proof.
assert (P : forall s, prefix times s = true ->
            exists ws post,
              Spec.Spaces ws /\ s = (ws ++ times ++ post)%string).
{ intros s0 H. apply prefix_app in H as [post ->].
  exists EmptyString, post. split; [constructor | reflexivity]. }
assert (G : forall n s, (String.length s <= n)%nat ->
            spaces_times s = true ->
            exists ws post,
              Spec.Spaces ws /\ s = (ws ++ times ++ post)%string).
{ induction n as [|n IH]; intros s0 L; rewrite spaces_times_eq.
  - destruct s0; [apply P | simpl in L; lia].
  - destruct s0 as [|c1 r1]; [apply P|].
    destruct (is_space1 c1) eqn:S1.
    { intros H. apply orb_true_iff in H as [H|H]; [|now apply P].
      apply IH in H as (ws & post & Hws & ->); [|simpl in L; lia].
      exists (String c1 ws), post. split; [now constructor | reflexivity]. }
    destruct r1 as [|c2 r2]; [apply P|].
    destruct (is_space2 c1 c2) eqn:S2.
    { intros H. apply orb_true_iff in H as [H|H]; [|now apply P].
      apply IH in H as (ws & post & Hws & ->); [|simpl in L; lia].
      exists (String c1 (String c2 ws)), post.
      split; [now constructor | reflexivity]. }
    destruct r2 as [|c3 r3]; [apply P|].
    destruct (is_space3 c1 c2 c3) eqn:S3; [|apply P].
    intros H. apply orb_true_iff in H as [H|H]; [|now apply P].
    apply IH in H as (ws & post & Hws & ->); [|simpl in L; lia].
    exists (String c1 (String c2 (String c3 ws))), post.
    split; [now constructor | reflexivity]. }
apply (G (String.length s)). lia.
Qed.

Lemma match_here_eq (s : string) :
match_here s
= match s with
  | String c s' =>
      if is_digit c then
        match match_here s' with
        | Some ds => Some (String c ds)
        | None =>
            if spaces_times s' then Some (String c EmptyString) else None
        end
      else None
  | EmptyString => None
  end.
Proof. destruct s; reflexivity. Qed.

(** What follows the digits does not start with a digit. *)
Lemma match_here_after_digits (ws post : string) :
Spec.Spaces ws -> match_here (ws ++ times ++ post) = None.
Proof.
intros H. rewrite match_here_eq.
destruct H as [|c ws Hc _|c1 c2 ws Hc _|c1 c2 c3 ws Hc _]; cbn [append].
- reflexivity.
- now rewrite (space1_not_digit _ Hc).
- destruct (space2_lead _ _ Hc) as [_ ->]. reflexivity.
- destruct (space3_lead _ _ _ Hc) as (_ & -> & _). reflexivity.
Qed.

Lemma match_here_sound (s ds : string) :
match_here s = Some ds -> Spec.MatchAt s ds.
Proof.
revert ds. induction s as [|c s IH]; intros ds; rewrite match_here_eq;
  [discriminate|].
destruct (is_digit c) eqn:D; [|discriminate].
destruct (match_here s) as [ds'|].
- intros [= <-]. destruct (IH ds' eq_refl) as [[_ Hd] (ws & post & Hws & ->)].
  split.
  + split; [discriminate|]. intros x [<-|I]; [exact D | now apply Hd].
  + exists ws, post. split; [exact Hws | reflexivity].
- destruct (spaces_times s) eqn:S; [|discriminate].
  intros [= <-]. apply spaces_times_sound in S as (ws & post & Hws & ->).
  split.
  + split; [discriminate|]. intros x [<-|[]]. exact D.
  + exists ws, post. split; [exact Hws | reflexivity].
Qed.

Lemma match_here_complete (s ds : string) :
Spec.MatchAt s ds -> match_here s = Some ds.
Proof.
revert s. induction ds as [|c ds IH]; intros s [[N Hd] (ws & post & Hws & ->)];
  [congruence|].
rewrite match_here_eq. cbn [append].
rewrite (Hd c (or_introl eq_refl)).
destruct ds as [|d ds].
- cbn [append]. rewrite (match_here_after_digits ws post Hws).
  now rewrite (spaces_times_complete ws post Hws).
- rewrite (IH (String d ds ++ ws ++ times ++ post)%string); [reflexivity|].
  split.
  + split; [discriminate|]. intros x I. apply Hd. now right.
  + exists ws, post. split; [exact Hws | reflexivity].
Qed.

Lemma exec_eq (line : string) :
exec line
= match match_here line with
  | Some ds => Some ds
  | None =>
      match line with
      | String _ rest => exec rest
      | EmptyString => None
      end
  end.
Proof. destruct line; reflexivity. Qed.

Lemma exec_sound (line ds : string) :
exec line = Some ds -> Spec.Match line ds.
Proof.
induction line as [|c rest IH]; rewrite exec_eq.
- rewrite match_here_eq. discriminate.
- destruct (match_here (String c rest)) as [ds'|] eqn:M.
  + intros [= <-]. exists EmptyString, (String c rest).
    split; [reflexivity|]. split; [now apply match_here_sound|].
    intros pre' suf' ds'' _ L. simpl in L. lia.
  + intros E. destruct (IH E) as (pre & suf & -> & Hm & Left).
    exists (String c pre), suf. split; [reflexivity|]. split; [exact Hm|].
    intros pre' suf' ds' E' L Hm'. destruct pre' as [|c' pre'].
    * simpl in E'. subst suf'.
      apply match_here_complete in Hm'. cbn [append] in Hm'. congruence.
    * simpl in E'. injection E' as _ E'. simpl in L.
      apply (Left pre' suf' ds' E'); [lia | exact Hm'].
Qed.

Lemma exec_complete (line ds : string) :
Spec.Match line ds -> exec line = Some ds.
Proof.
intros (pre & suf & -> & Hm & Left). induction pre as [|c pre IH].
- rewrite exec_eq. cbn [append]. now rewrite (match_here_complete _ _ Hm).
- rewrite exec_eq.
  destruct (match_here (String c pre ++ suf)) as [ds'|] eqn:M.
  + exfalso. apply match_here_sound in M.
    apply (Left EmptyString (String c pre ++ suf)%string ds');
      [reflexivity | simpl; lia | exact M].
  + cbn [append]. apply IH. intros pre' suf' ds' E L.
    apply (Left (String c pre') suf' ds'); [simpl; now rewrite E | simpl; lia].
Qed.

Lemma exec_None (line : string) :
exec line = None -> forall ds, ~ Spec.Match line ds.
Proof. intros E ds M. apply exec_complete in M. congruence. Qed.

(** ** parseInt on a string of digits *)

Lemma trim_digit (n : nat) (c : ascii) (r : string) :
is_digit c = true -> ParseInt.trim n (String c r) = String c r.
Proof.
intros D. destruct (digit_lead c D) as (S1 & S2 & S3).
destruct n as [|n]; [reflexivity|]. cbn [ParseInt.trim]. rewrite S1.
destruct r as [|c2 [|c3 r]]; rewrite ?S2, ?S3; reflexivity.
Qed.

Lemma strip_sign_digit (c : ascii) (r : string) :
is_digit c = true -> ParseInt.strip_sign (String c r) = (false, String c r).
Proof.
intros D. destruct c as [[] [] [] [] [] [] [] []];
  try reflexivity; vm_compute in D; discriminate D.
Qed.

Lemma strip_hex_prefix_digits (c : ascii) (r : string) :
(forall d, In d (list_ascii_of_string r) -> is_digit d = true) ->
ParseInt.strip_hex_prefix (String c r) = (10%N, String c r).
Proof.
intros D. destruct r as [|d r]; [now destruct c as [[] [] [] [] [] [] [] []]|].
specialize (D d (or_introl eq_refl)).
destruct c as [[] [] [] [] [] [] [] []]; try reflexivity.
destruct d as [[] [] [] [] [] [] [] []];
  try reflexivity; vm_compute in D; discriminate D.
Qed.

Lemma digit_value_digit (c : ascii) :
is_digit c = true ->
ParseInt.digit_value 10 c = Some (N_of_ascii c - 48)%N.
Proof.
intros D. unfold ParseInt.digit_value. unfold is_digit in D.
rewrite D. apply andb_true_iff in D as [D1 D2].
apply N.leb_le in D1. apply N.leb_le in D2.
destruct (N.ltb_spec (N_of_ascii c - 48) 10); [reflexivity | lia].
Qed.

Lemma digits_fold (ds : string) (a : N) :
(forall d, In d (list_ascii_of_string ds) -> is_digit d = true) ->
ParseInt.digits 10 (Some a) ds
= Some (fold_left (fun acc c => acc * 10 + (N_of_ascii c - 48))%N
          (list_ascii_of_string ds) a).
Proof.
revert a. induction ds as [|c ds IH]; intros a D; [reflexivity|].
cbn [ParseInt.digits list_ascii_of_string fold_left].
rewrite (digit_value_digit c) by (apply D; now left).
apply IH. intros d I. apply D. now right.
Qed.

Lemma parseInt_digits (ds : string) :
Spec.Digits ds ->
ParseInt.parseInt ds = number_of_Z (Z.of_N (Spec.decimal ds)).
Proof.
intros [N D]. destruct ds as [|c ds]; [congruence|].
assert (Dc : is_digit c = true) by (apply D; now left).
assert (Dr : forall d, In d (list_ascii_of_string ds) -> is_digit d = true)
  by (intros d I; apply D; now right).
unfold ParseInt.parseInt.
rewrite (trim_digit _ c ds Dc), (strip_sign_digit c ds Dc).
rewrite (strip_hex_prefix_digits c ds Dr).
cbn [ParseInt.digits]. rewrite (digit_value_digit c Dc).
rewrite (digits_fold ds _ Dr). unfold Spec.decimal.
cbn [list_ascii_of_string fold_left]. reflexivity.
Qed.

(** ** parseCartText *)


Lemma lineItemOfLine_Derived (line : string) :
Spec.Derived line (lineItemOfLine line).
Proof.
unfold Spec.Derived, lineItemOfLine. split; [reflexivity|].
eexists. split; [reflexivity|]. unfold Spec.QuantityOf.
destruct (exec line) as [ds|] eqn:E.
- left. exists ds. split; [now apply exec_sound|].
  apply parseInt_digits.
  apply exec_sound in E as (pre & suf & _ & [Hd _] & _). exact Hd.
- right. split; [now apply exec_None | reflexivity].
Qed.

End RegExpFacts.

Lemma parseCartText_text (text : string) :
  parseCartText (VString text)
  = Ok (map lineItemOfLine (filter isItemLine (JSString.split LF text))).
Proof.
  unfold parseCartText. destruct text as [|c text]; [reflexivity|].
  reflexivity.
Qed.

(** C8, as the code has it.  For every cart description, the line items
    are derived, in order, from exactly the lines that have both the
    multiplication sign and the dollar sign: each carries the fallback
    variant and as quantity the binary64 number nearest to the integer
    matched before the multiplication sign, 1 when nothing matches.  The
    description of the specification's example gives two items, of
    quantities 2 and 1. *)
Theorem parseCartText_item_lines :
  (forall text : string,
     exists lines itemLines items,
       Spec.Lines text lines
       /\ Spec.Selected Spec.ItemLine lines itemLines
       /\ parseCartText (VString text) = Ok items
       /\ Forall2 Spec.Derived itemLines items)
  /\ parseCartText (VString Example.cartText)
     = Ok [ mkLineItem (VString defaultVariantId) (VNumber (number_of_Z 2));
            mkLineItem (VString defaultVariantId) (VNumber (number_of_Z 1)) ].
Proof.
  split; [|vm_compute; reflexivity].
  intros text.
  exists (JSString.split LF text),
         (filter isItemLine (JSString.split LF text)),
         (map lineItemOfLine (filter isItemLine (JSString.split LF text))).
  split; [apply split_Lines|].
  split; [apply filter_Selected, isItemLine_ItemLine|].
  split; [apply parseCartText_text|].
  induction (filter isItemLine (JSString.split LF text)) as [|l ls IH];
    simpl; constructor; [apply lineItemOfLine_Derived | exact IH].
Qed.

(** C8, as the specification has it, fails where the integer matched is
    not a binary64 number: the quantity is what [parseInt] returns, the
    number nearest to the integer.  The line [9007199254740993 × ..] has
    the quantity 9007199254740992, and a line that starts with 310 digits
    has the quantity [Infinity]. *)
Lemma quantity_not_the_integer_matched :
  Spec.Match Sample.largeQuantity "9007199254740993"
  /\ Spec.decimal "9007199254740993" = 9007199254740993%N
  /\ (exists q,
        parseCartText (VString Sample.largeQuantity)
        = Ok [ mkLineItem (VString defaultVariantId) (VNumber q) ]
        /\ Spec.integer_value q = Some 9007199254740992%Z)
  /\ Spec.Match Sample.hugeQuantity (Sample.nines 310)
  /\ parseCartText (VString Sample.hugeQuantity)
     = Ok [ mkLineItem (VString defaultVariantId)
              (VNumber (S754_infinity false)) ].
Proof.
  split; [apply exec_sound; vm_compute; reflexivity|].
  split; [vm_compute; reflexivity|].
  split; [eexists; split; vm_compute; reflexivity|].
  split; [apply exec_sound; vm_compute; reflexivity|].
  vm_compute. reflexivity.
Qed.

(** ** Test vectors of the digest *)

Example sha256_empty :
  sha256_hex EmptyString
  = "e3b0c44298fc1c149afbf4c8996fb92427ae41e4649b934ca495991b7852b855".
Proof. vm_compute. reflexivity. Qed.

Example sha256_abc :
  sha256_hex "abc"
  = "ba7816bf8f01cfea414140de5dae2223b00361a396177a9cb410ff61f20015ad".
Proof. vm_compute. reflexivity. Qed.

Example sha256_two_blocks :
  sha256_hex "abcdbcdecdefdefgefghfghighijhijkijkljklmklmnlmnomnopnopq"
  = "248d6a61d20638b8e5c026930c3e6039a33ce45964ff2167f6ecedd419db06c1".
Proof. vm_compute. reflexivity. Qed.

Example hmac_rfc4231_case2 :
  createHmac_sha256_hex "Jefe" "what do ya want for nothing?"
  = "5bdcc146bf60754e6a042426089575c75a003f089d2739839dec58b964ec3843".
Proof. vm_compute. reflexivity. Qed.

Example hmac_long_key :
  createHmac_sha256_hex
    "kkkkkkkkkkkkkkkkkkkkkkkkkkkkkkkkkkkkkkkkkkkkkkkkkkkkkkkkkkkkkkkkkkkkkkkkkkkkkkkkkkkkkkkkkkkkkkkkkkkk"
    "abc"
  = "b58b2b694fdba0dd76da3ebe99174f728d327560f36ece224e90867972479922".
Proof. vm_compute. reflexivity. Qed.

(* ================================================================== *)
(** * Further properties of the verifier *)
(* ================================================================== *)

(** What is accepted: the secret is there and the first [signature] is
    the digest. *)
Lemma accepted_is_digest cmp (params : URLSearchParams.t)
    (sharedSecret : option string) :
  verifyShopifyRequest cmp params sharedSecret = true ->
  exists secret,
    sharedSecret = Some secret /\ secret <> EmptyString
    /\ URLSearchParams.get params "signature"
       = Some (createHmac_sha256_hex secret (sortedParams cmp params)).
Proof.
  unfold verifyShopifyRequest.
  destruct sharedSecret as [secret|]; [|discriminate].
  destruct secret as [|c secret]; [discriminate|]. cbn [JSString.falsy].
  destruct (URLSearchParams.get params "signature") as [sig|];
    [|discriminate].
  destruct (JSString.falsy sig); [discriminate|].
  intros E. apply String.eqb_eq in E. subst sig.
  eexists. split; [reflexivity|]. split; [discriminate | reflexivity].
Qed.

(** X1.  [verifyShopifyRequest] accepts exactly when the secret is set and
    not empty and the first [signature] parameter is the digest of the
    string [sortedParams] under that secret. *)
Theorem verify_accepts_iff cmp (params : URLSearchParams.t)
    (sharedSecret : option string) :
  verifyShopifyRequest cmp params sharedSecret = true
  <-> exists secret,
        sharedSecret = Some secret /\ secret <> EmptyString
        /\ URLSearchParams.get params "signature"
           = Some (createHmac_sha256_hex secret (sortedParams cmp params)).
Proof.
  split; [apply accepted_is_digest|].
  intros (secret & -> & N & G). unfold verifyShopifyRequest. rewrite G.
  destruct secret as [|c secret]; [congruence|]. cbn [JSString.falsy].
  rewrite createHmac_not_falsy. apply String.eqb_refl.
Qed.

(** X2.  A signature that is accepted is 64 lowercase hexadecimal digits:
    an upper-case or shortened rendering of the right digest is
    rejected. *)
Theorem accepted_signature_is_lowercase_hex cmp (params : URLSearchParams.t)
    (sharedSecret : option string) :
  verifyShopifyRequest cmp params sharedSecret = true ->
  exists signature,
    URLSearchParams.get params "signature" = Some signature
    /\ String.length signature = 64%nat
    /\ Forall (fun c => Spec.lower_hex c = true)
              (list_ascii_of_string signature).
Proof.
  intros V. apply accepted_is_digest in V as (secret & _ & _ & G).
  eexists. split; [exact G|]. apply createHmac_lowercase_hex.
Qed.

Lemma accepted_signature_is_lowercase_hex_witness :
  verifyShopifyRequest Collation.localeCompare Example.proxyParams
    (Some Example.secret) = true
  /\ exists signature,
       URLSearchParams.get Example.proxyParams "signature" = Some signature
       /\ String.length signature = 64%nat
       /\ Forall (fun c => Spec.lower_hex c = true)
                 (list_ascii_of_string signature).
Proof.
  assert (V : verifyShopifyRequest Collation.localeCompare
                Example.proxyParams (Some Example.secret) = true)
    by (vm_compute; reflexivity).
  split; [exact V|].
  exact (accepted_signature_is_lowercase_hex Collation.localeCompare
           Example.proxyParams (Some Example.secret) V).
Defined.

Lemma get_app_found (p more : URLSearchParams.t) (name : string) :
  URLSearchParams.get p name <> None ->
  URLSearchParams.get (p ++ more) name = URLSearchParams.get p name.
Proof.
  induction p as [|[k v] p IH]; simpl; [congruence|].
  destruct (String.eqb k name); [reflexivity | exact IH].
Qed.

Lemma get_app_missing (p more : URLSearchParams.t) (name : string) :
  URLSearchParams.get p name = None ->
  URLSearchParams.get (p ++ more) name = URLSearchParams.get more name.
Proof.
  induction p as [|[k v] p IH]; simpl; [reflexivity|].
  destruct (String.eqb k name); [discriminate | exact IH].
Qed.

Lemma candidates_signatures (more : URLSearchParams.t) :
  Forall (fun e => fst e = "signature") more -> Spec.candidates more = [].
Proof.
  induction 1 as [|[k v] l H _ IH]; simpl; [reflexivity|].
  simpl in H. subst k. exact IH.
Qed.

Lemma verify_same_message cmp (p1 p2 : URLSearchParams.t)
    (sharedSecret : option string) :
  URLSearchParams.get p1 "signature" = URLSearchParams.get p2 "signature" ->
  sortedParams cmp p1 = sortedParams cmp p2 ->
  verifyShopifyRequest cmp p1 sharedSecret
  = verifyShopifyRequest cmp p2 sharedSecret.
Proof.
  intros G S. unfold verifyShopifyRequest. now rewrite G, S.
Qed.

Lemma verify_same_inputs cmp (p1 p2 : URLSearchParams.t)
    (sharedSecret : option string) :
  URLSearchParams.get p1 "signature" = URLSearchParams.get p2 "signature" ->
  Spec.candidates p1 = Spec.candidates p2 ->
  verifyShopifyRequest cmp p1 sharedSecret
  = verifyShopifyRequest cmp p2 sharedSecret.
Proof.
  intros G C. apply verify_same_message; [exact G|].
  now rewrite !sortedParams_serialize, C.
Qed.

(** X3.  Only the first [signature] parameter counts: further ones, to
    the right of it, change nothing, whatever their values. *)
Theorem later_signatures_ignored cmp (params more : URLSearchParams.t)
    (sharedSecret : option string) :
  URLSearchParams.get params "signature" <> None ->
  Forall (fun e => fst e = "signature") more ->
  verifyShopifyRequest cmp (params ++ more) sharedSecret
  = verifyShopifyRequest cmp params sharedSecret.
Proof.
  intros G M. apply verify_same_inputs.
  - now apply get_app_found.
  - rewrite candidates_app, (candidates_signatures more M).
    apply app_nil_r.
Qed.

Lemma later_signatures_ignored_witness :
  URLSearchParams.get Example.proxyParams "signature" <> None
  /\ Forall (fun e => fst e = "signature") [("signature", "0000")]
  /\ verifyShopifyRequest Collation.localeCompare Sample.twoSignatures
       (Some Example.secret)
     = verifyShopifyRequest Collation.localeCompare Example.proxyParams
         (Some Example.secret).
Proof.
  assert (H1 : URLSearchParams.get Example.proxyParams "signature" <> None)
    by discriminate.
  assert (H2 : Forall (fun e : string * string => fst e = "signature")
                 [("signature", "0000")])
    by (constructor; [reflexivity | constructor]).
  split; [exact H1|]. split; [exact H2|].
  exact (later_signatures_ignored Collation.localeCompare
           Example.proxyParams [("signature", "0000")]
           (Some Example.secret) H1 H2).
Defined.

(** X4.  Where the [signature] parameter stands among the others does not
    matter, for any comparator and also with repeated keys. *)
Theorem signature_position_irrelevant cmp (before after : URLSearchParams.t)
    (signature : string) (sharedSecret : option string) :
  URLSearchParams.get before "signature" = None ->
  verifyShopifyRequest cmp (before ++ ("signature", signature) :: after)
    sharedSecret
  = verifyShopifyRequest cmp (("signature", signature) :: before ++ after)
      sharedSecret.
Proof.
  intros G. apply verify_same_inputs.
  - rewrite (get_app_missing _ _ _ G). reflexivity.
  - rewrite candidates_app. simpl. now rewrite candidates_app.
Qed.

Lemma signature_position_irrelevant_witness :
  URLSearchParams.get Example.repeatedKey "signature" <> None
  /\ URLSearchParams.get [("a", "1"); ("a", "2")] "signature" = None
  /\ verifyShopifyRequest Collation.localeCompare Example.repeatedKey
       (Some Example.secret)
     = verifyShopifyRequest Collation.localeCompare
         [ ("signature",
            "9add14221c64c325d628f34afd0b064bcb6f3dc821c1980dee64031a1a9b2be1");
           ("a", "1"); ("a", "2") ]
         (Some Example.secret).
Proof.
  assert (H : URLSearchParams.get [("a", "1"); ("a", "2")] "signature" = None)
    by reflexivity.
  split; [discriminate|]. split; [exact H|].
  exact (signature_position_irrelevant Collation.localeCompare
           [("a", "1"); ("a", "2")] []
           "9add14221c64c325d628f34afd0b064bcb6f3dc821c1980dee64031a1a9b2be1"
           (Some Example.secret) H).
Defined.

Lemma candidates_no_signature (params : URLSearchParams.t) :
  Forall (fun e => fst e <> "signature") (Spec.candidates params).
Proof.
  apply Forall_forall. intros e I. unfold Spec.candidates in I.
  apply filter_In in I as [_ I]. apply negb_true_iff in I.
  now apply String.eqb_neq.
Qed.

(** X5.  No [signature] parameter takes part in the string that is
    hashed: none is among the sorted entries, and replacing the value of
    one leaves the string as it is. *)
Theorem signature_not_hashed cmp (before after : URLSearchParams.t)
    (signature signature' : string) :
  Forall (fun e => fst e <> "signature")
         (sortedEntries cmp (before ++ ("signature", signature) :: after))
  /\ sortedParams cmp (before ++ ("signature", signature) :: after)
     = sortedParams cmp (before ++ ("signature", signature') :: after).
Proof.
  split.
  - eapply Permutation_Forall.
    + apply Permutation_sym, sortedEntries_perm.
    + apply candidates_no_signature.
  - rewrite !sortedParams_serialize, !candidates_app. reflexivity.
Qed.

(** X6.  The serialization has no separator, so the pairs [k1=v1] and
    [k2=v2], with [k1] sorted first, hash like the single pair whose key
    is [k1] and whose value is [v1] followed by [k2=v2]: a signature for
    one of the two requests is accepted for the other. *)
Theorem split_parameter_verifies_alike cmp (k1 v1 k2 v2 signature : string)
    (sharedSecret : option string) :
  k1 <> "signature" -> k2 <> "signature" -> (cmp k1 k2 <= 0)%Z ->
  verifyShopifyRequest cmp
    [(k1, v1); (k2, v2); ("signature", signature)] sharedSecret
  = verifyShopifyRequest cmp
      [(k1, (v1 ++ k2 ++ "=" ++ v2)%string); ("signature", signature)]
      sharedSecret.
Proof.
  intros N1 N2 L. apply String.eqb_neq in N1, N2.
  apply verify_same_message.
  - simpl. now rewrite N1, N2.
  - rewrite !sortedParams_serialize. unfold Spec.candidates. simpl.
    rewrite N1, N2. simpl. unfold compareKeys at 1. simpl.
    apply Z.leb_le in L. rewrite L. simpl.
    now rewrite !append_assoc.
Qed.

Lemma split_parameter_verifies_alike_witness :
  "a" <> "signature" /\ "b" <> "signature"
  /\ (Collation.localeCompare "a" "b" <= 0)%Z
  /\ verifyShopifyRequest Collation.localeCompare Sample.twoParams
       (Some Example.secret) = true
  /\ verifyShopifyRequest Collation.localeCompare Sample.oneParam
       (Some Example.secret) = true.
Proof.
  assert (H1 : "a" <> "signature") by discriminate.
  assert (H2 : "b" <> "signature") by discriminate.
  assert (H3 : (Collation.localeCompare "a" "b" <= 0)%Z)
    by (vm_compute; discriminate).
  assert (V : verifyShopifyRequest Collation.localeCompare Sample.twoParams
                (Some Example.secret) = true) by (vm_compute; reflexivity).
  split; [exact H1|]. split; [exact H2|]. split; [exact H3|].
  split; [exact V|].
  rewrite <- V. symmetry.
  exact (split_parameter_verifies_alike Collation.localeCompare
           "a" "1" "b" "2"
           "b1f22d87382ee1c7aa52915101a5bd9d61d78374bac7f27183ceff5bf98effaa"
           (Some Example.secret) H1 H2 H3).
Defined.

Lemma sort_sorted_id {A : Type} (comparefn : A -> A -> Z) (l : list A) :
  StronglySorted (fun a b => (comparefn a b <= 0)%Z) l ->
  ArraySort.sort comparefn l = l.
Proof.
  induction 1 as [|a l S IH H]; simpl; [reflexivity|].
  rewrite IH. destruct l as [|b l]; [reflexivity|]. simpl.
  inversion H as [|? ? Hab _]; subst.
  apply Z.leb_le in Hab. now rewrite Hab.
Qed.

Lemma candidates_id (l : list entry) :
  Forall (fun e => fst e <> "signature") l -> Spec.candidates l = l.
Proof.
  induction 1 as [|[k v] l H _ IH]; simpl; [reflexivity|].
  simpl in H. apply String.eqb_neq in H. rewrite H. simpl. now rewrite IH.
Qed.

Lemma get_no_signature (l : list entry) :
  Forall (fun e => fst e <> "signature") l ->
  URLSearchParams.get l "signature" = None.
Proof.
  induction 1 as [|[k v] l H _ IH]; simpl; [reflexivity|].
  simpl in H. apply String.eqb_neq in H. now rewrite H.
Qed.

(** X7.  For a consistent [localeCompare], a request is verified like its
    canonical form: the parameters that are hashed, in the order in which
    they are hashed, followed by the signature.  Sorting what is sorted
    changes nothing. *)
Theorem canonical_form_verifies_alike cmp (params : URLSearchParams.t)
    (signature : string) (sharedSecret : option string) :
  Spec.consistent cmp ->
  URLSearchParams.get params "signature" = Some signature ->
  verifyShopifyRequest cmp
    (sortedEntries cmp params ++ [("signature", signature)]) sharedSecret
  = verifyShopifyRequest cmp params sharedSecret.
Proof.
  intros C G.
  assert (NS : Forall (fun e => fst e <> "signature")
                      (sortedEntries cmp params)).
  { eapply Permutation_Forall;
      [apply Permutation_sym, sortedEntries_perm
      | apply candidates_no_signature]. }
  apply verify_same_message.
  - rewrite (get_app_missing _ _ _ (get_no_signature _ NS)). simpl. now rewrite G.
  - rewrite (sortedParams_serialize cmp (_ ++ _)), candidates_app.
    rewrite (candidates_id _ NS). simpl. rewrite app_nil_r.
    rewrite (sort_sorted_id (compareKeys cmp)).
    + symmetry. unfold sortedParams. apply join_keyValue.
    + exact (sortedEntries_sorted cmp params C).
Qed.

Lemma canonical_form_verifies_alike_witness :
  Spec.consistent Collation.localeCompare
  /\ URLSearchParams.get Example.shuffledParams "signature"
     = Some "16ea11c585125fe12a2c70e103961defce18b9ff0ef8356fe537fefd16deacd0"
  /\ verifyShopifyRequest Collation.localeCompare
       (sortedEntries Collation.localeCompare Example.shuffledParams
          ++ [("signature",
               "16ea11c585125fe12a2c70e103961defce18b9ff0ef8356fe537fefd16deacd0")])
       (Some Example.secret)
     = verifyShopifyRequest Collation.localeCompare Example.shuffledParams
         (Some Example.secret).
Proof.
  assert (G : URLSearchParams.get Example.shuffledParams "signature"
              = Some "16ea11c585125fe12a2c70e103961defce18b9ff0ef8356fe537fefd16deacd0")
    by reflexivity.
  split; [exact localeCompare_consistent|]. split; [exact G|].
  exact (canonical_form_verifies_alike Collation.localeCompare
           Example.shuffledParams _ (Some Example.secret)
           localeCompare_consistent G).
Defined.

(* ================================================================== *)
(** * Further properties of the handler of /orders *)
(* ================================================================== *)

(** Reading [error.message] throws only on [null] and [undefined], and
    what it throws is a [TypeError]. *)
Lemma getProp_throws (o : value) (name : string) (t : thrown) :
  getProp o name = Throw t ->
  Spec.nullish o = true /\ exists e, t = ThrownError e.
Proof.
  destruct o; cbn [getProp]; try discriminate.
  - intros [= <-]. split; [reflexivity | eauto].
  - intros [= <-]. split; [reflexivity | eauto].
  - destruct (lookup name fields); discriminate.
Qed.

Lemma messageOf_throws (t t' : thrown) :
  messageOf t = Throw t' ->
  exists v, t = ThrownValue v /\ Spec.nullish v = true.
Proof.
  destruct t as [e|v]; cbn [messageOf]; [discriminate|].
  intros H. exists v. split; [reflexivity|].
  exact (proj1 (getProp_throws _ _ _ H)).
Qed.

Lemma messageOf_throws_error (t t' : thrown) :
  messageOf t = Throw t' -> exists e, t' = ThrownError e.
Proof.
  destruct t as [e|v]; cbn [messageOf]; [discriminate|].
  intros H. exact (proj2 (getProp_throws _ _ _ H)).
Qed.

Lemma readFields_throws (payload : value) (t : thrown) :
  readFields payload = Throw t -> exists e, t = ThrownError e.
Proof.
  unfold readFields.
  destruct payload; cbn [getProp bind]; try discriminate.
  - intros [= <-]. eauto.
  - intros [= <-]. eauto.
  - repeat match goal with
           | |- context [lookup ?n ?f] => destruct (lookup n f); cbn [bind]
           end; discriminate.
Qed.

Lemma parseCartText_throws (cartText : value) (t : thrown) :
  parseCartText cartText = Throw t -> exists e, t = ThrownError e.
Proof.
  unfold parseCartText. destruct (negb (truthy cartText)); [discriminate|].
  destruct cartText; try discriminate; intros [= <-]; eauto.
Qed.

(** The normaliser throws [Error] objects only. *)
Lemma normaliser_throws_errors (JP : value -> result value) (payload : value)
    (t : thrown) :
  parseOrderData JP payload = Throw t -> exists e, t = ThrownError e.
Proof.
  unfold parseOrderData.
  destruct (readFields payload) as [data|t0] eqn:R; cbn [bind].
  - unfold deriveLineItems.
    destruct (truthy (cart_line_items data)).
    + destruct (structuredLineItems JP data); cbn [bind try_catch];
        [discriminate|].
      destruct (parseCartText (cart data)) eqn:C; cbn [bind];
        [discriminate|].
      intros [= <-]. exact (parseCartText_throws _ _ C).
    + destruct (truthy (cart data)); [|discriminate].
      destruct (parseCartText (cart data)) eqn:C; cbn [bind];
        [discriminate|].
      intros [= <-]. exact (parseCartText_throws _ _ C).
  - intros [= <-]. exact (readFields_throws _ _ R).
Qed.

Section OrdersAction.
Variable cmp : string -> string -> Z.
Variable JP : value -> result value.
Variable admin : Type.
Variable unauthenticated_admin : string -> result admin.
Variable admin_graphql :
  admin -> string -> DraftOrderInput.t -> result value.
Variable SECRET : option string.
Variable now : string.

Local Abbreviation act :=
  (action cmp JP admin unauthenticated_admin admin_graphql SECRET now).
Local Abbreviation rcv :=
  (receive JP admin unauthenticated_admin admin_graphql now).
Local Abbreviation submit :=
  (submitDraftOrder admin unauthenticated_admin admin_graphql).
(** What the outer [try] throws, by where it comes from. *)
Local Abbreviation thrownByOuterTry req t :=
  (readPayload req = Throw t
   \/ (exists payload,
         readPayload req = Ok payload
         /\ parseOrderData JP payload = Throw t)
   \/ (exists payload data t0,
         readPayload req = Ok payload
         /\ parseOrderData JP payload = Ok data
         /\ submit (url_searchParams req) data = Throw t0
         /\ messageOf t0 = Throw t)).

Lemma action_unverified (req : request) :
  verifyShopifyRequest cmp (url_searchParams req) SECRET = false ->
  act req
  = Ok (json (UnauthorizedBody "Unauthorized"
                "Request signature verification failed") 401).
Proof. intros V. unfold action. cbv zeta. now rewrite V. Qed.

(** What the outer [try] returns is a response of status 200. *)
Lemma receive_returns (req : request) (r : response) :
  rcv req = Ok r -> status r = 200%Z.
Proof.
  unfold receive.
  destruct (readPayload req) as [payload|t0]; cbn [bind]; [|discriminate].
  destruct (parseOrderData JP payload) as [data|t0]; cbn [bind];
    [|discriminate].
  destruct (submit (url_searchParams req) data) as [d|t0];
    cbn [bind try_catch].
  - now intros [= <-].
  - destruct (messageOf t0); cbn [bind]; [now intros [= <-] | discriminate].
Qed.

(** What the outer [try] throws comes from the reader of the body, from
    [parseOrderData], or from the [catch] of the inner [try], where
    [error.message] is read. *)
Lemma receive_throws (req : request) (t : thrown) :
  rcv req = Throw t <-> thrownByOuterTry req t.
Proof.
  unfold receive.
  destruct (readPayload req) as [payload|t1]; cbn [bind].
  - destruct (parseOrderData JP payload) as [data|t1] eqn:P; cbn [bind].
    + destruct (submit (url_searchParams req) data) as [d|t1] eqn:S;
        cbn [bind try_catch].
      * split; [discriminate|].
        intros [H|[(p & [= <-] & H)|(p & d' & t0 & [= <-] & D & H & _)]];
          try discriminate; congruence.
      * destruct (messageOf t1) as [m|t2] eqn:M; cbn [bind].
        -- split; [discriminate|].
           intros [H|[(p & [= <-] & H)|(p & d' & t0 & [= <-] & D & H & M')]];
             try discriminate; congruence.
        -- split.
           ++ intros [= <-]. right. right.
              exists payload, data, t1. now rewrite P.
           ++ intros [H|[(p & [= <-] & H)
                        |(p & d' & t0 & [= <-] & D & H & M')]];
                try discriminate; congruence.
    + split.
      * intros [= <-]. right. left. now exists payload.
      * intros [H|[(p & [= <-] & H)|(p & d' & t0 & [= <-] & D & _)]];
          try discriminate; congruence.
  - split.
    + intros [= <-]. now left.
    + intros [H|[(p & H & _)|(p & d' & t0 & H & _)]];
        try discriminate; congruence.
Qed.

(** How a verified request is answered, by what the outer [try] does. *)
Lemma action_verified (req : request) :
  verifyShopifyRequest cmp (url_searchParams req) SECRET = true ->
  act req
  = match rcv req with
    | Ok r => Ok r
    | Throw t =>
        match messageOf t with
        | Ok message =>
            Ok (json (FailedBody false "Failed to process order payload"
                        message) 500)
        | Throw t' => Throw t'
        end
    end.
Proof.
  intros V. unfold action. cbv zeta. rewrite V. cbn [negb].
  destruct (rcv req) as [r|t]; cbn [try_catch]; [reflexivity|].
  now destruct (messageOf t).
Qed.

(** X8.  The handler answers 401 to the requests that are not verified.
    When it answers, the status is 401 exactly for those, and 200 or 500
    for the others.  It answers every request but those whose body the
    reader rejects with [null] or [undefined]: there the [catch] of the
    outer [try] throws, and so does the handler. *)
Theorem action_status_codes (req : request) :
  (verifyShopifyRequest cmp (url_searchParams req) SECRET = false ->
   act req
   = Ok (json (UnauthorizedBody "Unauthorized"
                 "Request signature verification failed") 401))
  /\ (forall r,
        act req = Ok r ->
        (status r = 401%Z
         <-> verifyShopifyRequest cmp (url_searchParams req) SECRET = false)
        /\ (status r = 200%Z \/ status r = 401%Z \/ status r = 500%Z))
  /\ (forall t,
        act req = Throw t ->
        verifyShopifyRequest cmp (url_searchParams req) SECRET = true
        /\ exists v,
             Spec.nullish v = true
             /\ readPayload req = Throw (ThrownValue v)
             /\ getProp v "message" = Throw t).
Proof.
  split; [apply action_unverified|].
  destruct (verifyShopifyRequest cmp (url_searchParams req) SECRET) eqn:V.
  - rewrite (action_verified req V).
    destruct (rcv req) as [r0|t0] eqn:R.
    + split; [|discriminate].
      intros r [= <-]. rewrite (receive_returns req r0 R).
      split; [split; intros; discriminate | now left].
    + destruct (messageOf t0) as [m|t1] eqn:M.
      * split; [|discriminate].
        intros r [= <-]. cbn [status json].
        split; [split; intros; discriminate | now right; right].
      * split; [discriminate|].
        intros t [= <-]. split; [reflexivity|].
        destruct (messageOf_throws _ _ M) as (v & -> & N).
        exists v. split; [exact N|]. split; [|exact M].
        apply receive_throws in R.
        destruct R as [R|[(p & _ & R)|(p & d & t' & _ & _ & _ & R)]].
        -- exact R.
        -- destruct (normaliser_throws_errors _ _ _ R) as (e & E).
           discriminate E.
        -- destruct (messageOf_throws_error _ _ R) as (e & E).
           discriminate E.
  - rewrite (action_unverified req V). split; [|discriminate].
    intros r [= <-]. cbn [status json].
    split; [split; reflexivity | now right; left].
Qed.

(** X9.  With the secret unset or empty the handler answers 401 to every
    request, whatever its signature, its body and the collaborator. *)
Theorem action_unconfigured_secret (req : request) :
  SECRET = None \/ SECRET = Some EmptyString ->
  act req
  = Ok (json (UnauthorizedBody "Unauthorized"
                "Request signature verification failed") 401).
Proof.
  intros H. apply action_unverified. now destruct H as [->| ->].
Qed.

(** X10.  A verified request is answered 500 exactly when the outer [try]
    throws something whose message can be read, and the answer carries
    that message.  What the outer [try] throws is what the reader of the
    body or [parseOrderData] throws, or what the [catch] of the inner
    [try] throws when reading the message of what the submission rejected
    with. *)
Theorem action_500 (req : request) :
  verifyShopifyRequest cmp (url_searchParams req) SECRET = true ->
  ((exists r, act req = Ok r /\ status r = 500%Z)
   <-> exists t message,
         thrownByOuterTry req t /\ messageOf t = Ok message)
  /\ (forall t message,
        thrownByOuterTry req t ->
        messageOf t = Ok message ->
        act req
        = Ok (json (FailedBody false "Failed to process order payload"
                      message) 500)).
Proof.
  intros V. rewrite (action_verified req V).
  destruct (rcv req) as [r0|t0] eqn:R.
  - split.
    + split.
      * intros (r & [= <-] & S).
        rewrite (receive_returns req r0 R) in S. discriminate S.
      * intros (t & m & O & _). apply receive_throws in O. congruence.
    + intros t m O _. apply receive_throws in O. congruence.
  - split.
    + split.
      * intros (r & H & S). destruct (messageOf t0) as [m|t1] eqn:M;
          [|discriminate H].
        exists t0, m. split; [now apply receive_throws | exact M].
      * intros (t & m & O & M). apply receive_throws in O.
        assert (t = t0) as -> by congruence. rewrite M.
        eexists. split; reflexivity.
    + intros t m O M. apply receive_throws in O.
      assert (t = t0) as -> by congruence. now rewrite M.
Qed.

(** X11.  Without a [shop] parameter, or with an empty one, a verified
    request whose payload is normalised is answered 200 with [draftOrder]
    null, whatever the collaborator would do. *)
Theorem action_without_shop (req : request) (payload : value)
    (data : orderData) :
  verifyShopifyRequest cmp (url_searchParams req) SECRET = true ->
  readPayload req = Ok payload ->
  parseOrderData JP payload = Ok data ->
  URLSearchParams.get (url_searchParams req) "shop" = None
  \/ URLSearchParams.get (url_searchParams req) "shop" = Some EmptyString ->
  act req
  = Ok (json (ReceivedBody true
                "Order payload received and draft order created"
                now data DraftOrderNull) 200).
Proof.
  intros V P D S. unfold action. cbv zeta.
  rewrite V. cbn [negb]. unfold receive.
  rewrite P. cbn [bind]. rewrite D. cbn [bind].
  unfold submitDraftOrder. now destruct S as [->| ->].
Qed.

(** X12.  When the collaborator has a session for the shop and creates
    the draft order, it was asked with the e-mail, the shipping address
    and the line items of the normalised payload and the tag
    [International-Quote], and the handler answers 200 with the
    collaborator's response. *)
Theorem action_submits_normalised_order (req : request) (payload : value)
    (data : orderData) (shop : string) (adm : admin) (created : value) :
  verifyShopifyRequest cmp (url_searchParams req) SECRET = true ->
  readPayload req = Ok payload ->
  parseOrderData JP payload = Ok data ->
  URLSearchParams.get (url_searchParams req) "shop" = Some shop ->
  shop <> EmptyString ->
  unauthenticated_admin shop = Ok adm ->
  admin_graphql adm DRAFT_ORDER_MUTATION
    (DraftOrderInput.mkInput (email data)
       (DraftOrderInput.mkShippingAddress
          (shipping_address1 data) (shipping_city data)
          (shipping_province data) (shipping_country data)
          (shipping_zip data))
       (lineItems data) ["International-Quote"])
  = Ok created ->
  Spec.nullish created = false ->
  act req
  = Ok (json (ReceivedBody true
                "Order payload received and draft order created"
                now data (DraftOrderResponse created)) 200).
Proof.
  intros V P D G S A C N. unfold action. cbv zeta.
  rewrite V. cbn [negb]. unfold receive.
  rewrite P. cbn [bind]. rewrite D. cbn [bind].
  unfold submitDraftOrder. rewrite G.
  destruct shop as [|c shop]; [congruence|]. cbn [JSString.falsy].
  rewrite A. cbn [bind]. unfold createDraftOrder. rewrite C.
  cbn [try_catch bind]. rewrite (getProp_field _ _ N). reflexivity.
Qed.

End OrdersAction.

Lemma action_unconfigured_secret_witness :
  (@None string = None \/ @None string = Some EmptyString)
  /\ action Collation.localeCompare JSON.parse unit
       Example.admin_without_session Example.graphql_unreached
       None "2024-01-01T00:00:00.000Z" Example.formRequest
     = Ok (json (UnauthorizedBody "Unauthorized"
                   "Request signature verification failed") 401).
Proof.
  assert (H : @None string = None \/ @None string = Some EmptyString)
    by (left; reflexivity).
  split; [exact H|].
  exact (action_unconfigured_secret Collation.localeCompare JSON.parse unit
           Example.admin_without_session Example.graphql_unreached
           None "2024-01-01T00:00:00.000Z" Example.formRequest H).
Defined.

Lemma nullBody_verified :
  verifyShopifyRequest Collation.localeCompare
    (url_searchParams Sample.nullBody) (Some Example.secret) = true.
Proof. vm_compute. reflexivity. Qed.

Lemma action_500_witness :
  verifyShopifyRequest Collation.localeCompare
    (url_searchParams Sample.nullBody) (Some Example.secret) = true
  /\ action Collation.localeCompare JSON.parse unit
       Example.admin_without_session Example.graphql_unreached
       (Some Example.secret) "2024-01-01T00:00:00.000Z" Sample.nullBody
     = Ok (json (FailedBody false "Failed to process order payload"
                   (VString
                      "Cannot read properties of null (reading 'quote[email]')"))
             500).
Proof.
  split; [exact nullBody_verified|].
  apply (proj2 (action_500 Collation.localeCompare JSON.parse unit
                  Example.admin_without_session Example.graphql_unreached
                  (Some Example.secret) "2024-01-01T00:00:00.000Z"
                  Sample.nullBody nullBody_verified)
           (ThrownError
              (TypeError
                 "Cannot read properties of null (reading 'quote[email]')"))).
  - right. left. exists VNull. split; reflexivity.
  - reflexivity.
Defined.

Lemma noShopRequest_verified :
  verifyShopifyRequest Collation.localeCompare
    (url_searchParams Sample.noShopRequest) (Some Example.secret) = true.
Proof. vm_compute. reflexivity. Qed.

Lemma action_without_shop_witness :
  verifyShopifyRequest Collation.localeCompare
    (url_searchParams Sample.noShopRequest) (Some Example.secret) = true
  /\ (URLSearchParams.get (url_searchParams Sample.noShopRequest) "shop"
      = None
      \/ URLSearchParams.get (url_searchParams Sample.noShopRequest) "shop"
         = Some EmptyString)
  /\ exists data,
       action Collation.localeCompare JSON.parse unit
         Sample.admin_with_session Sample.graphql_creates
         (Some Example.secret) "2024-01-01T00:00:00.000Z"
         Sample.noShopRequest
       = Ok (json (ReceivedBody true
                     "Order payload received and draft order created"
                     "2024-01-01T00:00:00.000Z" data DraftOrderNull) 200).
Proof.
  assert (S : URLSearchParams.get (url_searchParams Sample.noShopRequest)
                "shop" = None
              \/ URLSearchParams.get (url_searchParams Sample.noShopRequest)
                   "shop" = Some EmptyString) by (left; reflexivity).
  split; [exact noShopRequest_verified|]. split; [exact S|].
  eexists.
  exact (action_without_shop Collation.localeCompare JSON.parse unit
           Sample.admin_with_session Sample.graphql_creates
           (Some Example.secret) "2024-01-01T00:00:00.000Z"
           Sample.noShopRequest _ _ noShopRequest_verified
           eq_refl eq_refl S).
Defined.

Lemma action_submits_normalised_order_witness :
  verifyShopifyRequest Collation.localeCompare
    (url_searchParams Example.formRequest) (Some Example.secret) = true
  /\ Sample.admin_with_session "quotes.myshopify.com" = Ok tt
  /\ Spec.nullish Sample.created = false
  /\ exists data,
       lineItems data
       = Some [ mkLineItem (VString defaultVariantId)
                  (VNumber (number_of_Z 2));
                mkLineItem (VString defaultVariantId)
                  (VNumber (number_of_Z 1)) ]
       /\ action Collation.localeCompare JSON.parse unit
            Sample.admin_with_session Sample.graphql_creates
            (Some Example.secret) "2024-01-01T00:00:00.000Z"
            Example.formRequest
          = Ok (json (ReceivedBody true
                        "Order payload received and draft order created"
                        "2024-01-01T00:00:00.000Z" data
                        (DraftOrderResponse Sample.created)) 200).
Proof.
  assert (S : "quotes.myshopify.com" <> EmptyString) by discriminate.
  split; [exact formRequest_verified|]. split; [reflexivity|].
  split; [reflexivity|].
  eexists. split; [|
  exact (action_submits_normalised_order Collation.localeCompare JSON.parse
           unit Sample.admin_with_session Sample.graphql_creates
           (Some Example.secret) "2024-01-01T00:00:00.000Z"
           Example.formRequest _ _ "quotes.myshopify.com" tt Sample.created
           formRequest_verified formRequest_payload eq_refl eq_refl S
           eq_refl eq_refl eq_refl)].
  vm_compute. reflexivity.
Defined.

(* ================================================================== *)
(** * Further properties of the normaliser *)
(* ================================================================== *)

Lemma mapLineItems_array (items : list value) :
  Forall (fun item => Spec.nullish item = false) items ->
  mapLineItems (VArray items)
  = Ok (map (fun item => mkLineItem (Spec.field item "variantId")
                           (Spec.field item "quantity")) items).
Proof.
  unfold mapLineItems. induction 1 as [|item items N _ IH]; [reflexivity|].
  cbn [mapM map]. rewrite !(getProp_field _ _ N). cbn [bind].
  rewrite IH. reflexivity.
Qed.

(** X13.  When the structured field is there and [JSON.parse] gives an
    array without [null] in it, the line items are the [variantId] and
    [quantity] of its elements, as they are and in their order; the cart
    description is not consulted, whatever it is. *)
Theorem structured_line_items_used JP (payload : value) (items : list value) :
  truthy (Spec.field payload "quote[cart_line_items]") = true ->
  JP (Spec.field payload "quote[cart_line_items]") = Ok (VArray items) ->
  Forall (fun item => Spec.nullish item = false) items ->
  exists data,
    parseOrderData JP payload = Ok data
    /\ lineItems data
       = Some (map (fun item => mkLineItem (Spec.field item "variantId")
                                  (Spec.field item "quantity")) items).
Proof.
  intros T P N.
  assert (NP : Spec.nullish payload = false)
    by (destruct payload; simpl in T; try discriminate; reflexivity).
  destruct (readFields_not_nullish payload NP) as (d & R & Ec & El & En).
  unfold parseOrderData. rewrite R. cbn [bind].
  unfold deriveLineItems, structuredLineItems. rewrite El, T, P. cbn [bind].
  rewrite (mapLineItems_array items N). cbn [bind try_catch].
  eexists. split; reflexivity.
Qed.

Lemma structured_line_items_used_witness :
  truthy (Spec.field Sample.structured "quote[cart_line_items]") = true
  /\ JSON.parse (Spec.field Sample.structured "quote[cart_line_items]")
     = Ok (VArray
             [ VObject
                 [ ("variantId", VString "gid://shopify/ProductVariant/123");
                   ("quantity", VNumber (number_of_Z 3)) ] ])
  /\ exists data,
       parseOrderData JSON.parse Sample.structured = Ok data
       /\ lineItems data
          = Some [ mkLineItem (VString "gid://shopify/ProductVariant/123")
                     (VNumber (number_of_Z 3)) ].
Proof.
  assert (T : truthy (Spec.field Sample.structured "quote[cart_line_items]")
              = true) by reflexivity.
  assert (P : JSON.parse (Spec.field Sample.structured
                            "quote[cart_line_items]")
              = Ok (VArray
                      [ VObject
                          [ ("variantId",
                             VString "gid://shopify/ProductVariant/123");
                            ("quantity", VNumber (number_of_Z 3)) ] ]))
    by (vm_compute; reflexivity).
  split; [exact T|]. split; [exact P|].
  refine (structured_line_items_used JSON.parse Sample.structured _ T P _).
  constructor; [reflexivity | constructor].
Defined.

(** X14.  The fields of the result are those of the payload under the
    [quote[..]] names, as they are; a field the payload does not have is
    [undefined]. *)
Theorem fields_copied JP (payload : value) (data : orderData) :
  parseOrderData JP payload = Ok data ->
  email data = Spec.field payload "quote[email]"
  /\ full_name data = Spec.field payload "quote[full_name]"
  /\ shipping_address1 data = Spec.field payload "quote[shipping_address1]"
  /\ shipping_city data = Spec.field payload "quote[shipping_city]"
  /\ shipping_province data = Spec.field payload "quote[shipping_province]"
  /\ shipping_country data = Spec.field payload "quote[shipping_country]"
  /\ shipping_zip data = Spec.field payload "quote[shipping_zip]"
  /\ cart data = Spec.field payload "quote[Cart]"
  /\ cart_line_items data = Spec.field payload "quote[cart_line_items]"
  /\ cart_total data = Spec.field payload "quote[cart_total]".
Proof.
  destruct (Spec.nullish payload) eqn:N.
  - destruct (readFields_nullish payload N) as [e R].
    unfold parseOrderData. rewrite R. discriminate.
  - unfold parseOrderData, readFields. rewrite !(getProp_field _ _ N).
    cbn [bind]. unfold deriveLineItems. cbn [cart_line_items cart].
    intros H.
    assert (K : forall d0 d,
              (exists items, d = set_lineItems d0 items) \/ d = d0 ->
              email d = email d0 /\ full_name d = full_name d0
              /\ shipping_address1 d = shipping_address1 d0
              /\ shipping_city d = shipping_city d0
              /\ shipping_province d = shipping_province d0
              /\ shipping_country d = shipping_country d0
              /\ shipping_zip d = shipping_zip d0
              /\ cart d = cart d0
              /\ cart_line_items d = cart_line_items d0
              /\ cart_total d = cart_total d0).
    { intros d0 d [[items ->]| ->]; repeat split; reflexivity. }
    match type of H with
    | context [set_lineItems ?d0] => apply (K d0 data)
    end.
    destruct (truthy (Spec.field payload "quote[cart_line_items]")).
    + destruct (structuredLineItems JP _) as [its|e]; cbn [bind try_catch] in H.
      * injection H as <-. left. eexists; reflexivity.
      * destruct (parseCartText _) as [its|e']; cbn [bind] in H;
          [|discriminate]. injection H as <-. left. eexists; reflexivity.
    + destruct (truthy (Spec.field payload "quote[Cart]")).
      * destruct (parseCartText _) as [its|e']; cbn [bind] in H;
          [|discriminate]. injection H as <-. left. eexists; reflexivity.
      * injection H as <-. now right.
Qed.

Lemma fields_copied_witness :
  exists data,
    parseOrderData JSON.parse Example.brokenJson = Ok data
    /\ email data = VString "ana@example.com"
    /\ cart_total data = VUndefined.
Proof.
  destruct (parseOrderData JSON.parse Example.brokenJson) as [data|e] eqn:P;
    [|vm_compute in P; discriminate P].
  exists data. split; [reflexivity|].
  pose proof (fields_copied JSON.parse Example.brokenJson data P) as F.
  split; [exact (proj1 F)|].
  exact (proj2 (proj2 (proj2 (proj2 (proj2 (proj2 (proj2 (proj2 (proj2 F))))))))).
Defined.

Lemma lookup_missing (name : string) (fields : list (string * value)) :
  (forall k v, In (k, v) fields -> k <> name) -> lookup name fields = None.
Proof.
  induction fields as [|[k v] fields IH]; intros H; simpl; [reflexivity|].
  rewrite IH by (intros k' v' I; apply (H k' v'); now right).
  destruct (String.eqb_spec k name) as [E|N]; [|reflexivity].
  exfalso. apply (H k v); [now left | exact E].
Qed.

(** X15.  Only the [quote[..]] names are read, although the comment in the
    source speaks of [contact[..]] too: for an object none of whose keys
    starts with [quote[], every field of the result is [undefined] and no
    line items are derived. *)
Theorem other_prefixes_ignored JP (fields : list (string * value)) :
  (forall k v, In (k, v) fields -> prefix "quote[" k = false) ->
  parseOrderData JP (VObject fields)
  = Ok (mkOrderData VUndefined VUndefined VUndefined VUndefined VUndefined
          VUndefined VUndefined VUndefined VUndefined VUndefined None).
Proof.
  intros H.
  assert (L : forall name, prefix "quote[" name = true ->
                           lookup name fields = None).
  { intros name P. apply lookup_missing. intros k v I E. subst k.
    rewrite (H _ _ I) in P. discriminate. }
  unfold parseOrderData, readFields, getProp.
  rewrite !L by reflexivity. reflexivity.
Qed.

Lemma other_prefixes_ignored_witness :
  (forall k v,
     In (k, v) [ ("contact[email]", VString "ana@example.com");
                 ("contact[Cart]", VString Example.cartText) ] ->
     prefix "quote[" k = false)
  /\ parseOrderData JSON.parse Sample.contactForm
     = Ok (mkOrderData VUndefined VUndefined VUndefined VUndefined VUndefined
             VUndefined VUndefined VUndefined VUndefined VUndefined None).
Proof.
  assert (H : forall k v,
            In (k, v) [ ("contact[email]", VString "ana@example.com");
                        ("contact[Cart]", VString Example.cartText) ] ->
            prefix "quote[" k = false).
  { intros k v [[= <- _]|[[= <- _]|[]]]; reflexivity. }
  split; [exact H|].
  exact (other_prefixes_ignored JSON.parse _ H).
Defined.

(** X16.  When the structured field is absent or falsy and the cart
    description is a non-empty string, the line items are those
    [parseCartText] derives from it, and [JSON.parse] has no part in the
    result. *)
Theorem cart_text_used JP (payload : value) (text : string) :
  truthy (Spec.field payload "quote[cart_line_items]") = false ->
  Spec.field payload "quote[Cart]" = VString text ->
  text <> EmptyString ->
  (forall JP', parseOrderData JP' payload = parseOrderData JP payload)
  /\ exists data items,
       parseOrderData JP payload = Ok data
       /\ parseCartText (VString text) = Ok items
       /\ lineItems data = Some items.
Proof.
  intros T C N.
  assert (NP : Spec.nullish payload = false)
    by (destruct payload; simpl in C; try discriminate; reflexivity).
  destruct (readFields_not_nullish payload NP) as (d & R & Ec & El & En).
  assert (TC : truthy (cart d) = true)
    by (rewrite Ec, C; destruct text; [congruence | reflexivity]).
  destruct (parseCartText_text_or_falsy (VString text)) as [items P];
    [left; now exists text|].
  assert (D : forall J, parseOrderData J payload
                        = Ok (set_lineItems d items)).
  { intros J. unfold parseOrderData. rewrite R. cbn [bind].
    unfold deriveLineItems. rewrite El, T, TC, Ec, C, P. reflexivity. }
  split; [intros JP'; now rewrite !D|].
  exists (set_lineItems d items), items. rewrite D. auto.
Qed.

Lemma cart_text_used_witness :
  truthy (Spec.field (Object_fromEntries
                        [ ("quote[email]", "ana@example.com");
                          ("quote[Cart]", Example.cartText) ])
            "quote[cart_line_items]") = false
  /\ Example.cartText <> EmptyString
  /\ exists data items,
       parseOrderData JSON.parse
         (Object_fromEntries [ ("quote[email]", "ana@example.com");
                               ("quote[Cart]", Example.cartText) ])
       = Ok data
       /\ parseCartText (VString Example.cartText) = Ok items
       /\ lineItems data = Some items.
Proof.
  assert (N : Example.cartText <> EmptyString) by discriminate.
  split; [reflexivity|]. split; [exact N|].
  exact (proj2 (cart_text_used JSON.parse
                  (Object_fromEntries
                     [ ("quote[email]", "ana@example.com");
                       ("quote[Cart]", Example.cartText) ])
                  Example.cartText eq_refl eq_refl N)).
Defined.

(* ================================================================== *)
(** * Further properties of parseCartText *)
(* ================================================================== *)

Lemma split_head_prefix (sep : ascii) (s p : string) (ps : list string) :
  JSString.split sep s = p :: ps -> exists post, s = (p ++ post)%string.
Proof.
  revert p ps. induction s as [|c s IH]; intros p ps; simpl.
  - intros [= <- _]. now exists EmptyString.
  - destruct (Ascii.eqb c sep).
    + intros [= <- _]. now exists (String c s).
    + destruct (JSString.split sep s) as [|p' ps'] eqn:E.
      * now destruct (split_not_nil sep s).
      * intros [= <- _]. destruct (IH p' ps' eq_refl) as [post ->].
        now exists post.
Qed.

Lemma split_piece_inside (sep : ascii) (s piece : string) :
  In piece (JSString.split sep s) ->
  exists pre post, s = (pre ++ piece ++ post)%string.
Proof.
  revert piece. induction s as [|c s IH]; intros piece; simpl.
  - intros [<-|[]]. now exists EmptyString, EmptyString.
  - destruct (Ascii.eqb c sep).
    + intros [<-|I].
      * exists EmptyString, (String c s). reflexivity.
      * destruct (IH _ I) as (pre & post & ->).
        exists (String c pre), post. reflexivity.
    + destruct (JSString.split sep s) as [|p ps] eqn:E.
      * now destruct (split_not_nil sep s).
      * intros [<-|I].
        -- destruct (split_head_prefix sep s p ps E) as [post ->].
           exists EmptyString, post. reflexivity.
        -- destruct (IH piece (or_intror I)) as (pre & post & ->).
           exists (String c pre), post. reflexivity.
Qed.

Lemma Contains_inside (needle pre s post : string) :
  Spec.Contains needle s -> Spec.Contains needle (pre ++ s ++ post)%string.
Proof.
  intros (a & b & ->). exists (pre ++ a)%string, (b ++ post)%string.
  now rewrite !append_assoc.
Qed.

(** X17.  A cart description without the multiplication sign, or without
    the dollar sign, gives no line items. *)
Theorem no_marker_no_items (text : string) :
  ~ Spec.Contains times text \/ ~ Spec.Contains dollar text ->
  parseCartText (VString text) = Ok [].
Proof.
  intros H. rewrite parseCartText_text. f_equal.
  rewrite (filter_ext_in isItemLine (fun _ => false));
    [now rewrite filter_false|].
  intros line I. destruct (isItemLine line) eqn:E; [|reflexivity].
  exfalso. apply isItemLine_ItemLine in E as [Ct Cd].
  destruct (split_piece_inside _ _ _ I) as (pre & post & ->).
  destruct H as [H|H]; apply H; now apply Contains_inside.
Qed.

Lemma no_marker_no_items_witness :
  (~ Spec.Contains times "2 x Widget $10.00"
   \/ ~ Spec.Contains dollar "2 x Widget $10.00")
  /\ parseCartText (VString "2 x Widget $10.00") = Ok [].
Proof.
  assert (H : ~ Spec.Contains times "2 x Widget $10.00"
              \/ ~ Spec.Contains dollar "2 x Widget $10.00").
  { left. intros C. apply includes_Contains in C. vm_compute in C.
    discriminate C. }
  split; [exact H|].
  exact (no_marker_no_items "2 x Widget $10.00" H).
Defined.

Lemma split_no_sep (sep : ascii) (s : string) :
  ~ In sep (list_ascii_of_string s) -> JSString.split sep s = [s].
Proof.
  induction s as [|c s IH]; simpl; [reflexivity|]. intros N.
  destruct (Ascii.eqb_spec c sep) as [E|_]; [tauto|].
  rewrite IH by tauto. reflexivity.
Qed.

(** X18.  A line that starts with its quantity (digits, then any white
    space, then the multiplication sign) and shows a price gives one line
    item, with that number as quantity. *)
Theorem leading_quantity_is_read (ds ws post : string) :
  Spec.Digits ds -> Spec.Spaces ws -> Spec.Contains dollar post ->
  ~ In LF (list_ascii_of_string (ds ++ ws ++ times ++ post)) ->
  parseCartText (VString (ds ++ ws ++ times ++ post))
  = Ok [ mkLineItem (VString defaultVariantId)
           (VNumber (number_of_Z (Z.of_N (Spec.decimal ds)))) ].
Proof.
  intros D S C N. rewrite parseCartText_text.
  rewrite (split_no_sep LF (ds ++ ws ++ times ++ post)%string N).
  assert (I : isItemLine (ds ++ ws ++ times ++ post) = true).
  { apply isItemLine_ItemLine. split.
    - exists (ds ++ ws)%string, post. now rewrite append_assoc.
    - pose proof (Contains_inside dollar (ds ++ ws ++ times)%string post
                    EmptyString C) as C'.
      rewrite append_nil_r in C'. now rewrite !append_assoc in C'. }
  cbn [filter]. rewrite I. cbn [map]. unfold lineItemOfLine.
  assert (M : QuantityRegExp.exec (ds ++ ws ++ times ++ post) = Some ds).
  { apply exec_complete. exists EmptyString, (ds ++ ws ++ times ++ post)%string.
    split; [reflexivity|]. split.
    - split; [exact D|]. now exists ws, post.
    - intros pre' suf' ds' _ L. simpl in L. lia. }
  rewrite M, (parseInt_digits ds D). reflexivity.
Qed.

Lemma leading_quantity_is_read_witness :
  Spec.Digits "12" /\ Spec.Spaces " " /\ Spec.Contains dollar " Widget $3"
  /\ parseCartText (VString "12 × Widget $3")
     = Ok [ mkLineItem (VString defaultVariantId)
              (VNumber (number_of_Z 12)) ].
Proof.
  assert (D : Spec.Digits "12").
  { split; [discriminate|].
    intros c [<-|[<-|[]]]; reflexivity. }
  assert (S : Spec.Spaces " ")
    by (apply Spec.Spaces_1; [reflexivity | constructor]).
  assert (C : Spec.Contains dollar " Widget $3")
    by (exists " Widget ", "3"; reflexivity).
  split; [exact D|]. split; [exact S|]. split; [exact C|].
  refine (leading_quantity_is_read "12" " " " Widget $3" D S C _).
  vm_compute. intros H.
  repeat (destruct H as [H|H]; [discriminate H|]). exact H.
Defined.

Lemma split_app (sep : ascii) (a b : string) :
  JSString.split sep (a ++ String sep b)
  = JSString.split sep a ++ JSString.split sep b.
Proof.
  induction a as [|c a IH]; cbn [append JSString.split].
  - now rewrite Ascii.eqb_refl.
  - rewrite IH. destruct (Ascii.eqb c sep); [reflexivity|].
    destruct (JSString.split sep a) as [|p ps] eqn:E;
      [now destruct (split_not_nil sep a) | reflexivity].
Qed.

(** X19.  The line items of two cart descriptions put one after the
    other, a line feed between them, are those of the first followed by
    those of the second. *)
Theorem cart_texts_compose (a b : string) :
  exists items_a items_b,
    parseCartText (VString a) = Ok items_a
    /\ parseCartText (VString b) = Ok items_b
    /\ parseCartText (VString (a ++ String LF b)) = Ok (items_a ++ items_b).
Proof.
  do 2 eexists. rewrite !parseCartText_text.
  split; [reflexivity|]. split; [reflexivity|].
  now rewrite split_app, filter_app, map_app.
Qed.

(* ================================================================== *)
(** * Properties of reading the body *)
(* ================================================================== *)

(** X20.  A body that is announced neither as JSON nor as a form is taken
    as text and never parsed: every field of the normalised order is
    [undefined] and no line items are derived, whatever the text. *)
Theorem text_body_gives_empty_order JP (req : request) (text : string) :
  header_includes (header_content_type req) "application/json" = false ->
  header_includes (header_content_type req)
    "application/x-www-form-urlencoded" = false ->
  request_text req = Ok text ->
  readPayload req = Ok (VString text)
  /\ parseOrderData JP (VString text)
     = Ok (mkOrderData VUndefined VUndefined VUndefined VUndefined VUndefined
             VUndefined VUndefined VUndefined VUndefined VUndefined None).
Proof.
  intros J F T. unfold readPayload. cbv zeta. rewrite J, F, T.
  split; reflexivity.
Qed.

Lemma text_body_gives_empty_order_witness :
  readPayload
    (mkRequest Example.proxyParams (Some "text/plain")
       (Throw (SyntaxError "Unexpected token q in JSON at position 0"))
       (Throw (TypeError "Could not parse content as FormData."))
       (Ok "quote[email]=ana@example.com"))
  = Ok (VString "quote[email]=ana@example.com").
Proof.
  exact (proj1 (text_body_gives_empty_order JSON.parse
                  (mkRequest Example.proxyParams (Some "text/plain")
                     (Throw (SyntaxError
                               "Unexpected token q in JSON at position 0"))
                     (Throw (TypeError "Could not parse content as FormData."))
                     (Ok "quote[email]=ana@example.com"))
                  "quote[email]=ana@example.com" eq_refl eq_refl eq_refl)).
Defined.

Lemma lookup_app_last (name : string) (v : value)
    (before after : list (string * value)) :
  (forall k w, In (k, w) after -> k <> name) ->
  lookup name (before ++ (name, v) :: after) = Some v.
Proof.
  intros H. induction before as [|[k w] before IH]; simpl.
  - rewrite (lookup_missing name after H). now rewrite String.eqb_refl.
  - now rewrite IH.
Qed.

(** X21.  In a form that repeats a field, the last value is the one that
    is normalised. *)
Theorem form_last_value_wins (req : request) (name val : string)
    (before after : list (string * string)) :
  header_includes (header_content_type req) "application/json" = false ->
  header_includes (header_content_type req)
    "application/x-www-form-urlencoded" = true ->
  request_formData req = Ok (before ++ (name, val) :: after) ->
  (forall k w, In (k, w) after -> k <> name) ->
  exists payload,
    readPayload req = Ok payload /\ Spec.field payload name = VString val.
Proof.
  intros J F D H. unfold readPayload. cbv zeta. rewrite J, F, D. cbn [bind].
  eexists. split; [reflexivity|].
  unfold Object_fromEntries, Spec.field.
  rewrite map_app. cbn [map fst snd].
  rewrite lookup_app_last; [reflexivity|].
  intros k w I. apply in_map_iff in I as ([k' w'] & [= <- _] & I).
  exact (H k' w' I).
Qed.

Lemma form_last_value_wins_witness :
  exists payload,
    readPayload
      (mkRequest Example.proxyParams
         (Some "application/x-www-form-urlencoded")
         (Throw (SyntaxError "Unexpected token q in JSON at position 0"))
         (Ok [ ("quote[email]", "first@example.com");
               ("quote[email]", "last@example.com");
               ("quote[full_name]", "Ana") ])
         (Ok EmptyString))
    = Ok payload
    /\ Spec.field payload "quote[email]" = VString "last@example.com".
Proof.
  refine (form_last_value_wins
            (mkRequest Example.proxyParams
               (Some "application/x-www-form-urlencoded")
               (Throw (SyntaxError "Unexpected token q in JSON at position 0"))
               (Ok [ ("quote[email]", "first@example.com");
                     ("quote[email]", "last@example.com");
                     ("quote[full_name]", "Ana") ])
               (Ok EmptyString))
            "quote[email]" "last@example.com"
            [("quote[email]", "first@example.com")]
            [("quote[full_name]", "Ana")] eq_refl eq_refl eq_refl _).
  intros k w [[= <- _]|[]]. discriminate.
Defined.

(* ================================================================== *)
(** * Properties of the app proxy *)
(* ================================================================== *)

Section ProxyHandlers.
Variable cmp : string -> string -> Z.
Variable admin : Type.
Variable unauthenticated_admin : string -> result admin.
Variable admin_graphql :
  admin -> string -> DraftOrderInput.t -> result value.
Variable SECRET : option string.
Variable now : string.

Local Abbreviation proxy_loader :=
  (Proxy.loader cmp admin unauthenticated_admin admin_graphql SECRET now).
Local Abbreviation proxy_action :=
  (Proxy.action cmp admin unauthenticated_admin admin_graphql SECRET now).
Local Abbreviation draftOrderOf :=
  (Proxy.draftOrderResultOf admin unauthenticated_admin admin_graphql).

Lemma proxy_submission_throws (params : URLSearchParams.t) (shop : string)
    (t : thrown) :
  URLSearchParams.get params "shop" = Some shop -> shop <> EmptyString ->
  (unauthenticated_admin shop = Throw t
   \/ exists adm,
        unauthenticated_admin shop = Ok adm
        /\ admin_graphql adm DRAFT_ORDER_MUTATION Proxy.variables = Throw t) ->
  draftOrderOf params
  = (message <- messageOf t ;; Ok (DraftOrderFailure message false)).
Proof.
  intros G S F. unfold Proxy.draftOrderResultOf. cbv zeta. rewrite G.
  destruct shop as [|c shop]; [congruence|]. cbn [JSString.falsy].
  destruct F as [F|(adm & F & C)]; rewrite F; cbn [bind try_catch];
    [reflexivity|].
  unfold Proxy.createDraftOrder. rewrite C. reflexivity.
Qed.

(** X22.  When getting the admin client or creating the draft order
    rejects, the [catch] of the GET handler of the proxy reads the
    message of what was thrown.  If it can be read, a verified request is
    answered 200 with [draftOrder] equal to [{ error, success: false }].
    If it cannot, because the rejection is [null] or [undefined], the
    [catch] throws, no [try] encloses it, and the handler itself
    throws. *)
Theorem proxy_loader_submission_failure (req : Proxy.request)
    (shop : string) (t : thrown) :
  verifyShopifyRequest cmp (Proxy.searchParams req) SECRET = true ->
  URLSearchParams.get (Proxy.searchParams req) "shop" = Some shop ->
  shop <> EmptyString ->
  (unauthenticated_admin shop = Throw t
   \/ exists adm,
        unauthenticated_admin shop = Ok adm
        /\ admin_graphql adm DRAFT_ORDER_MUTATION Proxy.variables = Throw t) ->
  (forall message,
     messageOf t = Ok message ->
     proxy_loader req
     = Ok (Proxy.mkResponse
             (Proxy.LoaderData "App proxy is working!" now
                (Proxy.or_else (Proxy.splat req) EmptyString)
                (Object_fromEntries (Proxy.searchParams req))
                shop (Proxy.host req)
                (Proxy.or_else (Proxy.user_agent req) "unknown")
                true (DraftOrderFailure message false))
             200 Proxy.cors))
  /\ (forall t', messageOf t = Throw t' -> proxy_loader req = Throw t').
Proof.
  intros V G S F. unfold Proxy.loader. cbv zeta. rewrite V. cbn [negb].
  rewrite (proxy_submission_throws _ shop t G S F). rewrite G.
  split.
  - intros message M. rewrite M. cbn [bind].
    destruct shop; [congruence | reflexivity].
  - intros t' M. rewrite M. reflexivity.
Qed.

(** X23.  The POST handler of the proxy reads the form after the draft
    order and outside any [try].  A request that is not verified is
    answered 401 without the form being read.  For a verified request
    whose form cannot be read the handler itself throws, where the
    handler of /orders answers 500: it throws what the reader of the form
    threw, unless the [catch] of the draft order threw before the form
    was read. *)
Theorem proxy_action_unreadable_form (req : Proxy.request) (e : thrown) :
  Proxy.formData req = Throw e ->
  proxy_action req
  = if verifyShopifyRequest cmp (Proxy.searchParams req) SECRET
    then match draftOrderOf (Proxy.searchParams req) with
         | Ok _ => Throw e
         | Throw t => Throw t
         end
    else Ok Proxy.unauthorized.
Proof.
  intros F. unfold Proxy.action. cbv zeta.
  destruct (verifyShopifyRequest cmp (Proxy.searchParams req) SECRET);
    cbn [negb]; [|reflexivity].
  destruct (draftOrderOf (Proxy.searchParams req)); cbn [bind];
    [|reflexivity].
  rewrite F. reflexivity.
Qed.

(** X24.  The draft order the proxy creates does not depend on the
    request: the collaborator is asked with the fixed order of the source
    (one unit of the default variant, tags VIP and PhoneOrder), and the
    POST handler answers 200 with the collaborator's response and the
    form, whatever the form holds. *)
Theorem proxy_action_fixed_order (req : Proxy.request) (shop : string)
    (adm : admin) (created : value) (form : list (string * string)) :
  verifyShopifyRequest cmp (Proxy.searchParams req) SECRET = true ->
  URLSearchParams.get (Proxy.searchParams req) "shop" = Some shop ->
  shop <> EmptyString ->
  unauthenticated_admin shop = Ok adm ->
  admin_graphql adm DRAFT_ORDER_MUTATION Proxy.variables = Ok created ->
  Spec.nullish created = false ->
  Proxy.formData req = Ok form ->
  proxy_action req
  = Ok (Proxy.mkResponse
          (Proxy.ActionData "App proxy POST is working!" now
             (Proxy.or_else (Proxy.splat req) EmptyString) "POST"
             (Object_fromEntries form) shop true
             (DraftOrderResponse created))
          200 Proxy.cors).
Proof.
  intros V G S A C N F. unfold Proxy.action, Proxy.draftOrderResultOf.
  cbv zeta. rewrite V. cbn [negb]. rewrite G.
  destruct shop as [|c shop]; [congruence|]. cbn [JSString.falsy Proxy.or_else].
  rewrite A. cbn [bind]. unfold Proxy.createDraftOrder. rewrite C.
  cbn [try_catch bind]. rewrite (getProp_field _ _ N).
  cbn [try_catch bind]. rewrite F. reflexivity.
Qed.

(** X25.  Without a [shop] parameter, or with an empty one, the GET
    handler of the proxy answers a verified request 200 with the shop
    reported as [unknown] and [draftOrder] null, whatever the
    collaborator would do. *)
Theorem proxy_loader_without_shop (req : Proxy.request) :
  verifyShopifyRequest cmp (Proxy.searchParams req) SECRET = true ->
  URLSearchParams.get (Proxy.searchParams req) "shop" = None
  \/ URLSearchParams.get (Proxy.searchParams req) "shop" = Some EmptyString ->
  proxy_loader req
  = Ok (Proxy.mkResponse
          (Proxy.LoaderData "App proxy is working!" now
             (Proxy.or_else (Proxy.splat req) EmptyString)
             (Object_fromEntries (Proxy.searchParams req))
             "unknown" (Proxy.host req)
             (Proxy.or_else (Proxy.user_agent req) "unknown")
             true DraftOrderNull)
          200 Proxy.cors).
Proof.
  intros V S. unfold Proxy.loader, Proxy.draftOrderResultOf. cbv zeta.
  rewrite V. cbn [negb]. now destruct S as [->| ->].
Qed.

End ProxyHandlers.

Lemma proxyPost_verified :
  verifyShopifyRequest Collation.localeCompare
    (Proxy.searchParams Sample.proxyPost) (Some Example.secret) = true.
Proof. vm_compute. reflexivity. Qed.

Lemma proxy_loader_submission_failure_witness :
  verifyShopifyRequest Collation.localeCompare
    (Proxy.searchParams Sample.proxyPost) (Some Example.secret) = true
  /\ URLSearchParams.get (Proxy.searchParams Sample.proxyPost) "shop"
     = Some "quotes.myshopify.com"
  /\ Example.admin_without_session "quotes.myshopify.com"
     = Throw Example.noSession
  /\ Proxy.loader Collation.localeCompare unit
       Example.admin_without_session Example.graphql_unreached
       (Some Example.secret) "2024-01-01T00:00:00.000Z" Sample.proxyPost
     = Ok (Proxy.mkResponse
             (Proxy.LoaderData "App proxy is working!"
                "2024-01-01T00:00:00.000Z" "quote"
                (Object_fromEntries (Proxy.searchParams Sample.proxyPost))
                "quotes.myshopify.com" "quotes.myshopify.com" "Mozilla/5.0"
                true
                (DraftOrderFailure (error_message Example.noSession) false))
             200 Proxy.cors)
  /\ Sample.admin_rejecting_undefined "quotes.myshopify.com"
     = Throw (ThrownValue VUndefined)
  /\ Proxy.loader Collation.localeCompare unit
       Sample.admin_rejecting_undefined Example.graphql_unreached
       (Some Example.secret) "2024-01-01T00:00:00.000Z" Sample.proxyPost
     = Throw
         (TypeError
            "Cannot read properties of undefined (reading 'message')").
Proof.
  assert (S : "quotes.myshopify.com" <> EmptyString) by discriminate.
  split; [exact proxyPost_verified|]. split; [reflexivity|].
  split; [reflexivity|]. split; [|split; [reflexivity|]].
  - exact (proj1 (proxy_loader_submission_failure Collation.localeCompare
                    unit Example.admin_without_session
                    Example.graphql_unreached
                    (Some Example.secret) "2024-01-01T00:00:00.000Z"
                    Sample.proxyPost "quotes.myshopify.com"
                    Example.noSession
                    proxyPost_verified eq_refl S (or_introl eq_refl))
             _ eq_refl).
  - exact (proj2 (proxy_loader_submission_failure Collation.localeCompare
                    unit Sample.admin_rejecting_undefined
                    Example.graphql_unreached
                    (Some Example.secret) "2024-01-01T00:00:00.000Z"
                    Sample.proxyPost "quotes.myshopify.com"
                    (ThrownValue VUndefined)
                    proxyPost_verified eq_refl S (or_introl eq_refl))
             _ eq_refl).
Defined.

Lemma proxy_action_unreadable_form_witness :
  Proxy.formData Sample.unreadableForm
  = Throw (TypeError "Could not parse content as FormData.")
  /\ Proxy.action Collation.localeCompare unit
       Sample.admin_with_session Sample.graphql_creates
       (Some Example.secret) "2024-01-01T00:00:00.000Z"
       Sample.unreadableForm
     = Throw (TypeError "Could not parse content as FormData.")
  /\ Proxy.action Collation.localeCompare unit
       Sample.admin_rejecting_undefined Example.graphql_unreached
       (Some Example.secret) "2024-01-01T00:00:00.000Z"
       Sample.unreadableForm
     = Throw
         (TypeError
            "Cannot read properties of undefined (reading 'message')").
Proof.
  assert (V : verifyShopifyRequest Collation.localeCompare
                (Proxy.searchParams Sample.unreadableForm)
                (Some Example.secret) = true) by (vm_compute; reflexivity).
  split; [reflexivity|]. split.
  - rewrite (proxy_action_unreadable_form Collation.localeCompare unit
               Sample.admin_with_session Sample.graphql_creates
               (Some Example.secret) "2024-01-01T00:00:00.000Z"
               Sample.unreadableForm _ eq_refl).
    rewrite V. reflexivity.
  - rewrite (proxy_action_unreadable_form Collation.localeCompare unit
               Sample.admin_rejecting_undefined Example.graphql_unreached
               (Some Example.secret) "2024-01-01T00:00:00.000Z"
               Sample.unreadableForm _ eq_refl).
    rewrite V. reflexivity.
Defined.

Lemma proxy_action_fixed_order_witness :
  verifyShopifyRequest Collation.localeCompare
    (Proxy.searchParams Sample.proxyPost) (Some Example.secret) = true
  /\ Sample.graphql_creates tt DRAFT_ORDER_MUTATION Proxy.variables
     = Ok Sample.created
  /\ Proxy.action Collation.localeCompare unit
       Sample.admin_with_session Sample.graphql_creates
       (Some Example.secret) "2024-01-01T00:00:00.000Z" Sample.proxyPost
     = Ok (Proxy.mkResponse
             (Proxy.ActionData "App proxy POST is working!"
                "2024-01-01T00:00:00.000Z" "quote" "POST"
                (Object_fromEntries [ ("quote[email]", "ana@example.com") ])
                "quotes.myshopify.com" true
                (DraftOrderResponse Sample.created))
             200 Proxy.cors).
Proof.
  assert (S : "quotes.myshopify.com" <> EmptyString) by discriminate.
  split; [exact proxyPost_verified|]. split; [reflexivity|].
  exact (proxy_action_fixed_order Collation.localeCompare unit
           Sample.admin_with_session Sample.graphql_creates
           (Some Example.secret) "2024-01-01T00:00:00.000Z" Sample.proxyPost
           "quotes.myshopify.com" tt Sample.created
           [ ("quote[email]", "ana@example.com") ]
           proxyPost_verified eq_refl S eq_refl eq_refl eq_refl eq_refl).
Defined.

Lemma proxy_loader_without_shop_witness :
  verifyShopifyRequest Collation.localeCompare
    (Proxy.searchParams Sample.proxyNoShop) (Some Example.secret) = true
  /\ (URLSearchParams.get (Proxy.searchParams Sample.proxyNoShop) "shop"
      = None
      \/ URLSearchParams.get (Proxy.searchParams Sample.proxyNoShop) "shop"
         = Some EmptyString)
  /\ Proxy.loader Collation.localeCompare unit
       Sample.admin_with_session Sample.graphql_creates
       (Some Example.secret) "2024-01-01T00:00:00.000Z"
       Sample.proxyNoShop
     = Ok (Proxy.mkResponse
             (Proxy.LoaderData "App proxy is working!"
                "2024-01-01T00:00:00.000Z"
                EmptyString (Object_fromEntries Sample.noShop) "unknown"
                "quotes.myshopify.com" "unknown" true DraftOrderNull)
             200 Proxy.cors).
Proof.
  assert (V : verifyShopifyRequest Collation.localeCompare
                (Proxy.searchParams Sample.proxyNoShop) (Some Example.secret)
              = true) by (vm_compute; reflexivity).
  assert (S : URLSearchParams.get (Proxy.searchParams Sample.proxyNoShop)
                "shop" = None
              \/ URLSearchParams.get (Proxy.searchParams Sample.proxyNoShop)
                   "shop" = Some EmptyString) by (left; reflexivity).
  split; [exact V|]. split; [exact S|].
  rewrite (proxy_loader_without_shop Collation.localeCompare unit
             Sample.admin_with_session Sample.graphql_creates
             (Some Example.secret) "2024-01-01T00:00:00.000Z"
             Sample.proxyNoShop V S).
  reflexivity.
Defined.
